(** * covidtrucker: a shallow embedding of [covidtrucker.py]

    The script is a linear pipeline over a pandas dataframe: load the
    OWID CSV (remote, with a local fallback), clean it, filter it, draw
    charts, print a summary and run a terminal menu.  The dataframe is
    modelled as a list of typed rows together with the list of column
    labels that are present; numeric cells are IEEE binary64 values
    (pandas [float64], missing = NaN), text cells are [option string]
    (missing = [None]) and the date cell is [option Z] (nanoseconds
    since the epoch, missing = NaT = [None]).  Output (prints and
    figures) is an explicit trace of events; exceptions are values of an
    error monad.  What the script finds outside itself is a record: the
    answer of the data server, the local file and whether it can be
    written, and the answer of the tile server of the basemap.  The CSV
    reader, the sort of the array library and the table of country
    outlines are parameters. *)

From Stdlib Require Import ZArith List String Ascii Bool Lia Floats.
From Stdlib Require Import Sorting.Sorted Sorting.Permutation.
Import ListNotations.

Local Open Scope string_scope.
Local Open Scope list_scope.

(** ** Exceptions and the error monad *)

Inductive Exception : Type :=
| KeyError (label : string)
| FileNotFoundError
| RequestException
| HTTPError (status : Z)
| ParserError
| EOFError
| OSError
| AttributeError.

Inductive Result (A : Type) : Type :=
| Ok (a : A)
| Raise (e : Exception).

Arguments Ok {A} a.
Arguments Raise {A} e.

Definition bind {A B : Type} (m : Result A) (k : A -> Result B) : Result B :=
  match m with
  | Ok a => k a
  | Raise e => Raise e
  end.

Declare Scope result_scope.
Delimit Scope result_scope with result.
Notation "x <- m ;; k" := (bind m (fun x => k))
  (at level 100, m at next level, right associativity) : result_scope.
Notation "m ;;; k" := (bind m (fun _ => k))
  (at level 100, right associativity) : result_scope.

(** ** Orders used by the dataframe library *)

(** A boolean comparison that is total and transitive: what a sort
    needs of its key order. *)
Class TotalPreorder {A : Type} (leb : A -> A -> bool) : Prop := {
  leb_total : forall x y, leb x y = true \/ leb y x = true;
  leb_trans : forall x y z, leb x y = true -> leb y z = true -> leb x z = true
}.

(** A three-way comparison of keys whose [Eq] is Leibniz equality. *)
Class StrictCompare {A : Type} (cmp : A -> A -> comparison) : Prop := {
  cmp_eq : forall x y, cmp x y = Eq -> x = y;
  cmp_antisym : forall x y, cmp x y = CompOpp (cmp y x);
  cmp_lt_trans : forall x y z, cmp x y = Lt -> cmp y z = Lt -> cmp x z = Lt
}.

Definition leb_of {A : Type} (cmp : A -> A -> comparison) (x y : A) : bool :=
  match cmp x y with
  | Gt => false
  | _ => true
  end.

(** Missing keys sort after every present key ([na_position='last']). *)
Definition na_last_compare {A : Type} (cmp : A -> A -> comparison)
    (x y : option A) : comparison :=
  match x, y with
  | Some a, Some b => cmp a b
  | Some _, None => Lt
  | None, Some _ => Gt
  | None, None => Eq
  end.

(** Lexicographic comparison of a pair of keys ([sort_values] on two
    columns). *)
Definition lex_compare {A B : Type} (cmpA : A -> A -> comparison)
    (cmpB : B -> B -> comparison) (x y : A * B) : comparison :=
  match cmpA (fst x) (fst y) with
  | Eq => cmpB (snd x) (snd y)
  | c => c
  end.

(** A stable sort: elements with equal keys keep their order. *)
Fixpoint insert_sorted {A : Type} (leb : A -> A -> bool) (x : A) (l : list A)
    : list A :=
  match l with
  | [] => [x]
  | y :: l' => if leb x y then x :: l else y :: insert_sorted leb x l'
  end.

Fixpoint stable_sort {A : Type} (leb : A -> A -> bool) (l : list A) : list A :=
  match l with
  | [] => []
  | x :: l' => insert_sorted leb x (stable_sort leb l')
  end.

(** [l] is in ascending order of [leb]: every element is below every
    later one. *)
Definition sorted_by {A : Type} (leb : A -> A -> bool) (l : list A) : Prop :=
  StronglySorted (fun x y => leb x y = true) l.

(** ** The data model *)

(** A timestamp: nanoseconds since 1970-01-01T00:00 ([datetime64[ns]]). *)
Definition Timestamp : Type := Z.

Definition ns_per_day : Z := (86400 * 1000000000)%Z.

(** Days from 1970-01-01 to the civil date [y]-[m]-[d] (proleptic
    Gregorian calendar), as [pd.to_datetime] reads an ISO date. *)
Definition days_from_civil (y m d : Z) : Z :=
  (let y' := if m <=? 2 then y - 1 else y in
   let era := y' / 400 in
   let yoe := y' - era * 400 in
   let mp := (m + 9) mod 12 in
   let doy := (153 * mp + 2) / 5 + d - 1 in
   let doe := yoe * 365 + yoe / 4 - yoe / 100 + doy in
   era * 146097 + doe - 719468)%Z.

Definition to_datetime (y m d : Z) : Timestamp :=
  (days_from_civil y m d * ns_per_day)%Z.

(** One row of the dataframe, restricted to the nine columns the script
    keeps.  A cell of a column that is not among the dataframe's labels
    is never read. *)
Record Row : Type := mkRow {
  iso_code : option string;
  location : option string;
  date : option Timestamp;
  total_cases : float;
  new_cases : float;
  total_deaths : float;
  new_deaths : float;
  total_vaccinations : float;
  people_vaccinated_per_hundred : float
}.

Record DataFrame : Type := mkDataFrame {
  columns : list string;
  rows : list Row
}.

(** The nine columns, as an enumeration, and a cell of any of them. *)
Inductive Column : Type :=
| c_iso_code | c_location | c_date
| c_total_cases | c_new_cases
| c_total_deaths | c_new_deaths
| c_total_vaccinations | c_people_vaccinated_per_hundred.

Inductive Cell : Type :=
| CStr (s : option string)
| CTime (t : option Timestamp)
| CNum (x : float).

Definition label (c : Column) : string :=
  match c with
  | c_iso_code => "iso_code"
  | c_location => "location"
  | c_date => "date"
  | c_total_cases => "total_cases"
  | c_new_cases => "new_cases"
  | c_total_deaths => "total_deaths"
  | c_new_deaths => "new_deaths"
  | c_total_vaccinations => "total_vaccinations"
  | c_people_vaccinated_per_hundred => "people_vaccinated_per_hundred"
  end.

Definition cell (c : Column) (r : Row) : Cell :=
  match c with
  | c_iso_code => CStr (iso_code r)
  | c_location => CStr (location r)
  | c_date => CTime (date r)
  | c_total_cases => CNum (total_cases r)
  | c_new_cases => CNum (new_cases r)
  | c_total_deaths => CNum (total_deaths r)
  | c_new_deaths => CNum (new_deaths r)
  | c_total_vaccinations => CNum (total_vaccinations r)
  | c_people_vaccinated_per_hundred => CNum (people_vaccinated_per_hundred r)
  end.

Definition is_none {A : Type} (o : option A) : bool :=
  match o with
  | None => true
  | Some _ => false
  end.

(** [pd.isna] on one cell. *)
Definition isna (v : Cell) : bool :=
  match v with
  | CStr s => is_none s
  | CTime t => is_none t
  | CNum x => is_nan x
  end.

Definition has_column (df : DataFrame) (name : string) : bool :=
  existsb (String.eqb name) (columns df).

(** [df[name]]: the label must be present. *)
Definition require_column (df : DataFrame) (name : string) : Result unit :=
  if has_column df name then Ok tt else Raise (KeyError name).

(** ** 2. Data cleaning and preparation *)

Definition cols : list string :=
  [ "iso_code"; "location"; "date";
    "total_cases"; "new_cases";
    "total_deaths"; "new_deaths";
    "total_vaccinations"; "people_vaccinated_per_hundred" ].

(** [available = [c for c in cols if c in df.columns]] *)
Definition available (df : DataFrame) : list string :=
  filter (has_column df) cols.

(** [df[available]] *)
Definition select_available (df : DataFrame) : DataFrame :=
  mkDataFrame (available df) (rows df).

(** [.dropna(subset=['date', 'location'])] *)
Definition dropna_date_location (df : DataFrame) : Result DataFrame :=
  (require_column df "date" ;;;
   require_column df "location" ;;;
   Ok (mkDataFrame (columns df)
         (filter (fun r => negb (is_none (date r)) && negb (is_none (location r)))
                 (rows df))))%result.

(** The key of [sort_values(['location', 'date'])].  Text is compared
    as Python compares [str] values, code point by code point, which is
    the byte order of its UTF-8 encoding. *)
Definition sort_key (r : Row) : option string * option Timestamp :=
  (location r, date r).

Definition key_compare : option string * option Timestamp ->
    option string * option Timestamp -> comparison :=
  lex_compare (na_last_compare String.compare) (na_last_compare Z.compare).

Definition row_leb (r1 r2 : Row) : bool :=
  leb_of key_compare (sort_key r1) (sort_key r2).

Definition sort_values_location_date (df : DataFrame) : Result DataFrame :=
  (require_column df "location" ;;;
   require_column df "date" ;;;
   Ok (mkDataFrame (columns df) (stable_sort row_leb (rows df))))%result.

(** The keys of [groupby('location')]: the distinct non-missing
    locations, in ascending order (rows with a missing key are left
    out of every group). *)
Fixpoint present {A : Type} (l : list (option A)) : list A :=
  match l with
  | [] => []
  | Some a :: l' => a :: present l'
  | None :: l' => present l'
  end.

Definition group_keys (rs : list Row) : list string :=
  nodup string_dec (stable_sort String.leb (present (map location rs))).

Definition in_group (k : string) (r : Row) : bool :=
  match location r with
  | Some l => String.eqb l k
  | None => false
  end.

Definition group (k : string) (rs : list Row) : list Row :=
  filter (in_group k) rs.

(** [groupby('location').apply(f)]: [f] runs on each group, the groups
    taken in key order and each keeping the order of its rows, and the
    results are concatenated. *)
Definition groupby_apply (f : list Row -> list Row) (rs : list Row) : list Row :=
  flat_map (fun k => f (group k rs)) (group_keys rs).

(** Forward fill of one cell: a missing value takes the value above. *)
Definition pad_str (prev cur : option string) : option string :=
  if is_none cur then prev else cur.

Definition pad_time (prev cur : option Timestamp) : option Timestamp :=
  if is_none cur then prev else cur.

Definition pad_num (prev cur : float) : float :=
  if is_nan cur then prev else cur.

Definition pad_row (prev cur : Row) : Row :=
  mkRow (pad_str (iso_code prev) (iso_code cur))
        (pad_str (location prev) (location cur))
        (pad_time (date prev) (date cur))
        (pad_num (total_cases prev) (total_cases cur))
        (pad_num (new_cases prev) (new_cases cur))
        (pad_num (total_deaths prev) (total_deaths cur))
        (pad_num (new_deaths prev) (new_deaths cur))
        (pad_num (total_vaccinations prev) (total_vaccinations cur))
        (pad_num (people_vaccinated_per_hundred prev)
                 (people_vaccinated_per_hundred cur)).

Fixpoint ffill_from (prev : Row) (g : list Row) : list Row :=
  match g with
  | [] => []
  | r :: g' => let r' := pad_row prev r in r' :: ffill_from r' g'
  end.

(** [g.fillna(method='ffill')] on the rows of one group, every column. *)
Definition fillna_ffill (g : list Row) : list Row :=
  match g with
  | [] => []
  | r :: g' => r :: ffill_from r g'
  end.

(** [df.groupby('location').apply(lambda g: g.fillna(method='ffill'))
       .reset_index(drop=True)].  The filled groups have the index of
    their rows, so the result has the rows of the groups whether the
    library stacks them in key order or puts them back in the order of
    the table: on the sorted table the two orders are one
    ([groupby_ffill_sort_key] below). *)
Definition groupby_ffill (df : DataFrame) : Result DataFrame :=
  (require_column df "location" ;;;
   Ok (mkDataFrame (columns df) (groupby_apply fillna_ffill (rows df))))%result.

(** The cleaning block, lines 101-106. *)
Definition clean (df : DataFrame) : Result DataFrame :=
  (df1 <- dropna_date_location (select_available df) ;;
   df2 <- sort_values_location_date df1 ;;
   groupby_ffill df2)%result.

(** ** 3. Filters: countries and date range *)

Definition countries : list string := ["United States"; "India"; "Brazil"].

Definition start_date : Timestamp := to_datetime 2021 1 1.

(** [Series.max()] of the date column: missing dates are skipped, and
    the maximum of no date at all is NaT. *)
Fixpoint max_time (l : list (option Timestamp)) : option Timestamp :=
  match l with
  | [] => None
  | None :: l' => max_time l'
  | Some t :: l' =>
      match max_time l' with
      | None => Some t
      | Some m => Some (Z.max t m)
      end
  end.

Definition max_date (rs : list Row) : option Timestamp :=
  max_time (map date rs).

(** [Series.isin]: a missing value is in no list. *)
Definition isin (l : list string) (v : option string) : bool :=
  match v with
  | Some s => existsb (String.eqb s) l
  | None => false
  end.

(** Comparisons of the date column with a timestamp: a comparison with
    NaT on either side is false. *)
Definition time_geb (a b : option Timestamp) : bool :=
  match a, b with
  | Some x, Some y => (y <=? x)%Z
  | _, _ => false
  end.

Definition time_leb (a b : option Timestamp) : bool :=
  match a, b with
  | Some x, Some y => (x <=? y)%Z
  | _, _ => false
  end.

Definition time_eqb (a b : option Timestamp) : bool :=
  match a, b with
  | Some x, Some y => (x =? y)%Z
  | _, _ => false
  end.

Definition mask (end_date : option Timestamp) (r : Row) : bool :=
  isin countries (location r)
  && time_geb (date r) (Some start_date)
  && time_leb (date r) end_date.

(** Lines 111-117: [end_date], [mask] and [df_filt = df.loc[mask]]. *)
Definition filter_block (df : DataFrame) : Result (option Timestamp * DataFrame) :=
  (require_column df "date" ;;;
   let end_date := max_date (rows df) in
   require_column df "location" ;;;
   require_column df "date" ;;;
   require_column df "date" ;;;
   Ok (end_date, mkDataFrame (columns df) (filter (mask end_date) (rows df))))%result.

(** ** 4-5. Charts *)

Definition Series : Type := list (Cell * Cell).

Inductive Figure : Type :=
| TimeSeries (title : string) (metric : Column) (lines : list (string * Series))
| DualAxis (name1 name2 : string) (left right : list (string * Series))
| CasesVsDeaths (lines : list (string * Series * Series))
| ChoroplethMap (title : string) (column : Column)
                (shades : list (string * option string * float)).

(** [data.groupby('location')] as the loop sees it: the groups in key
    order, each with its rows in their order. *)
Definition groupby_location (data : DataFrame) : Result (list (string * list Row)) :=
  (require_column data "location" ;;;
   Ok (map (fun k => (k, group k (rows data))) (group_keys (rows data))))%result.

(** [grp[name]] inside a loop over the groups. *)
Definition column_of (data : DataFrame) (c : Column) (grp : list Row)
    : Result (list Cell) :=
  (require_column data (label c) ;;; Ok (map (cell c) grp))%result.

Definition line_of (data : DataFrame) (c : Column) (grp : list Row) : Result Series :=
  (xs <- column_of data c_date grp ;;
   ys <- column_of data c grp ;;
   Ok (combine xs ys))%result.

Fixpoint for_each {A B : Type} (f : A -> Result B) (l : list A) : Result (list B) :=
  match l with
  | [] => Ok []
  | a :: l' => (b <- f a ;; bs <- for_each f l' ;; Ok (b :: bs))%result
  end.

Definition plot_time_series (data : DataFrame) (metric : Column) (title : string)
    : Result Figure :=
  (groups <- groupby_location data ;;
   lines <- for_each (fun '(loc, grp) =>
                        l <- line_of data metric grp ;; Ok (loc, l)) groups ;;
   Ok (TimeSeries title metric lines))%result.

Definition plot_dual_axis (data : DataFrame) (m1 m2 : Column) (name1 name2 : string)
    : Result Figure :=
  (groups <- groupby_location data ;;
   left <- for_each (fun '(loc, grp) =>
                       l <- line_of data m1 grp ;; Ok (loc, l)) groups ;;
   groups' <- groupby_location data ;;
   right <- for_each (fun '(loc, grp) =>
                        l <- line_of data m2 grp ;; Ok (loc, l)) groups' ;;
   Ok (DualAxis name1 name2 left right))%result.

Definition plot_death_vs_infection (data : DataFrame) : Result Figure :=
  (groups <- groupby_location data ;;
   lines <- for_each (fun '(loc, grp) =>
                        c <- line_of data c_new_cases grp ;;
                        d <- line_of data c_new_deaths grp ;;
                        Ok (loc, c, d)) groups ;;
   Ok (CasesVsDeaths lines))%result.

(** ** 6. Choropleth map *)

(** A row of the [naturalearth_lowres] table: the columns the script
    uses, the outline being the ring of its vertices. *)
Record Region : Type := mkRegion {
  region_name : string;
  iso_a3 : option string;
  geometry : list (float * float)
}.

(** [g[g['date'] == g['date'].max()]] *)
Definition latest_of_group (g : list Row) : list Row :=
  filter (fun r => time_eqb (date r) (max_date g)) g.

(** Lines 158-159: the latest rows of every location, indexed by
    [iso_code]. *)
Definition latest_table (df : DataFrame) : Result DataFrame :=
  (require_column df "location" ;;;
   match group_keys (rows df) with
   | [] => Ok tt
   | _ :: _ => require_column df "date"
   end ;;;
   let latest := groupby_apply latest_of_group (rows df) in
   require_column df "iso_code" ;;;
   Ok (mkDataFrame (columns df) latest))%result.

(** Equality of merge keys: pandas matches a missing key with a missing
    key. *)
Definition key_eqb (a b : option string) : bool :=
  match a, b with
  | Some x, Some y => String.eqb x y
  | None, None => true
  | _, _ => false
  end.

Definition matches (w : Region) (latest : list Row) : list Row :=
  filter (fun r => key_eqb (iso_a3 w) (iso_code r)) latest.

(** [world.merge(latest.reset_index(), left_on='iso_a3',
    right_on='iso_code', how='left')]: the regions in their order, each
    once per matching row of [latest] and once, with no statistics, when
    no row matches. *)
Definition merge_left (world : list Region) (latest : list Row)
    : list (Region * option Row) :=
  flat_map (fun w =>
              match matches w latest with
              | [] => [(w, None)]
              | ms => map (fun r => (w, Some r)) ms
              end) world.

(** A numeric column of the merged table: missing where the region has
    no statistics. *)
Definition merged_num (f : Row -> float) (m : Region * option Row) : float :=
  match snd m with
  | Some r => f r
  | None => nan
  end.

(** Lines 160-166: the merged table and the map shaded by its column
    [total_cases], as [map_df.plot] draws it.  The basemap that line 169
    puts under it is fetched by [add_basemap] below, before the figure
    is shown. *)
Definition plot_choropleth (world : list Region) (latest : DataFrame) : Result Figure :=
  let map_df := merge_left world (rows latest) in
  (require_column latest "total_cases" ;;;
   Ok (ChoroplethMap "Global COVID-19 Total Cases" c_total_cases
         (map (fun m => (region_name (fst m), iso_a3 (fst m),
                         merged_num total_cases m)) map_df)))%result.

(** ** 7. Insights and reporting *)

Record SummaryRow : Type := mkSummaryRow {
  s_row : Row;
  death_rate : float
}.

(** [latest['death_rate'] = latest['total_deaths'] / latest['total_cases']] *)
Definition with_death_rate (latest : DataFrame) : Result (list SummaryRow) :=
  (require_column latest "total_deaths" ;;;
   require_column latest "total_cases" ;;;
   Ok (map (fun r => mkSummaryRow r (total_deaths r / total_cases r)%float)
           (rows latest)))%result.

(** [values.take(indexer)]: the elements of [l] at the positions
    [indexer], in the order of [indexer]. *)
Definition take {A : Type} (indexer : list nat) (l : list A) : list A :=
  flat_map (fun i => match nth_error l i with
                     | Some a => [a]
                     | None => []
                     end) indexer.

(** [sort_values(by, ascending=False)] on one numeric column, as
    [nargsort] computes it: the rows whose key is not missing are
    reversed, put in the order that [argsort] returns for their keys and
    reversed again; the rows whose key is missing follow in their own
    order.  [argsort] is the sort of the array library on an array of
    keys, [items.argsort(kind='quicksort')]: it returns positions, and
    which of two equal keys comes first is its own affair. *)
Definition sort_values_desc {A : Type} (argsort : list float -> list nat)
    (key : A -> float) (l : list A) : list A :=
  let nonnan := rev (filter (fun a => negb (is_nan (key a))) l) in
  let nans := filter (fun a => is_nan (key a)) l in
  rev (take (argsort (map key nonnan)) nonnan) ++ nans.

Definition head {A : Type} (n : nat) (l : list A) : list A := firstn n l.

Definition top5_of (argsort : list float -> list nat) (table : list SummaryRow)
    : list SummaryRow :=
  head 5 (sort_values_desc argsort (fun s => total_cases (s_row s)) table).

(** ** Output *)

Inductive Output : Type :=
| PrintDownloading
| PrintSaved
| PrintRemoteFailed (e : Exception)
| PrintLoaded (n : nat) (labels : list string)
| PrintFiltering (n : nat) (from : Timestamp) (to : option Timestamp)
| Show (fig : Figure)
| PrintTop5Header
| PrintTop5 (table : list SummaryRow)
| PrintMenu
| PrintExiting
| PrintInvalidChoice.

(** A computation of the script: what it has printed and shown so far,
    and its value or the exception that ended it. *)
Definition Run (A : Type) : Type := list Output * Result A.

Definition run_bind {A B : Type} (m : Run A) (k : A -> Run B) : Run B :=
  match m with
  | (out, Ok a) => let (out', r) := k a in (out ++ out', r)
  | (out, Raise e) => (out, Raise e)
  end.

Definition ret {A : Type} (a : A) : Run A := ([], Ok a).
Definition emit (o : Output) : Run unit := ([o], Ok tt).
Definition lift {A : Type} (r : Result A) : Run A := ([], r).

Declare Scope run_scope.
Delimit Scope run_scope with run.
Notation "x <- m ;; k" := (run_bind m (fun x => k))
  (at level 100, m at next level, right associativity) : run_scope.
Notation "m ;;; k" := (run_bind m (fun _ => k))
  (at level 100, right associativity) : run_scope.

Definition trace {A : Type} (m : Run A) : list Output := fst m.
Definition outcome {A : Type} (m : Run A) : Result A := snd m.

(** ** The navigation menu *)

Inductive Step : Type := Continue | Break.

(** The body of the [while True] loop after [input()] has returned
    [choice]. *)
Definition menu_choice (df_filt : DataFrame) (choice : string) : Run Step :=
  (if choice =? "1" then
     fig <- lift (plot_time_series df_filt c_total_cases "Total Cases Over Time") ;;
     emit (Show fig) ;;; ret Continue
   else if choice =? "2" then
     fig <- lift (plot_time_series df_filt c_total_deaths "Total Deaths Over Time") ;;
     emit (Show fig) ;;; ret Continue
   else if (choice =? "3") && has_column df_filt "total_vaccinations" then
     fig <- lift (plot_dual_axis df_filt c_new_cases c_total_vaccinations
                    "Daily New Cases" "Total Vaccinations") ;;
     emit (Show fig) ;;; ret Continue
   else if choice =? "4" then
     fig <- lift (plot_death_vs_infection df_filt) ;;
     emit (Show fig) ;;; ret Continue
   else if choice =? "5" then
     emit PrintExiting ;;; ret Break
   else
     emit PrintInvalidChoice ;;; ret Continue)%run.

(** [navigation_menu()]: [stdin] holds the lines still to be read;
    [input()] on an exhausted stdin raises [EOFError].  The value is the
    rest of stdin when the loop is left by [break]. *)
Fixpoint navigation_menu (df_filt : DataFrame) (stdin : list string)
    : Run (list string) :=
  match stdin with
  | [] => (emit PrintMenu ;;; lift (Raise EOFError))%run
  | choice :: rest =>
      (emit PrintMenu ;;;
       s <- menu_choice df_filt choice ;;
       match s with
       | Continue => navigation_menu df_filt rest
       | Break => ret rest
       end)%run
  end.

(** ** 1. Data collection and loading *)

Record Response : Type := mkResponse {
  status_code : Z;
  content : string
}.

(** The part of the outside world that the script touches: what
    [requests.get(DATA_URL, timeout=10)] does; the file
    [owid-covid-data.csv] of the working directory ([None] when there is
    no such file) and whether it can be opened for writing; and what
    the download of the basemap tiles does. *)
Record World : Type := mkWorld {
  requests_get : Result Response;
  local_file : option string;
  local_writable : bool;
  fetch_tiles : Result unit
}.

(** [resp.raise_for_status()] *)
Definition raise_for_status (resp : Response) : Result unit :=
  if (400 <=? status_code resp)%Z && (status_code resp <? 600)%Z
  then Raise (HTTPError (status_code resp))
  else Ok tt.

(** Lines 74-75: the body of the response, unless the request or
    [raise_for_status] raises. *)
Definition download (w : World) : Result string :=
  (resp <- requests_get w ;;
   raise_for_status resp ;;;
   Ok (content resp))%result.

(** The world [w] with [data] in the local file. *)
Definition with_local (w : World) (data : string) : World :=
  mkWorld (requests_get w) (Some data) (local_writable w) (fetch_tiles w).

(** [with open(LOCAL_PATH, 'wb') as f: f.write(data)]: [open] raises
    when the file cannot be opened for writing, and the file is then as
    it was; otherwise the file holds [data]. *)
Definition write_local (w : World) (data : string) : Result World :=
  if local_writable w then Ok (with_local w data) else Raise OSError.

(** Line 169, [ctx.add_basemap(ax, source=...)]: the tiles are
    downloaded when the call is made. *)
Definition add_basemap (w : World) : Result unit :=
  fetch_tiles w.

(** [end_date.date()] in the message of line 118.  On a file without
    data rows the column [date] holds no timestamps, its maximum is a
    float NaN and the attribute is missing; when rows were read but none
    is left, the maximum is NaT and [NaT.date()] is NaT. *)
Definition date_of_end (raw : DataFrame) (end_date : option Timestamp) : Result unit :=
  match end_date, rows raw with
  | None, [] => Raise AttributeError
  | _, _ => Ok tt
  end.

(** [os.path.exists(LOCAL_PATH)] *)
Definition local_exists (w : World) : bool :=
  negb (is_none (local_file w)).

Section Script.

(** The CSV reader of the dataframe library, on the content of a file:
    [None] when it rejects the content. *)
Variable read_csv : string -> option DataFrame.

(** [argsort(kind='quicksort')] of the array library. *)
Variable argsort : list float -> list nat.

(** The table [gpd.read_file(gpd.datasets.get_path('naturalearth_lowres'))]. *)
Variable world : list Region.

Definition parse (data : string) : Result DataFrame :=
  match read_csv data with
  | Some df => Ok df
  | None => Raise ParserError
  end.

(** [pd.read_csv(LOCAL_PATH, parse_dates=['date'], low_memory=False)] *)
Definition read_local (w : World) : Result DataFrame :=
  match local_file w with
  | Some data => parse data
  | None => Raise FileNotFoundError
  end.

(** The [try] block of [load_data], with the world it leaves. *)
Definition load_remote (w : World) : Run DataFrame * World :=
  match download w with
  | Raise e => (([PrintDownloading], Raise e), w)
  | Ok data =>
      match write_local w data with
      | Raise e => (([PrintDownloading], Raise e), w)
      | Ok w' => (([PrintDownloading; PrintSaved], read_local w'), w')
      end
  end.

Definition load_data (w : World) : Run DataFrame * World :=
  match load_remote w with
  | ((out, Ok df), w') => ((out, Ok df), w')
  | ((out, Raise e), w') =>
      let out' := out ++ [PrintRemoteFailed e] in
      if local_exists w'
      then ((out', read_local w'), w')
      else ((out', Raise FileNotFoundError), w')
  end.

(** Lines 154-155. *)
Definition initial_dual_axis (df_filt : DataFrame) : Run unit :=
  (if has_column df_filt "total_vaccinations" then
     fig <- lift (plot_dual_axis df_filt c_new_cases c_total_vaccinations
                    "Daily New Cases" "Total Vaccinations") ;;
     emit (Show fig)
   else ret tt)%run.

(** Lines 174-177. *)
Definition insights (latest : DataFrame) : Run (list SummaryRow) :=
  (table <- lift (with_death_rate latest) ;;
   let top5 := top5_of argsort table in
   emit PrintTop5Header ;;;
   lift (require_column latest "location") ;;;
   emit (PrintTop5 top5) ;;;
   ret top5)%run.

(** Lines 92-217: everything after [df = load_data()], in the world
    [w] that [load_data] has left. *)
Definition analysis (w : World) (raw : DataFrame) (stdin : list string)
    : Run (list string) :=
  (emit (PrintLoaded (List.length (rows raw)) (columns raw)) ;;;
   df <- lift (clean raw) ;;
   f <- lift (filter_block df) ;;
   let '(end_date, df_filt) := f in
   lift (date_of_end raw end_date) ;;;
   emit (PrintFiltering (List.length countries) start_date end_date) ;;;
   fig1 <- lift (plot_time_series df_filt c_total_cases "Total Cases Over Time") ;;
   emit (Show fig1) ;;;
   fig2 <- lift (plot_time_series df_filt c_total_deaths "Total Deaths Over Time") ;;
   emit (Show fig2) ;;;
   initial_dual_axis df_filt ;;;
   latest <- lift (latest_table df) ;;
   fig <- lift (plot_choropleth world latest) ;;
   lift (add_basemap w) ;;;
   emit (Show fig) ;;;
   insights latest ;;;
   navigation_menu df_filt stdin)%run.

(** The whole script: its trace, how it ends, and the world it leaves. *)
Definition script (w : World) (stdin : list string) : Run (list string) * World :=
  let '(loaded, w') := load_data w in
  ((df <- loaded ;; analysis w' df stdin)%run, w').

End Script.

(** ** Specification vocabulary for loading *)


(** ** Specification vocabulary for the cleaning step *)

(** The rows that [dropna] retains, in the order [sort_values] gives
    them: the input of the grouped forward fill. *)
Definition retained (raw : DataFrame) : list Row :=
  stable_sort row_leb
    (filter (fun r => negb (is_none (date r)) && negb (is_none (location r)))
            (rows raw)).

(** [v] is the forward fill of column [c] at position [i] of the rows
    [g]: the value of the nearest row at or above [i] whose cell is not
    missing, and a missing value when every cell down to [i] is missing. *)
Definition forward_fill_at (c : Column) (g : list Row) (i : nat) (v : Cell) : Prop :=
  (exists j r,
      j <= i /\ nth_error g j = Some r /\ isna (cell c r) = false /\
      v = cell c r /\
      forall k rk, j < k <= i -> nth_error g k = Some rk -> isna (cell c rk) = true)
  \/ (isna v = true /\
      forall k rk, k <= i -> nth_error g k = Some rk -> isna (cell c rk) = true).

(** The cell a left-to-right scan of [l] ends with in column [c],
    starting from the cell [above]. *)
Fixpoint last_valid (c : Column) (above : Cell) (l : list Row) : Cell :=
  match l with
  | [] => above
  | r :: l' => last_valid c (if isna (cell c r) then above else cell c r) l'
  end.

(** ** Sample data *)

(** One observation with every cell present except the two vaccination
    columns. *)
Definition obs (iso loc : string) (y m d : Z) (tc nc td nd : float) : Row :=
  mkRow (Some iso) (Some loc) (Some (to_datetime y m d)) tc nc td nd nan nan.

(** A small file in the shape of the OWID table: unsorted, with missing
    cells, a row without a date, a row without a location and a column
    the script does not use. *)
Definition sample_raw : DataFrame :=
  mkDataFrame
    [ "iso_code"; "continent"; "location"; "date";
      "total_cases"; "new_cases"; "total_deaths"; "new_deaths";
      "total_vaccinations"; "people_vaccinated_per_hundred" ]
    [ obs "USA" "United States" 2021 1 2 nan 7 5 nan;
      obs "IND" "India" 2021 1 1 3 nan nan nan;
      obs "USA" "United States" 2020 12 31 10 10 1 1;
      obs "IND" "India" 2021 1 2 nan 2 nan 1;
      mkRow (Some "BRA") (Some "Brazil") None 1 1 1 1 1 1;
      mkRow (Some "XXX") None (Some (to_datetime 2021 1 1)) 1 1 1 1 1 1;
      obs "FRA" "France" 2021 1 1 nan 4 2 2;
      obs "USA" "United States" 2021 1 3 30 nan nan 0;
      obs "FRA" "France" 2021 1 3 8 nan nan nan ]%float.

Definition sample_world : list Region :=
  [ mkRegion "United States of America" (Some "USA") [];
    mkRegion "France" (Some "-99") [];
    mkRegion "India" (Some "IND") [];
    mkRegion "Fiji" (Some "FJI") [] ].

Definition ok_or {A : Type} (default : A) (r : Result A) : A :=
  match r with
  | Ok a => a
  | Raise _ => default
  end.

Definition empty_frame : DataFrame := mkDataFrame [] [].

Definition sample_clean : DataFrame :=
  Eval vm_compute in ok_or empty_frame (clean sample_raw).

Definition sample_filt : option Timestamp * DataFrame :=
  Eval vm_compute in ok_or (None, empty_frame) (filter_block sample_clean).

(** ** Observations on a trace *)

(** The messages of [load_data]. *)
Definition is_loading_message (o : Output) : bool :=
  match o with
  | PrintDownloading | PrintSaved | PrintRemoteFailed _ => true
  | _ => false
  end.

(** What a run prints and shows once the data is loaded. *)
Definition after_loading (out : list Output) : list Output :=
  filter (fun o => negb (is_loading_message o)) out.

(** The charts of a run, in the order they are shown. *)
Fixpoint charts (out : list Output) : list Figure :=
  match out with
  | [] => []
  | Show fig :: out' => fig :: charts out'
  | _ :: out' => charts out'
  end.


Definition is_dual_axis (fig : Figure) : bool :=
  match fig with
  | DualAxis _ _ _ _ => true
  | _ => false
  end.

(** ** Sample worlds *)

Definition sample_csv : string :=
  "iso_code,continent,location,date,total_cases,new_cases,total_deaths,new_deaths,total_vaccinations,people_vaccinated_per_hundred".

(** A reader that knows one file: the sample table under its header. *)
Definition sample_read_csv (data : string) : option DataFrame :=
  if data =? sample_csv then Some sample_raw else None.

(** The server answers 200 with the sample file; an older copy is on
    disk. *)
Definition world_online : World :=
  mkWorld (Ok (mkResponse 200 sample_csv)) (Some "stale") true (Ok tt).

(** No network; the sample file is on disk. *)
Definition world_offline : World :=
  mkWorld (Raise RequestException) (Some sample_csv) true (Raise RequestException).

(** The server of the data does not answer, the tile server does; the
    sample file is on disk. *)
Definition world_cached : World :=
  mkWorld (Raise RequestException) (Some sample_csv) true (Ok tt).

(** The server answers 404 and there is no local file. *)
Definition world_nothing : World :=
  mkWorld (Ok (mkResponse 404 "Not Found")) None true (Ok tt).

(** The server answers 200 with the sample file; the older copy on disk
    is read-only. *)
Definition world_readonly : World :=
  mkWorld (Ok (mkResponse 200 sample_csv)) (Some "stale") false (Ok tt).

(** The server answers 200 with the sample file; there is no local file
    and the working directory is read-only. *)
Definition world_readonly_dir : World :=
  mkWorld (Ok (mkResponse 200 sample_csv)) None false (Ok tt).

(** A sort of the array library that keeps equal keys in their order:
    the positions, sorted by the key they hold. *)
Definition stable_argsort (keys : list float) : list nat :=
  map fst (stable_sort (fun a b => (snd a <=? snd b)%float)
             (combine (seq 0 (List.length keys)) keys)).

(** The sample file without the two vaccination columns. *)
Definition sample_raw_no_vacc : DataFrame :=
  mkDataFrame
    [ "iso_code"; "continent"; "location"; "date";
      "total_cases"; "new_cases"; "total_deaths"; "new_deaths" ]
    (rows sample_raw).

Definition sample_filt_no_vacc : option Timestamp * DataFrame :=
  Eval vm_compute in
    ok_or (None, empty_frame)
      (df <- clean sample_raw_no_vacc ;; filter_block df)%result.

(** ** Specification vocabulary for the menu *)

(** What one pass of the menu prints or shows after the prompt, for a
    choice other than ["5"], when the four charts are [f1] .. [f4] and
    [vacc] tells whether the column [total_vaccinations] is present. *)
Definition menu_reaction (f1 f2 f3 f4 : Figure) (vacc : bool) (choice : string)
    : list Output :=
  if choice =? "1" then [Show f1]
  else if choice =? "2" then [Show f2]
  else if choice =? "3" then (if vacc then [Show f3] else [PrintInvalidChoice])
  else if choice =? "4" then [Show f4]
  else [PrintInvalidChoice].

Definition no_figure : Figure := CasesVsDeaths [].

Definition ok_figure (r : Result Figure) : Figure := ok_or no_figure r.

(** An output that is not the dual-axis chart. *)
Definition not_dual_axis (o : Output) : Prop :=
  match o with
  | Show fig => is_dual_axis fig = false
  | _ => True
  end.

(** The sample file without the column [new_deaths]. *)
Definition sample_raw_no_deaths : DataFrame :=
  mkDataFrame
    [ "iso_code"; "continent"; "location"; "date";
      "total_cases"; "new_cases"; "total_deaths" ]
    (rows sample_raw).

(** A file in which one observation is recorded twice. *)
Definition sample_raw_dup : DataFrame :=
  mkDataFrame
    [ "iso_code"; "location"; "date"; "total_cases"; "total_deaths" ]
    [ obs "USA" "United States" 2021 1 2 30 nan 5 nan;
      obs "USA" "United States" 2021 1 2 30 nan 5 nan;
      obs "USA" "United States" 2021 1 1 20 nan 4 nan ]%float.

Definition sample_latest : DataFrame :=
  Eval vm_compute in ok_or empty_frame (latest_table sample_clean).

Definition sample_latest_dup : DataFrame :=
  Eval vm_compute in
    ok_or empty_frame (df <- clean sample_raw_dup ;; latest_table df)%result.

(** ** Specification vocabulary for the summary *)

(** What the script relies on from the sort of the array library, on
    keys none of which is missing: it returns every position once, in
    ascending order of the keys they hold. *)
Definition argsort_sorts (argsort : list float -> list nat) : Prop :=
  forall keys,
    Forall (fun x => is_nan x = false) keys ->
    Permutation (argsort keys) (seq 0 (List.length keys)) /\
    StronglySorted (fun i j => (nth i keys nan <=? nth j keys nan)%float = true)
                   (argsort keys).

(** In descending order with missing values last, a row whose key is
    [x] may stand before a row whose key is [y]: [y] is missing, or
    [y <= x]. *)
Definition ranks_before (x y : float) : bool :=
  is_nan y || (y <=? x)%float.

(** Ascending order of binary64 values with NaN above everything, the
    order of a numpy sort. *)
Definition np_leb (x y : float) : bool :=
  is_nan y || (x <=? y)%float.

Definition cmp3 : Z * (Z * Z) -> Z * (Z * Z) -> comparison :=
  lex_compare Z.compare (lex_compare Z.compare Z.compare).

(** A key whose lexicographic order is the order of the binary64
    values that are not NaN: the sign class, then exponent and mantissa
    (negated for negative values). *)
Definition spec_key (x : spec_float) : option (Z * (Z * Z)) :=
  match x with
  | S754_nan => None
  | S754_infinity true => Some (-2, (0, 0))%Z
  | S754_infinity false => Some (2, (0, 0))%Z
  | S754_zero _ => Some (0, (0, 0))%Z
  | S754_finite true m e => Some (-1, (- e, Zneg m))%Z
  | S754_finite false m e => Some (1, (e, Zpos m))%Z
  end.

Definition float_key (x : float) : option (Z * (Z * Z)) :=
  spec_key (Prim2SF x).

(** ** Vocabulary for the further properties *)

(** The two conditions of [mask] that can exclude a row. *)
Definition in_scope (r : Row) : bool :=
  isin countries (location r) && time_geb (date r) (Some start_date).

(** The points of the line that a chart draws for the rows [grp] of one
    location: date against the column [c]. *)
Definition points (c : Column) (grp : list Row) : Series :=
  map (fun r => (CTime (date r), cell c r)) grp.

(** One line per location of [rs], the locations in ascending order. *)
Definition lines_of (c : Column) (rs : list Row) : list (string * Series) :=
  map (fun k => (k, points c (group k rs))) (group_keys rs).

Definition line_pairs_of (c d : Column) (rs : list Row)
    : list (string * Series * Series) :=
  map (fun k => (k, points c (group k rs), points d (group k rs))) (group_keys rs).

Definition sample_filt_no_deaths : option Timestamp * DataFrame :=
  Eval vm_compute in
    ok_or (None, empty_frame)
      (df <- clean sample_raw_no_deaths ;; filter_block df)%result.

(** The server answers 200 with a page that is no CSV; a good copy of
    the file is on disk. *)
Definition world_rejected : World :=
  mkWorld (Ok (mkResponse 200 "<html>maintenance</html>")) (Some sample_csv)
          true (Ok tt).

Definition is_cases_vs_deaths (fig : Figure) : bool :=
  match fig with
  | CasesVsDeaths _ => true
  | _ => false
  end.

(** An output that is not the chart of new cases against new deaths. *)
Definition not_cases_vs_deaths (o : Output) : Prop :=
  match o with
  | Show fig => is_cases_vs_deaths fig = false
  | _ => True
  end.

Definition is_choropleth (fig : Figure) : bool :=
  match fig with
  | ChoroplethMap _ _ _ => true
  | _ => false
  end.

(** An output of the script that comes before the map: one of the two
    messages, or a chart that is not the map. *)
Definition before_the_map (o : Output) : Prop :=
  match o with
  | PrintLoaded _ _ | PrintFiltering _ _ _ => True
  | Show fig => is_choropleth fig = false
  | _ => False
  end.

(** * Properties *)

(** ** Orders *)

Lemma ascii_compare_lt_trans (a b c : ascii) :
  Ascii.compare a b = Lt -> Ascii.compare b c = Lt -> Ascii.compare a c = Lt.
Proof.
  unfold Ascii.compare. rewrite !N.compare_lt_iff. apply N.lt_trans.
Qed.

Lemma string_compare_refl (s : string) : String.compare s s = Eq.
Proof.
  pose proof (String.compare_antisym s s) as H.
  destruct (String.compare s s); simpl in H; congruence.
Qed.

Lemma ascii_compare_refl (a : ascii) : Ascii.compare a a = Eq.
Proof.
  unfold Ascii.compare. apply N.compare_refl.
Qed.

Lemma string_compare_lt_trans (x y z : string) :
  String.compare x y = Lt -> String.compare y z = Lt -> String.compare x z = Lt.
Proof.
  revert y z. induction x as [|a x IH]; intros [|b y] [|c z]; simpl;
    try congruence.
  destruct (Ascii.compare a b) eqn:Hab; try discriminate;
    destruct (Ascii.compare b c) eqn:Hbc; try discriminate; intros Hxy Hyz.
  - apply Ascii.compare_eq_iff in Hab, Hbc. subst.
    rewrite ascii_compare_refl. eauto.
  - apply Ascii.compare_eq_iff in Hab. subst. now rewrite Hbc.
  - apply Ascii.compare_eq_iff in Hbc. subst. now rewrite Hab.
  - now rewrite (ascii_compare_lt_trans a b c).
Qed.

#[export] Instance StrictCompare_Z : StrictCompare Z.compare.
Proof.
  split.
  - intros x y. apply Z.compare_eq.
  - intros x y. apply Z.compare_antisym.
  - intros x y z. rewrite !Z.compare_lt_iff. apply Z.lt_trans.
Qed.

#[export] Instance StrictCompare_string : StrictCompare String.compare.
Proof.
  split.
  - apply String.compare_eq_iff.
  - apply String.compare_antisym.
  - apply string_compare_lt_trans.
Qed.

Section CompareFacts.
Context {A : Type} (cmp : A -> A -> comparison) `{!StrictCompare cmp}.

Lemma cmp_refl (x : A) : cmp x x = Eq.
Proof.
  pose proof (cmp_antisym x x) as H.
  destruct (cmp x x); simpl in H; congruence.
Qed.

Lemma cmp_gt_lt (x y : A) : cmp x y = Gt -> cmp y x = Lt.
Proof.
  intros H. rewrite cmp_antisym, H. reflexivity.
Qed.

Lemma cmp_lt_gt (x y : A) : cmp x y = Lt -> cmp y x = Gt.
Proof.
  intros H. rewrite cmp_antisym, H. reflexivity.
Qed.

#[export] Instance StrictCompare_na_last : StrictCompare (na_last_compare cmp).
Proof.
  split.
  - intros [x|] [y|]; simpl; try congruence.
    intros H. f_equal. now apply cmp_eq.
  - intros [x|] [y|]; simpl; try reflexivity. apply cmp_antisym.
  - intros [x|] [y|] [z|]; simpl; try congruence. apply cmp_lt_trans.
Qed.

#[export] Instance TotalPreorder_leb_of : TotalPreorder (leb_of cmp).
Proof.
  split; unfold leb_of.
  - intros x y. rewrite (cmp_antisym y x).
    destruct (cmp x y); simpl; auto.
  - intros x y z.
    destruct (cmp x y) eqn:Hxy; try discriminate;
      destruct (cmp y z) eqn:Hyz; try discriminate; intros _ _.
    + apply cmp_eq in Hxy. subst. now rewrite Hyz.
    + apply cmp_eq in Hxy. subst. now rewrite Hyz.
    + apply cmp_eq in Hyz. subst. now rewrite Hxy.
    + now rewrite (cmp_lt_trans (cmp:=cmp) x y z).
Qed.
End CompareFacts.

#[export] Instance StrictCompare_lex {A B : Type}
    (cmpA : A -> A -> comparison) (cmpB : B -> B -> comparison)
    `{!StrictCompare cmpA} `{!StrictCompare cmpB} :
  StrictCompare (lex_compare cmpA cmpB).
Proof.
  split; unfold lex_compare.
  - intros [a b] [a' b']; simpl.
    destruct (cmpA a a') eqn:Ha; try discriminate.
    intros Hb. apply cmp_eq in Ha, Hb. congruence.
  - intros [a b] [a' b']; simpl.
    rewrite (cmp_antisym (cmp:=cmpA) a a').
    destruct (cmpA a' a); simpl; auto. apply cmp_antisym.
  - intros [a b] [a' b'] [a'' b'']; simpl.
    destruct (cmpA a a') eqn:H1; try discriminate;
      destruct (cmpA a' a'') eqn:H2; try discriminate.
    + apply cmp_eq in H1, H2. subst. rewrite (cmp_refl cmpA).
      apply cmp_lt_trans.
    + apply cmp_eq in H1. subst. now rewrite H2.
    + apply cmp_eq in H2. subst. now rewrite H1.
    + now rewrite (cmp_lt_trans (cmp:=cmpA) a a' a'').
Qed.

#[export] Instance TotalPreorder_on {A K : Type} (leb : K -> K -> bool)
    (key : A -> K) `{!TotalPreorder leb} :
  TotalPreorder (fun a b => leb (key a) (key b)).
Proof.
  split.
  - intros x y. apply leb_total.
  - intros x y z. apply leb_trans.
Qed.

#[export] Instance TotalPreorder_row_leb : TotalPreorder row_leb.
Proof.
  unfold row_leb, key_compare.
  apply (TotalPreorder_on _ sort_key).
Qed.

#[export] Instance TotalPreorder_string_leb : TotalPreorder String.leb.
Proof.
  exact (TotalPreorder_leb_of String.compare).
Qed.

(** ** The stable sort *)

Section Sorting.
Context {A : Type} (leb : A -> A -> bool).

Lemma insert_sorted_perm (x : A) (l : list A) :
  Permutation (insert_sorted leb x l) (x :: l).
Proof.
  induction l as [|y l IH]; simpl; auto.
  destruct (leb x y); auto.
  rewrite IH. apply perm_swap.
Qed.

Lemma stable_sort_perm (l : list A) : Permutation (stable_sort leb l) l.
Proof.
  induction l as [|x l IH]; simpl; auto.
  rewrite insert_sorted_perm. now constructor.
Qed.

Lemma stable_sort_in (l : list A) (x : A) : In x (stable_sort leb l) <-> In x l.
Proof.
  split; apply Permutation_in;
    [apply stable_sort_perm | apply Permutation_sym, stable_sort_perm].
Qed.

Context `{!TotalPreorder leb}.

Lemma insert_sorted_sorted (x : A) (l : list A) :
  sorted_by leb l -> sorted_by leb (insert_sorted leb x l).
Proof.
  unfold sorted_by. induction 1 as [|y l Hs IH Hy]; simpl.
  - repeat constructor.
  - destruct (leb x y) eqn:Hxy.
    + constructor; [now constructor|].
      constructor; [exact Hxy|].
      eapply Forall_impl; [|exact Hy].
      intros z Hz. exact (leb_trans x y z Hxy Hz).
    + constructor; [exact IH|].
      apply Forall_forall. intros z Hz.
      apply (Permutation_in _ (insert_sorted_perm x l)) in Hz.
      destruct Hz as [<-|Hz].
      * destruct (leb_total x y) as [H|H]; [congruence|exact H].
      * rewrite Forall_forall in Hy. now apply Hy.
Qed.

Lemma stable_sort_sorted (l : list A) : sorted_by leb (stable_sort leb l).
Proof.
  induction l as [|x l IH]; simpl.
  - constructor.
  - now apply insert_sorted_sorted.
Qed.
End Sorting.

(** ** Forward fill *)

Lemma pad_row_cell (c : Column) (prev cur : Row) :
  cell c (pad_row prev cur) =
  if isna (cell c cur) then cell c prev else cell c cur.
Proof.
  destruct c; simpl; unfold pad_str, pad_time, pad_num;
    match goal with |- context [if ?b then _ else _] => destruct b end;
    reflexivity.
Qed.

Lemma pad_row_same (r : Row) : pad_row r r = r.
Proof.
  destruct r as [i l d a b c e f g]. unfold pad_row, pad_str, pad_time, pad_num.
  simpl. f_equal; match goal with |- (if ?b then _ else _) = _ => now destruct b end.
Qed.

Lemma fillna_ffill_from (r : Row) (g : list Row) :
  fillna_ffill (r :: g) = ffill_from r (r :: g).
Proof.
  simpl. now rewrite pad_row_same.
Qed.

Lemma ffill_from_length (g : list Row) :
  forall prev, List.length (ffill_from prev g) = List.length g.
Proof.
  induction g as [|r g IH]; intros prev; simpl; auto.
Qed.

Lemma fillna_ffill_length (g : list Row) :
  List.length (fillna_ffill g) = List.length g.
Proof.
  destruct g; simpl; auto using ffill_from_length.
Qed.

Lemma ffill_from_nth (c : Column) (g : list Row) :
  forall prev i r',
    nth_error (ffill_from prev g) i = Some r' ->
    cell c r' = last_valid c (cell c prev) (firstn (S i) g).
Proof.
  induction g as [|r g IH]; intros prev i r' H.
  - destruct i; discriminate.
  - destruct i as [|i]; simpl in H.
    + injection H as <-. destruct g; simpl; apply pad_row_cell.
    + apply IH in H. rewrite H, pad_row_cell. reflexivity.
Qed.

Lemma last_valid_spec (c : Column) (l : list Row) :
  forall above,
    (exists j r,
        nth_error l j = Some r /\ isna (cell c r) = false /\
        last_valid c above l = cell c r /\
        forall k rk, j < k -> nth_error l k = Some rk -> isna (cell c rk) = true)
    \/ (last_valid c above l = above /\
        forall r, In r l -> isna (cell c r) = true).
Proof.
  induction l as [|r l IH]; intros above; simpl.
  - right. split; [reflexivity | intros r []].
  - destruct (IH (if isna (cell c r) then above else cell c r))
      as [(j & rj & Hj & Hna & Hv & Hk) | [Hv Hall]].
    + left. exists (S j), rj. repeat split; auto.
      intros [|k] rk Hlt Hrk; [lia|]. apply (Hk k); [lia | exact Hrk].
    + destruct (isna (cell c r)) eqn:Hr.
      * right. split; [exact Hv|]. intros x [<-|Hx]; auto.
      * left. exists 0, r. repeat split; auto.
        intros [|k] rk Hlt Hrk; [lia|]. simpl in Hrk.
        apply Hall. eapply nth_error_In; eauto.
Qed.

Lemma fillna_ffill_spec (c : Column) (g : list Row) (i : nat) (r' : Row) :
  nth_error (fillna_ffill g) i = Some r' ->
  forward_fill_at c g i (cell c r').
Proof.
  destruct g as [|r0 g]; [destruct i; discriminate|].
  rewrite fillna_ffill_from. intros H.
  pose proof (ffill_from_nth c _ _ _ _ H) as Hv.
  assert (Hpre : forall k rk, k <= i ->
            nth_error (r0 :: g) k = Some rk ->
            nth_error (firstn (S i) (r0 :: g)) k = Some rk).
  { intros k rk Hk Hrk. rewrite nth_error_firstn.
    destruct (Nat.ltb_spec k (S i)); [exact Hrk | lia]. }
  destruct (last_valid_spec c (firstn (S i) (r0 :: g)) (cell c r0))
    as [(j & rj & Hj & Hna & Hlv & Hk) | [Hlv Hall]].
  - left. rewrite nth_error_firstn in Hj.
    destruct (Nat.ltb_spec j (S i)); [|discriminate].
    exists j, rj. repeat split; try lia; auto; try congruence.
    intros k rk Hlt Hrk. apply (Hk k); [lia|]. apply Hpre; [lia | exact Hrk].
  - right. split.
    + rewrite Hv, Hlv. apply Hall. simpl. auto.
    + intros k rk Hle Hrk. apply Hall.
      eapply nth_error_In. apply Hpre; eauto.
Qed.

(** A column without missing values is left as it is. *)
Lemma ffill_from_notna (c : Column) (g : list Row) :
  forall prev,
    Forall (fun r => isna (cell c r) = false) g ->
    map (cell c) (ffill_from prev g) = map (cell c) g.
Proof.
  induction g as [|r g IH]; intros prev Hg; simpl; auto.
  inversion Hg as [|? ? Hr Hg']; subst.
  rewrite pad_row_cell, Hr, IH; auto.
Qed.

Lemma fillna_ffill_notna (c : Column) (g : list Row) :
  Forall (fun r => isna (cell c r) = false) g ->
  map (cell c) (fillna_ffill g) = map (cell c) g.
Proof.
  destruct g as [|r g]; auto. intros Hg. rewrite fillna_ffill_from.
  now apply ffill_from_notna.
Qed.

(** ** List facts *)

Lemma bind_ok {A B : Type} (m : Result A) (k : A -> Result B) (b : B) :
  bind m k = Ok b -> exists a, m = Ok a /\ k a = Ok b.
Proof.
  destruct m as [a|e]; simpl; [eauto | discriminate].
Qed.

Lemma require_column_ok (df : DataFrame) (name : string) (u : unit) :
  require_column df name = Ok u -> has_column df name = true.
Proof.
  unfold require_column. destruct (has_column df name); [auto | discriminate].
Qed.

Lemma filter_all {A : Type} (p : A -> bool) (l : list A) :
  (forall x, In x l -> p x = true) -> filter p l = l.
Proof.
  induction l as [|a l IH]; simpl; intros H; auto.
  rewrite (H a) by auto. f_equal. auto.
Qed.

Lemma filter_none {A : Type} (p : A -> bool) (l : list A) :
  (forall x, In x l -> p x = false) -> filter p l = [].
Proof.
  induction l as [|a l IH]; simpl; intros H; auto.
  rewrite (H a) by auto. auto.
Qed.

Lemma filter_flat_map {A B : Type} (p : B -> bool) (f : A -> list B) (l : list A) :
  filter p (flat_map f l) = flat_map (fun x => filter p (f x)) l.
Proof.
  induction l as [|a l IH]; simpl; auto.
  now rewrite filter_app, IH.
Qed.

Lemma flat_map_only {A B : Type} (f : A -> list B) (k : A) (ks : list A) :
  NoDup ks -> In k ks ->
  (forall k', In k' ks -> k' <> k -> f k' = []) ->
  flat_map f ks = f k.
Proof.
  induction 1 as [|a ks Ha Hnd IH]; intros Hin Hf; [destruct Hin|].
  simpl. destruct Hin as [->|Hin].
  - rewrite flat_map_concat_map, (proj2 (concat_nil_Forall _)), app_nil_r; auto.
    apply Forall_map, Forall_forall. intros k' Hk'.
    apply Hf; [now right | congruence].
  - rewrite (Hf a), IH; auto.
    + intros k' Hk' Hne. apply Hf; auto. now right.
    + now left.
    + congruence.
Qed.

Lemma flat_map_nil {A B : Type} (f : A -> list B) (ks : list A) :
  (forall k, In k ks -> f k = []) -> flat_map f ks = [].
Proof.
  induction ks as [|a ks IH]; simpl; intros H; auto.
  rewrite (H a), IH; auto.
Qed.

Lemma map_eq_in {A B : Type} (f : A -> B) (l l' : list A) (x : A) :
  map f l' = map f l -> In x l' -> exists y, In y l /\ f x = f y.
Proof.
  intros Heq Hx. apply (in_map f) in Hx. rewrite Heq in Hx.
  apply in_map_iff in Hx. destruct Hx as (y & Hy & Hin). eauto.
Qed.

Section SortedFacts.
Context {A : Type} (R : A -> A -> Prop).

Lemma StronglySorted_app (l1 l2 : list A) :
  StronglySorted R l1 -> StronglySorted R l2 ->
  (forall x y, In x l1 -> In y l2 -> R x y) ->
  StronglySorted R (l1 ++ l2).
Proof.
  induction 1 as [|a l1 Hs IH Ha]; intros H2 Hx; simpl; auto.
  constructor.
  - apply IH; auto. intros x y Hx1. apply Hx. now right.
  - apply Forall_app. split; auto.
    apply Forall_forall. intros y Hy. apply Hx; simpl; auto.
Qed.

Lemma StronglySorted_filter (p : A -> bool) (l : list A) :
  StronglySorted R l -> StronglySorted R (filter p l).
Proof.
  induction 1 as [|a l Hs IH Ha]; simpl; [constructor|].
  destruct (p a); auto. constructor; auto.
  apply Forall_forall. intros y Hy. apply filter_In in Hy.
  rewrite Forall_forall in Ha. apply Ha, Hy.
Qed.

Lemma StronglySorted_flat_map {K : Type} (f : K -> list A) (ks : list K) :
  (forall k, In k ks -> StronglySorted R (f k)) ->
  StronglySorted (fun k1 k2 => forall x y, In x (f k1) -> In y (f k2) -> R x y) ks ->
  StronglySorted R (flat_map f ks).
Proof.
  intros Hb Hs. induction Hs as [|k ks Hs IH Hk]; simpl; [constructor|].
  apply StronglySorted_app.
  - apply Hb. now left.
  - apply IH. intros k' Hk'. apply Hb. now right.
  - intros x y Hx Hy. apply in_flat_map in Hy. destruct Hy as (k' & Hk' & Hy).
    rewrite Forall_forall in Hk. exact (Hk k' Hk' x y Hx Hy).
Qed.

End SortedFacts.

Lemma StronglySorted_map {A B : Type} (R : B -> B -> Prop) (f : A -> B) (l : list A) :
  StronglySorted (fun x y => R (f x) (f y)) l <-> StronglySorted R (map f l).
Proof.
  induction l as [|a l IH]; simpl.
  - split; constructor.
  - split; intros H; apply StronglySorted_inv in H; destruct H as [Hs Ha];
      constructor; try (now apply IH).
    + rewrite Forall_map. exact Ha.
    + rewrite Forall_map in Ha. exact Ha.
Qed.

Lemma StronglySorted_nodup {A : Type} (R : A -> A -> Prop)
    (dec : forall x y : A, {x = y} + {x <> y}) (l : list A) :
  StronglySorted R l -> StronglySorted R (nodup dec l).
Proof.
  induction 1 as [|a l Hs IH Ha]; simpl; [constructor|].
  destruct (in_dec dec a l); auto. constructor; auto.
  apply Forall_forall. intros y Hy. apply nodup_In in Hy.
  rewrite Forall_forall in Ha. auto.
Qed.

(** ** Groups *)

Lemma present_In {A : Type} (l : list (option A)) (a : A) :
  In a (present l) <-> In (Some a) l.
Proof.
  induction l as [|[b|] l IH]; simpl; [tauto | |].
  - rewrite IH. split; intros [H|H]; auto; left; congruence.
  - rewrite IH. split; [auto | intros [H|H]; [discriminate | auto]].
Qed.

Lemma in_group_iff (k : string) (r : Row) :
  in_group k r = true <-> location r = Some k.
Proof.
  unfold in_group. destruct (location r) as [l|].
  - rewrite String.eqb_eq. split; congruence.
  - split; discriminate.
Qed.

Lemma group_In (k : string) (rs : list Row) (r : Row) :
  In r (group k rs) <-> In r rs /\ location r = Some k.
Proof.
  unfold group. rewrite filter_In, in_group_iff. tauto.
Qed.

Lemma group_keys_In (rs : list Row) (k : string) :
  In k (group_keys rs) <-> exists r, In r rs /\ location r = Some k.
Proof.
  unfold group_keys. rewrite nodup_In, stable_sort_in, present_In, in_map_iff.
  split; intros (r & H1 & H2); exists r; auto.
Qed.

Lemma group_keys_NoDup (rs : list Row) : NoDup (group_keys rs).
Proof.
  apply NoDup_nodup.
Qed.

Lemma group_keys_increasing (rs : list Row) :
  StronglySorted (fun a b => String.compare a b = Lt) (group_keys rs).
Proof.
  pose proof (group_keys_NoDup rs) as Hnd.
  assert (Hs : sorted_by String.leb (group_keys rs)).
  { apply StronglySorted_nodup, stable_sort_sorted, _. }
  unfold sorted_by in Hs.
  induction Hs as [|a l Hs IH Ha]; [constructor|].
  inversion Hnd as [|? ? Hnotin Hnd']; subst.
  constructor; auto.
  apply Forall_forall. intros y Hy. rewrite Forall_forall in Ha.
  specialize (Ha y Hy). unfold String.leb in Ha.
  destruct (String.compare a y) eqn:Hc; auto; [|discriminate].
  apply String.compare_eq_iff in Hc. congruence.
Qed.

Lemma group_empty (k : string) (rs : list Row) :
  ~ In k (group_keys rs) -> group k rs = [].
Proof.
  intros Hk. apply filter_none. intros r Hr.
  destruct (in_group k r) eqn:Hg; auto.
  exfalso. apply Hk, group_keys_In. exists r. split; auto.
  now apply in_group_iff.
Qed.

(** ** The cleaning block *)

(** Inversion of a successful run of a block of the script. *)
Ltac invert_ok :=
  repeat match goal with
         | H : bind _ _ = Ok _ |- _ =>
             apply bind_ok in H; destruct H as (? & ? & H)
         | H : Ok _ = Ok _ |- _ => injection H as H; try subst
         end.

Lemma clean_rows (raw df : DataFrame) :
  clean raw = Ok df ->
  columns df = available raw /\
  rows df = groupby_apply fillna_ffill (retained raw).
Proof.
  unfold clean, dropna_date_location, sort_values_location_date, groupby_ffill.
  intros H. invert_ok. simpl. auto.
Qed.

Lemma retained_notna (raw : DataFrame) (r : Row) :
  In r (retained raw) -> is_none (date r) = false /\ is_none (location r) = false.
Proof.
  unfold retained. rewrite stable_sort_in, filter_In.
  intros [_ H]. apply andb_true_iff in H. destruct H as [H1 H2].
  now rewrite negb_true_iff in H1, H2.
Qed.

Lemma retained_sorted (raw : DataFrame) : sorted_by row_leb (retained raw).
Proof.
  apply stable_sort_sorted, _.
Qed.

Lemma ffill_from_sort_key (g : list Row) :
  forall prev,
    Forall (fun r => is_none (date r) = false /\ is_none (location r) = false) g ->
    map sort_key (ffill_from prev g) = map sort_key g.
Proof.
  induction g as [|r g IH]; intros prev Hg; simpl; auto.
  inversion Hg as [|? ? [Hd Hl] Hg']; subst.
  rewrite IH by auto. f_equal.
  unfold sort_key, pad_row, pad_str, pad_time. simpl. now rewrite Hd, Hl.
Qed.

Lemma fillna_ffill_sort_key (g : list Row) :
  Forall (fun r => is_none (date r) = false /\ is_none (location r) = false) g ->
  map sort_key (fillna_ffill g) = map sort_key g.
Proof.
  destruct g as [|r g]; auto. intros Hg. rewrite fillna_ffill_from.
  now apply ffill_from_sort_key.
Qed.

Lemma StronglySorted_impl {A : Type} (R R' : A -> A -> Prop) (l : list A) :
  (forall x y, R x y -> R' x y) -> StronglySorted R l -> StronglySorted R' l.
Proof.
  intros HR. induction 1 as [|a l Hs IH Ha]; constructor; auto.
  eapply Forall_impl; [|exact Ha]. auto.
Qed.

Section Groups.
Variable kept : list Row.
Hypothesis kept_notna :
  forall r, In r kept ->
    is_none (date r) = false /\ is_none (location r) = false.

Lemma group_notna (k : string) :
  Forall (fun r => is_none (date r) = false /\ is_none (location r) = false)
         (group k kept).
Proof.
  apply Forall_forall. intros r Hr. apply group_In in Hr. now apply kept_notna.
Qed.

Lemma ffill_group_key (k : string) (r' : Row) :
  In r' (fillna_ffill (group k kept)) ->
  exists r, In r kept /\ location r = Some k /\ sort_key r' = sort_key r.
Proof.
  intros Hr'.
  destruct (map_eq_in sort_key _ _ r' (fillna_ffill_sort_key _ (group_notna k)) Hr')
    as (r & Hr & Hkey).
  apply group_In in Hr. exists r. tauto.
Qed.

Lemma ffill_group_location (k : string) (r' : Row) :
  In r' (fillna_ffill (group k kept)) -> location r' = Some k.
Proof.
  intros Hr'. destruct (ffill_group_key k r' Hr') as (r & _ & Hl & Hkey).
  unfold sort_key in Hkey. congruence.
Qed.

(** The rows of one location in the result are the forward fill of the
    rows of that location, and of no other. *)
Lemma group_groupby_ffill (k : string) :
  group k (groupby_apply fillna_ffill kept) = fillna_ffill (group k kept).
Proof.
  unfold groupby_apply, group at 1. rewrite filter_flat_map.
  destruct (in_dec string_dec k (group_keys kept)) as [Hin|Hout].
  - rewrite (flat_map_only _ k); auto using group_keys_NoDup.
    + apply filter_all. intros r Hr. apply in_group_iff.
      now apply ffill_group_location.
    + intros k' _ Hne. apply filter_none. intros r Hr.
      apply ffill_group_location in Hr.
      destruct (in_group k r) eqn:Hg; auto.
      apply in_group_iff in Hg. congruence.
  - rewrite (group_empty k kept Hout). simpl.
    apply flat_map_nil. intros k' Hk'. apply filter_none. intros r Hr.
    apply ffill_group_location in Hr.
    destruct (in_group k r) eqn:Hg; auto.
    apply in_group_iff in Hg. congruence.
Qed.

Lemma groupby_ffill_in (r' : Row) :
  In r' (groupby_apply fillna_ffill kept) ->
  exists r, In r kept /\ sort_key r' = sort_key r.
Proof.
  unfold groupby_apply. rewrite in_flat_map. intros (k & _ & Hr').
  destruct (ffill_group_key k r' Hr') as (r & Hr & _ & Hkey). eauto.
Qed.

Hypothesis kept_sorted : sorted_by row_leb kept.

Lemma groupby_ffill_sorted : sorted_by row_leb (groupby_apply fillna_ffill kept).
Proof.
  unfold sorted_by, groupby_apply. apply StronglySorted_flat_map.
  - intros k _. unfold row_leb.
    apply (StronglySorted_map (fun a b => leb_of key_compare a b = true) sort_key).
    rewrite (fillna_ffill_sort_key _ (group_notna k)).
    apply StronglySorted_map. apply StronglySorted_filter. exact kept_sorted.
  - eapply StronglySorted_impl; [|apply group_keys_increasing].
    + intros k1 k2 Hlt x y Hx Hy.
      apply ffill_group_location in Hx, Hy.
      unfold row_leb, leb_of, key_compare, lex_compare, sort_key. simpl.
      rewrite Hx, Hy. simpl. now rewrite Hlt.
Qed.
End Groups.

Lemma has_column_iff (df : DataFrame) (name : string) :
  has_column df name = true <-> In name (columns df).
Proof.
  unfold has_column. rewrite existsb_exists. split.
  - intros (x & Hx & Heq). apply String.eqb_eq in Heq. now subst.
  - intros H. exists name. split; auto. apply String.eqb_refl.
Qed.

Lemma has_column_available (raw : DataFrame) (name : string) :
  has_column (select_available raw) name = true <->
  In name cols /\ has_column raw name = true.
Proof.
  rewrite has_column_iff. unfold select_available, available.
  cbn [columns]. apply filter_In.
Qed.

Lemma require_column_has (df : DataFrame) (name : string) :
  has_column df name = true -> require_column df name = Ok tt.
Proof.
  unfold require_column. now intros ->.
Qed.

(** The cleaning block succeeds whenever the loaded table has the two
    columns it drops missing values on. *)
Lemma clean_total (raw : DataFrame) :
  has_column raw "date" = true -> has_column raw "location" = true ->
  exists df, clean raw = Ok df.
Proof.
  intros Hd Hl.
  assert (Hd' : has_column (select_available raw) "date" = true).
  { apply has_column_available. split; [simpl; tauto | exact Hd]. }
  assert (Hl' : has_column (select_available raw) "location" = true).
  { apply has_column_available. split; [simpl; tauto | exact Hl]. }
  unfold clean, dropna_date_location.
  rewrite !require_column_has by assumption. simpl.
  unfold sort_values_location_date.
  rewrite !require_column_has by assumption. simpl.
  unfold groupby_ffill.
  rewrite !require_column_has by assumption. simpl. eauto.
Qed.

(** ** A sorted table is the concatenation of its groups *)

Lemma flat_map_ext_on {A B : Type} (f g : A -> list B) (l : list A) :
  (forall a, In a l -> f a = g a) -> flat_map f l = flat_map g l.
Proof.
  induction l as [|a l IH]; intros H; simpl; [reflexivity|].
  rewrite (H a) by now left. rewrite IH; [reflexivity|].
  intros b Hb. apply H. now right.
Qed.

Lemma filter_twice {A : Type} (p q : A -> bool) (l : list A) :
  filter p (filter q l) = filter (fun x => p x && q x) l.
Proof.
  induction l as [|a l IH]; simpl; [reflexivity|].
  destruct (q a); simpl; rewrite ?andb_true_r, ?andb_false_r;
    [destruct (p a)|]; now rewrite IH.
Qed.

Lemma row_leb_location (a b : Row) (ka kb : string) :
  location a = Some ka -> location b = Some kb ->
  row_leb a b = true -> String.compare ka kb <> Gt.
Proof.
  unfold row_leb, leb_of, key_compare, lex_compare, sort_key. simpl.
  intros -> ->. simpl. destruct (String.compare ka kb); congruence.
Qed.

Lemma in_group_false (k : string) (r : Row) (k' : string) :
  location r = Some k' -> k' <> k -> in_group k r = false.
Proof.
  intros Hl Hne. destruct (in_group k r) eqn:Hg; auto.
  apply in_group_iff in Hg. congruence.
Qed.

Lemma sorted_group_first (k : string) (l : list Row) :
  sorted_by row_leb l ->
  (forall r, In r l -> exists k', location r = Some k' /\ String.compare k k' <> Gt) ->
  l = group k l ++ filter (fun r => negb (in_group k r)) l.
Proof.
  unfold sorted_by, group.
  induction 1 as [|a l Hs IH Ha]; intros Hk; [reflexivity|].
  simpl. destruct (in_group k a) eqn:Hg; simpl.
  - f_equal. apply IH. intros r Hr. apply Hk. now right.
  - destruct (Hk a (or_introl eq_refl)) as (ka & Hla & Hka).
    assert (Hlt : String.compare k ka = Lt).
    { destruct (String.compare k ka) eqn:Hc; auto; [|congruence].
      apply String.compare_eq_iff in Hc. subst ka.
      apply in_group_iff in Hla. congruence. }
    assert (Hout : forall r, In r l -> in_group k r = false).
    { intros r Hr. destruct (Hk r (or_intror Hr)) as (kr & Hlr & _).
      apply (in_group_false k r kr Hlr). intros ->.
      rewrite Forall_forall in Ha.
      pose proof (row_leb_location a r ka k Hla Hlr (Ha r Hr)) as Hge.
      rewrite (cmp_lt_gt String.compare k ka Hlt) in Hge. congruence. }
    rewrite filter_none by exact Hout. simpl. f_equal.
    symmetry. apply filter_all. intros r Hr. now rewrite (Hout r Hr).
Qed.

Lemma groups_of_sorted (ks : list string) :
  StronglySorted (fun a b => String.compare a b = Lt) ks ->
  forall l,
    sorted_by row_leb l ->
    (forall r, In r l -> exists k, location r = Some k /\ In k ks) ->
    flat_map (fun k => group k l) ks = l.
Proof.
  induction 1 as [|k ks Hks IH Hk]; intros l Hs Hl.
  - destruct l as [|r l]; [reflexivity|].
    destruct (Hl r (or_introl eq_refl)) as (? & _ & []).
  - rewrite Forall_forall in Hk. cbn [flat_map].
    set (rest := filter (fun r => negb (in_group k r)) l).
    assert (Hrest : flat_map (fun k' => group k' l) ks =
                    flat_map (fun k' => group k' rest) ks).
    { apply flat_map_ext_on. intros k' Hk'. unfold group, rest.
      rewrite filter_twice. apply filter_ext. intros r.
      destruct (in_group k' r) eqn:Hg; [|reflexivity]. simpl.
      apply in_group_iff in Hg. symmetry. apply negb_true_iff.
      apply (in_group_false k r k' Hg). intros ->.
      specialize (Hk k Hk'). now rewrite (cmp_refl String.compare) in Hk. }
    rewrite Hrest, IH.
    + symmetry. apply sorted_group_first; auto.
      intros r Hr. destruct (Hl r Hr) as (kr & Hlr & [<-|Hin]).
      * exists k. split; auto. now rewrite (cmp_refl String.compare).
      * exists kr. split; auto. rewrite (Hk kr Hin). discriminate.
    + apply StronglySorted_filter. exact Hs.
    + intros r Hr. apply filter_In in Hr. destruct Hr as [Hr Hg].
      apply negb_true_iff in Hg.
      destruct (Hl r Hr) as (kr & Hlr & [<-|Hin]); eauto.
      apply in_group_iff in Hlr. congruence.
Qed.

Lemma map_flat_map {A B C : Type} (f : B -> C) (g : A -> list B) (l : list A) :
  map f (flat_map g l) = flat_map (fun a => map f (g a)) l.
Proof.
  induction l as [|a l IH]; simpl; [reflexivity|].
  now rewrite map_app, IH.
Qed.

(** The grouped forward fill leaves every row of a sorted table without
    missing date or location at its place, with its location and date. *)
Lemma groupby_ffill_sort_key (kept : list Row) :
  (forall r, In r kept ->
     is_none (date r) = false /\ is_none (location r) = false) ->
  sorted_by row_leb kept ->
  map sort_key (groupby_apply fillna_ffill kept) = map sort_key kept.
Proof.
  intros Hna Hs. unfold groupby_apply. rewrite map_flat_map.
  rewrite (flat_map_ext_on _ (fun k => map sort_key (group k kept)))
    by (intros k _; now apply fillna_ffill_sort_key, group_notna).
  rewrite <- map_flat_map. f_equal.
  apply groups_of_sorted; auto using group_keys_increasing.
  intros r Hr. destruct (Hna r Hr) as [_ Hl].
  destruct (location r) as [k|] eqn:Hk; [|discriminate].
  exists k. split; auto. apply group_keys_In. eauto.
Qed.

(** C1. Cleaning.  When the cleaning block succeeds on the loaded table
    [raw], (1) every row of the result has a date and a location, (2) the
    rows are in ascending order of (location, date), (3) they are, place
    by place, the retained rows in their sorted order, with the same
    location and date, and (4) for every location [k] the rows of [k] in
    the result are, position by position, the rows of [k] among the
    retained sorted rows with every cell of every column forward filled
    inside that group: the cell is the value of the nearest row of [k] at
    or above it that has one, and stays missing when no row of [k] at or
    above it has one. *)
Theorem clean_correct (raw df : DataFrame) :
  clean raw = Ok df ->
  (forall r, In r (rows df) -> date r <> None /\ location r <> None) /\
  sorted_by row_leb (rows df) /\
  map sort_key (rows df) = map sort_key (retained raw) /\
  (forall k,
      List.length (group k (rows df)) = List.length (group k (retained raw)) /\
      forall c i r',
        nth_error (group k (rows df)) i = Some r' ->
        forward_fill_at c (group k (retained raw)) i (cell c r')).
Proof.
  intros H. apply clean_rows in H. destruct H as [_ Hrows]. rewrite Hrows.
  pose proof (retained_notna raw) as Hna.
  split; [|split; [|split]].
  - intros r' Hr'. apply (groupby_ffill_in _ Hna) in Hr'.
    destruct Hr' as (r & Hr & Hkey). apply Hna in Hr.
    unfold sort_key in Hkey. injection Hkey as Hl Hd. rewrite Hl, Hd.
    destruct Hr as [H1 H2].
    destruct (date r); [|discriminate]. destruct (location r); [|discriminate].
    split; discriminate.
  - apply groupby_ffill_sorted; auto using retained_sorted.
  - apply groupby_ffill_sort_key; auto using retained_sorted.
  - intros k. rewrite (group_groupby_ffill _ Hna). split.
    + apply fillna_ffill_length.
    + intros c i r'. apply fillna_ffill_spec.
Qed.

Lemma clean_correct_witness :
  clean sample_raw = Ok sample_clean /\ sorted_by row_leb (rows sample_clean).
Proof.
  split; [reflexivity|].
  apply (clean_correct sample_raw sample_clean). reflexivity.
Defined.

(** ** The filter block *)

Lemma max_time_upper (l : list (option Timestamp)) (t : Timestamp) :
  In (Some t) l -> exists e, max_time l = Some e /\ (t <= e)%Z.
Proof.
  induction l as [|[a|] l IH]; simpl; intros Hin; [destruct Hin | |].
  - destruct Hin as [Heq|Hin].
    + injection Heq as ->. destruct (max_time l) as [m|]; eexists; split; eauto; lia.
    + destruct (IH Hin) as (e & -> & Hle). eexists; split; eauto. lia.
  - destruct Hin as [Heq|Hin]; [discriminate | auto].
Qed.

Lemma max_time_attained (l : list (option Timestamp)) (e : Timestamp) :
  max_time l = Some e -> In (Some e) l.
Proof.
  revert e. induction l as [|[a|] l IH]; simpl; intros e He; [discriminate | |].
  - destruct (max_time l) as [m|].
    + injection He as <-. destruct (Z.max_spec a m) as [[_ ->]|[_ ->]]; auto.
    + injection He as <-. auto.
  - auto.
Qed.

Lemma start_date_value : start_date = 1609459200000000000%Z.
Proof. reflexivity. Qed.

Lemma isin_iff (l : list string) (v : option string) :
  isin l v = true <-> exists s, v = Some s /\ In s l.
Proof.
  unfold isin. destruct v as [s|].
  - rewrite existsb_exists. split.
    + intros (x & Hx & Heq). apply String.eqb_eq in Heq. subst. eauto.
    + intros (x & Heq & Hx). injection Heq as <-. exists s.
      split; auto. apply String.eqb_refl.
  - split; [discriminate | intros (s & H & _); discriminate].
Qed.

Lemma mask_iff (end_date : option Timestamp) (r : Row) :
  mask end_date r = true <->
  (exists l, location r = Some l /\ In l countries) /\
  (exists t e, date r = Some t /\ end_date = Some e /\
               (start_date <= t)%Z /\ (t <= e)%Z).
Proof.
  unfold mask. rewrite !andb_true_iff, isin_iff.
  unfold time_geb, time_leb. split.
  - intros [[Hl Hs] He]. split; auto.
    destruct (date r) as [t|]; [|discriminate].
    destruct end_date as [e|]; [|discriminate].
    exists t, e. rewrite Z.leb_le in Hs, He. auto.
  - intros [Hl (t & e & -> & -> & Hs & He)].
    rewrite !Z.leb_le. auto.
Qed.

(** C2. Filtering.  When the filter block succeeds on a dataframe [df]
    (the cleaned one in the script), [end_date] is the maximum date
    present in [df], and a row is in [df_filt] exactly when it is a row
    of [df] whose location is one of the three configured countries and
    whose date lies between 2021-01-01 and [end_date], both included. *)
Theorem filter_block_correct (df df_filt : DataFrame) (end_date : option Timestamp) :
  filter_block df = Ok (end_date, df_filt) ->
  countries = ["United States"; "India"; "Brazil"] /\
  start_date = to_datetime 2021 1 1 /\
  (forall r t, In r (rows df) -> date r = Some t ->
               exists e, end_date = Some e /\ (t <= e)%Z) /\
  (forall e, end_date = Some e -> exists r, In r (rows df) /\ date r = Some e) /\
  (forall r,
      In r (rows df_filt) <->
      In r (rows df) /\
      (exists l, location r = Some l /\ In l countries) /\
      (exists t e, date r = Some t /\ end_date = Some e /\
                   (start_date <= t)%Z /\ (t <= e)%Z)).
Proof.
  unfold filter_block. intros H. invert_ok. simpl.
  split; [reflexivity|]. split; [reflexivity|]. split; [|split].
  - intros r t Hr Hd. apply max_time_upper. rewrite <- Hd. now apply in_map.
  - intros e He. apply max_time_attained in He. apply in_map_iff in He.
    destruct He as (r & Hd & Hr). eauto.
  - intros r. rewrite filter_In, mask_iff. tauto.
Qed.

Lemma filter_block_correct_witness :
  filter_block sample_clean = Ok sample_filt /\
  forall e, fst sample_filt = Some e ->
            exists r, In r (rows sample_clean) /\ date r = Some e.
Proof.
  split; [reflexivity|].
  apply (filter_block_correct sample_clean (snd sample_filt) (fst sample_filt)).
  reflexivity.
Defined.

(** ** Loading *)


Lemma write_local_ok (w : World) (data : string) :
  local_writable w = true -> write_local w data = Ok (with_local w data).
Proof. intros H. unfold write_local. now rewrite H. Qed.


Lemma load_data_download_ok (read_csv : string -> option DataFrame)
    (w : World) (data : string) :
  download w = Ok data ->
  local_writable w = true ->
  load_data read_csv w =
  match parse read_csv data with
  | Ok df => (([PrintDownloading; PrintSaved], Ok df), with_local w data)
  | Raise e =>
      (([PrintDownloading; PrintSaved; PrintRemoteFailed e], Raise e),
       with_local w data)
  end.
Proof.
  intros H Hw. unfold load_data, load_remote.
  rewrite H, (write_local_ok _ _ Hw).
  unfold read_local, local_exists. simpl.
  destruct (parse read_csv data); reflexivity.
Qed.


Lemma load_data_download_failed (read_csv : string -> option DataFrame)
    (w : World) (e : Exception) :
  download w = Raise e ->
  load_data read_csv w =
  (([PrintDownloading; PrintRemoteFailed e], read_local read_csv w), w).
Proof.
  intros H. unfold load_data, load_remote. rewrite H. simpl.
  unfold local_exists, read_local. destruct (local_file w); reflexivity.
Qed.






(** The cases of C3 on the sample worlds. *)
Example load_data_online :
  outcome (fst (load_data sample_read_csv world_online)) = Ok sample_raw.
Proof. reflexivity. Qed.

Example load_data_offline :
  outcome (fst (load_data sample_read_csv world_offline)) = Ok sample_raw.
Proof. reflexivity. Qed.

Example load_data_nothing :
  outcome (fst (load_data sample_read_csv world_nothing)) = Raise FileNotFoundError.
Proof. reflexivity. Qed.

Example load_data_rejected :
  download world_rejected = Ok "<html>maintenance</html>" /\
  outcome (fst (load_data sample_read_csv world_rejected)) = Raise ParserError.
Proof. split; reflexivity. Qed.

Example load_data_readonly :
  download world_readonly = Ok sample_csv /\
  sample_read_csv sample_csv = Some sample_raw /\
  load_data sample_read_csv world_readonly =
  (([PrintDownloading; PrintRemoteFailed OSError], Raise ParserError), world_readonly).
Proof. repeat split; reflexivity. Qed.

Example load_data_readonly_dir :
  download world_readonly_dir = Ok sample_csv /\
  load_data sample_read_csv world_readonly_dir =
  (([PrintDownloading; PrintRemoteFailed OSError], Raise FileNotFoundError),
   world_readonly_dir).
Proof. split; reflexivity. Qed.



Example load_data_overwrites_stale :
  local_file world_online = Some "stale" /\
  local_file (snd (load_data sample_read_csv world_online)) = Some sample_csv.
Proof. split; reflexivity. Qed.

(** ** Traces *)

Lemma run_bind_trace {A B : Type} (m : Run A) (k : A -> Run B) :
  trace (run_bind m k) =
  trace m ++ match outcome m with
             | Ok a => trace (k a)
             | Raise _ => []
             end.
Proof.
  destruct m as [out [a|e]]; simpl.
  - destruct (k a); reflexivity.
  - now rewrite app_nil_r.
Qed.

Lemma run_bind_outcome {A B : Type} (m : Run A) (k : A -> Run B) :
  outcome (run_bind m k) =
  match outcome m with
  | Ok a => outcome (k a)
  | Raise e => Raise e
  end.
Proof.
  destruct m as [out [a|e]]; simpl; auto. destruct (k a); reflexivity.
Qed.

Lemma Forall_trace_bind {A B : Type} (P : Output -> Prop) (m : Run A)
    (k : A -> Run B) :
  Forall P (trace m) ->
  (forall a, outcome m = Ok a -> Forall P (trace (k a))) ->
  Forall P (trace (run_bind m k)).
Proof.
  intros Hm Hk. rewrite run_bind_trace. apply Forall_app. split; auto.
  destruct (outcome m); auto.
Qed.








Lemma Forall_trace_emit (P : Output -> Prop) (o : Output) :
  P o -> Forall P (trace (emit o)).
Proof. intros H. repeat constructor. exact H. Qed.

Lemma Forall_trace_lift {A : Type} (P : Output -> Prop) (r : Result A) :
  Forall P (trace (lift r)).
Proof. constructor. Qed.

Lemma Forall_trace_ret {A : Type} (P : Output -> Prop) (a : A) :
  Forall P (trace (ret a)).
Proof. constructor. Qed.

(** Splits a property of every output of a block of the script into
    the same property of its statements. *)
Ltac trace_forall :=
  repeat first
    [ apply Forall_trace_lift
    | apply Forall_trace_ret
    | apply Forall_trace_bind; [| intros ? ?; cbv beta]
    | match goal with
      | |- Forall _ (trace (let '(_, _) := ?f in _)) => destruct f
      | |- Forall _ (trace (if ?b then _ else _)) => destruct b
      end ].

Lemma lift_outcome {A : Type} (r : Result A) (a : A) :
  outcome (lift r) = Ok a -> r = Ok a.
Proof. auto. Qed.

Lemma plot_time_series_kind (data : DataFrame) (metric : Column) (title : string)
    (fig : Figure) :
  plot_time_series data metric title = Ok fig ->
  exists lines, fig = TimeSeries title metric lines.
Proof.
  unfold plot_time_series. intros H. invert_ok. eauto.
Qed.

Lemma plot_death_vs_infection_kind (data : DataFrame) (fig : Figure) :
  plot_death_vs_infection data = Ok fig -> exists lines, fig = CasesVsDeaths lines.
Proof.
  unfold plot_death_vs_infection. intros H. invert_ok. eauto.
Qed.

Lemma plot_choropleth_kind (world : list Region) (latest : DataFrame) (fig : Figure) :
  plot_choropleth world latest = Ok fig ->
  exists shades, fig = ChoroplethMap "Global COVID-19 Total Cases" c_total_cases shades.
Proof.
  unfold plot_choropleth. intros H. invert_ok. eauto.
Qed.

Lemma navigation_menu_cons (df_filt : DataFrame) (choice : string)
    (rest : list string) :
  navigation_menu df_filt (choice :: rest) =
  (emit PrintMenu ;;;
   s <- menu_choice df_filt choice ;;
   match s with
   | Continue => navigation_menu df_filt rest
   | Break => ret rest
   end)%run.
Proof. reflexivity. Qed.

Lemma navigation_menu_forall (P : Output -> Prop) (df_filt : DataFrame) :
  P PrintMenu ->
  (forall choice, Forall P (trace (menu_choice df_filt choice))) ->
  forall stdin, Forall P (trace (navigation_menu df_filt stdin)).
Proof.
  intros Hm Hc. induction stdin as [|choice rest IH].
  - repeat constructor. exact Hm.
  - rewrite navigation_menu_cons. trace_forall.
    + now apply Forall_trace_emit.
    + apply Hc.
    + exact IH.
Qed.



(** ** The menu and the vaccination column *)

Lemma filter_block_columns (df df_filt : DataFrame) (e : option Timestamp) :
  filter_block df = Ok (e, df_filt) -> columns df_filt = columns df.
Proof.
  unfold filter_block. intros H. invert_ok. reflexivity.
Qed.

Lemma has_column_columns (df df' : DataFrame) (name : string) :
  columns df' = columns df -> has_column df' name = has_column df name.
Proof.
  unfold has_column. now intros ->.
Qed.

Lemma filtered_has_column (raw df df_filt : DataFrame) (e : option Timestamp)
    (name : string) :
  clean raw = Ok df -> filter_block df = Ok (e, df_filt) ->
  has_column raw name = false -> has_column df_filt name = false.
Proof.
  intros Hc Hf Hraw. apply clean_rows in Hc. destruct Hc as [Hcols _].
  apply filter_block_columns in Hf.
  rewrite (has_column_columns df df_filt) by assumption.
  rewrite (has_column_columns (select_available raw) df) by assumption.
  destruct (has_column (select_available raw) name) eqn:H; auto.
  apply has_column_available in H. destruct H. congruence.
Qed.

Lemma menu_choice_3_absent (df_filt : DataFrame) :
  has_column df_filt "total_vaccinations" = false ->
  menu_choice df_filt "3" = ([PrintInvalidChoice], Ok Continue).
Proof.
  intros H. unfold menu_choice. simpl. rewrite H. reflexivity.
Qed.

Lemma menu_choice_not_dual_axis (df_filt : DataFrame) (choice : string) :
  has_column df_filt "total_vaccinations" = false ->
  Forall not_dual_axis (trace (menu_choice df_filt choice)).
Proof.
  intros Hv. unfold menu_choice. rewrite Hv, andb_false_r.
  trace_forall; apply Forall_trace_emit; simpl; auto;
    match goal with
    | H : outcome (lift _) = Ok _ |- _ => apply lift_outcome in H
    end.
  - match goal with
    | H : plot_time_series _ _ _ = Ok _ |- _ =>
        apply plot_time_series_kind in H; destruct H as [? ->]
    end. reflexivity.
  - match goal with
    | H : plot_time_series _ _ _ = Ok _ |- _ =>
        apply plot_time_series_kind in H; destruct H as [? ->]
    end. reflexivity.
  - match goal with
    | H : plot_death_vs_infection _ = Ok _ |- _ =>
        apply plot_death_vs_infection_kind in H; destruct H as [? ->]
    end. reflexivity.
Qed.

Lemma charts_forall (out : list Output) (fig : Figure) :
  Forall not_dual_axis out -> In fig (charts out) -> is_dual_axis fig = false.
Proof.
  induction 1 as [|o out Ho _ IH]; simpl; [tauto|].
  destruct o; auto. intros [<-|Hin]; auto.
Qed.

Lemma analysis_not_dual_axis (argsort : list float -> list nat)
    (world : list Region) (w : World) (raw : DataFrame)
    (stdin : list string) :
  has_column raw "total_vaccinations" = false ->
  Forall not_dual_axis (trace (analysis argsort world w raw stdin)).
Proof.
  intros Hraw. unfold analysis.
  apply Forall_trace_bind; [now apply Forall_trace_emit | intros _ _].
  apply Forall_trace_bind; [apply Forall_trace_lift | intros df Hdf].
  apply Forall_trace_bind; [apply Forall_trace_lift | intros [e df_filt] Hf].
  apply lift_outcome in Hdf, Hf.
  pose proof (filtered_has_column _ _ _ _ _ Hdf Hf Hraw) as Hv.
  unfold initial_dual_axis, insights. rewrite Hv.
  trace_forall; try (apply Forall_trace_emit; simpl; auto);
    repeat match goal with
           | H : outcome (lift _) = Ok _ |- _ => apply lift_outcome in H
           end.
  - match goal with
    | H : plot_time_series _ c_total_cases _ = Ok _ |- _ =>
        apply plot_time_series_kind in H; destruct H as [? ->]
    end. reflexivity.
  - match goal with
    | H : plot_time_series _ c_total_deaths _ = Ok _ |- _ =>
        apply plot_time_series_kind in H; destruct H as [? ->]
    end. reflexivity.
  - match goal with
    | H : plot_choropleth _ _ = Ok _ |- _ =>
        apply plot_choropleth_kind in H; destruct H as [? ->]
    end. reflexivity.
  - apply navigation_menu_forall; [exact I|].
    intros choice. now apply menu_choice_not_dual_axis.
Qed.

(** The filter block succeeds on every table the cleaning block
    returns. *)
Lemma filter_block_after_clean (raw df : DataFrame) :
  clean raw = Ok df -> exists e df_filt, filter_block df = Ok (e, df_filt).
Proof.
  intros H. pose proof (clean_rows raw df H) as [Hcols _].
  unfold clean, dropna_date_location in H. invert_ok.
  repeat match goal with
         | E : require_column (select_available raw) _ = Ok _ |- _ =>
             apply require_column_ok in E
         end.
  unfold filter_block.
  rewrite !require_column_has
    by (rewrite (has_column_columns (select_available raw)); assumption).
  simpl. eauto.
Qed.

Lemma raw_lacks_column (raw df df_filt : DataFrame) (e : option Timestamp)
    (name : string) :
  clean raw = Ok df -> filter_block df = Ok (e, df_filt) ->
  In name cols -> has_column df_filt name = false ->
  has_column raw name = false.
Proof.
  intros Hc Hf Hin Hfilt. apply clean_rows in Hc. destruct Hc as [Hcols _].
  apply filter_block_columns in Hf.
  rewrite (has_column_columns df df_filt) in Hfilt by assumption.
  rewrite (has_column_columns (select_available raw) df) in Hfilt by assumption.
  destruct (has_column raw name) eqn:Hraw; auto.
  assert (H : has_column (select_available raw) name = true)
    by (apply has_column_available; auto).
  congruence.
Qed.

(** C9. When the column [total_vaccinations] is absent from the
    filtered data, the guard of the initial pass skips the dual-axis
    chart, the menu treats the input ["3"] as an invalid choice (it
    prints the invalid-choice message and goes on with the next input),
    and no dual-axis chart is shown in the whole run, the initial pass
    included. *)
Theorem no_vaccinations_no_dual_axis (argsort : list float -> list nat)
    (world : list Region) (w : World) (raw df df_filt : DataFrame)
    (e : option Timestamp) (stdin : list string) :
  clean raw = Ok df -> filter_block df = Ok (e, df_filt) ->
  has_column df_filt "total_vaccinations" = false ->
  initial_dual_axis df_filt = ([], Ok tt) /\
  menu_choice df_filt "3" = ([PrintInvalidChoice], Ok Continue) /\
  (forall rest,
      navigation_menu df_filt ("3" :: rest) =
      (PrintMenu :: PrintInvalidChoice :: trace (navigation_menu df_filt rest),
       outcome (navigation_menu df_filt rest))) /\
  (forall fig, In fig (charts (trace (analysis argsort world w raw stdin))) ->
               is_dual_axis fig = false).
Proof.
  intros Hc Hf Hv. split; [|split; [|split]].
  - unfold initial_dual_axis. now rewrite Hv.
  - now apply menu_choice_3_absent.
  - intros rest. rewrite navigation_menu_cons, (menu_choice_3_absent _ Hv).
    simpl. destruct (navigation_menu df_filt rest); reflexivity.
  - intros fig. apply charts_forall. apply analysis_not_dual_axis.
    apply (raw_lacks_column raw df df_filt e); auto. simpl. tauto.
Qed.

Lemma no_vaccinations_no_dual_axis_witness :
  clean sample_raw_no_vacc = Ok (ok_or empty_frame (clean sample_raw_no_vacc)) /\
  filter_block (ok_or empty_frame (clean sample_raw_no_vacc)) =
    Ok sample_filt_no_vacc /\
  has_column (snd sample_filt_no_vacc) "total_vaccinations" = false /\
  forall fig,
    In fig (charts (trace (analysis stable_argsort sample_world world_online
                             sample_raw_no_vacc ["3"; "1"; "5"]))) ->
    is_dual_axis fig = false.
Proof.
  split; [reflexivity|]. split; [reflexivity|]. split; [reflexivity|].
  apply (no_vaccinations_no_dual_axis stable_argsort sample_world world_online
           sample_raw_no_vacc
           (ok_or empty_frame (clean sample_raw_no_vacc))
           (snd sample_filt_no_vacc) (fst sample_filt_no_vacc)
           ["3"; "1"; "5"]); reflexivity.
Defined.

(** On that file the script does reach the menu, and answers ["3"]
    with the invalid-choice message. *)
Example no_vaccinations_run :
  skipn 7 (trace (analysis stable_argsort sample_world world_online
                    sample_raw_no_vacc ["3"; "5"])) =
  [PrintMenu; PrintInvalidChoice; PrintMenu; PrintExiting].
Proof. vm_compute. reflexivity. Qed.

(** ** The menu loop *)

Section Menu.
Variable df_filt : DataFrame.
Variables f1 f2 f3 f4 : Figure.
Hypothesis chart1 :
  plot_time_series df_filt c_total_cases "Total Cases Over Time" = Ok f1.
Hypothesis chart2 :
  plot_time_series df_filt c_total_deaths "Total Deaths Over Time" = Ok f2.
Hypothesis chart3 :
  has_column df_filt "total_vaccinations" = true ->
  plot_dual_axis df_filt c_new_cases c_total_vaccinations
    "Daily New Cases" "Total Vaccinations" = Ok f3.
Hypothesis chart4 : plot_death_vs_infection df_filt = Ok f4.

Let reaction : string -> list Output :=
  menu_reaction f1 f2 f3 f4 (has_column df_filt "total_vaccinations").

Lemma menu_choice_continue (choice : string) :
  choice <> "5" ->
  menu_choice df_filt choice = (reaction choice, Ok Continue).
Proof.
  intros H5. unfold menu_choice, reaction, menu_reaction.
  destruct (choice =? "1"); [now rewrite chart1|].
  destruct (choice =? "2"); [now rewrite chart2|].
  destruct (String.eqb_spec choice "3") as [->|H3]; simpl.
  - destruct (has_column df_filt "total_vaccinations"); [|reflexivity].
    now rewrite chart3.
  - destruct (choice =? "4"); [now rewrite chart4|].
    destruct (String.eqb_spec choice "5"); [contradiction | reflexivity].
Qed.

Lemma menu_choice_break : menu_choice df_filt "5" = ([PrintExiting], Ok Break).
Proof. reflexivity. Qed.

Lemma navigation_menu_continue (choice : string) (rest : list string) :
  choice <> "5" ->
  navigation_menu df_filt (choice :: rest) =
  (PrintMenu :: reaction choice ++ trace (navigation_menu df_filt rest),
   outcome (navigation_menu df_filt rest)).
Proof.
  intros H5. rewrite navigation_menu_cons, (menu_choice_continue _ H5).
  simpl. destruct (navigation_menu df_filt rest). reflexivity.
Qed.

Lemma navigation_menu_exit (rest : list string) :
  navigation_menu df_filt ("5" :: rest) = ([PrintMenu; PrintExiting], Ok rest).
Proof. reflexivity. Qed.

Lemma navigation_menu_no_exit (stdin : list string) :
  ~ In "5" stdin ->
  navigation_menu df_filt stdin =
  (flat_map (fun c => PrintMenu :: reaction c) stdin ++ [PrintMenu],
   Raise EOFError).
Proof.
  induction stdin as [|c rest IH]; intros Hno; [reflexivity|].
  rewrite navigation_menu_continue by (intros ->; apply Hno; now left).
  rewrite IH by (intros Hin; apply Hno; now right).
  simpl. now rewrite <- app_assoc.
Qed.

Lemma navigation_menu_exit_inv (stdin rest : list string) :
  outcome (navigation_menu df_filt stdin) = Ok rest ->
  exists pre, stdin = pre ++ "5" :: rest /\ ~ In "5" pre.
Proof.
  induction stdin as [|c stdin IH]; intros H; [discriminate|].
  destruct (string_dec c "5") as [->|Hc].
  - injection H as <-. exists []. split; [reflexivity | intros []].
  - rewrite navigation_menu_continue in H by assumption. simpl in H.
    destruct (IH H) as (pre & -> & Hpre). exists (c :: pre).
    split; [reflexivity|]. intros [Heq|Hin]; [congruence | contradiction].
Qed.
End Menu.

(** C4, amended.  On data on which the four charts can be drawn, the
    menu prompts again after every input other than ["5"]: after ["1"],
    ["2"] and ["4"] it has shown the chart of total cases, of total
    deaths and of new cases against new deaths; after ["3"] it has
    shown the dual-axis chart when the column [total_vaccinations] is
    present and printed the invalid-choice message when it is not; after
    any other input it has printed the invalid-choice message.  On
    ["5"] it prints the exit message and returns.  It returns only
    there: a run that returns has read a first ["5"], and a run without
    ["5"] answers every input and is still asking when its input ends. *)
Theorem navigation_menu_correct (df_filt : DataFrame) (f1 f2 f3 f4 : Figure) :
  plot_time_series df_filt c_total_cases "Total Cases Over Time" = Ok f1 ->
  plot_time_series df_filt c_total_deaths "Total Deaths Over Time" = Ok f2 ->
  (has_column df_filt "total_vaccinations" = true ->
   plot_dual_axis df_filt c_new_cases c_total_vaccinations
     "Daily New Cases" "Total Vaccinations" = Ok f3) ->
  plot_death_vs_infection df_filt = Ok f4 ->
  let reaction :=
    menu_reaction f1 f2 f3 f4 (has_column df_filt "total_vaccinations") in
  (forall choice rest,
      choice <> "5" ->
      navigation_menu df_filt (choice :: rest) =
      (PrintMenu :: reaction choice ++ trace (navigation_menu df_filt rest),
       outcome (navigation_menu df_filt rest))) /\
  (forall rest,
      navigation_menu df_filt ("5" :: rest) = ([PrintMenu; PrintExiting], Ok rest)) /\
  (forall stdin rest,
      outcome (navigation_menu df_filt stdin) = Ok rest ->
      exists pre, stdin = pre ++ "5" :: rest /\ ~ In "5" pre) /\
  (forall stdin,
      ~ In "5" stdin ->
      navigation_menu df_filt stdin =
      (flat_map (fun c => PrintMenu :: reaction c) stdin ++ [PrintMenu],
       Raise EOFError)).
Proof.
  intros H1 H2 H3 H4 reaction. repeat split.
  - intros choice rest. now apply navigation_menu_continue.
  - intros stdin rest. now apply (navigation_menu_exit_inv df_filt f1 f2 f3 f4).
  - intros stdin. now apply navigation_menu_no_exit.
Qed.

Lemma navigation_menu_correct_witness :
  plot_time_series (snd sample_filt) c_total_cases "Total Cases Over Time" =
    Ok (ok_figure (plot_time_series (snd sample_filt) c_total_cases
                     "Total Cases Over Time")) /\
  plot_death_vs_infection (snd sample_filt) =
    Ok (ok_figure (plot_death_vs_infection (snd sample_filt))) /\
  navigation_menu (snd sample_filt) ["x"; "3"] =
    ([PrintMenu; PrintInvalidChoice; PrintMenu;
      Show (ok_figure (plot_dual_axis (snd sample_filt) c_new_cases
                         c_total_vaccinations "Daily New Cases"
                         "Total Vaccinations"));
      PrintMenu], Raise EOFError).
Proof.
  split; [reflexivity|]. split; [reflexivity|].
  apply (navigation_menu_correct (snd sample_filt)
           (ok_figure (plot_time_series (snd sample_filt) c_total_cases
                         "Total Cases Over Time"))
           (ok_figure (plot_time_series (snd sample_filt) c_total_deaths
                         "Total Deaths Over Time"))
           (ok_figure (plot_dual_axis (snd sample_filt) c_new_cases
                         c_total_vaccinations "Daily New Cases"
                         "Total Vaccinations"))
           (ok_figure (plot_death_vs_infection (snd sample_filt))));
    try reflexivity.
  intros [H|[H|[]]]; discriminate.
Defined.

(** C4 as stated fails: on data without the column [total_vaccinations]
    the input ["3"] shows no chart. *)
Lemma menu_redisplay_counterexample :
  ~ (forall raw df e df_filt choice,
        clean raw = Ok df -> filter_block df = Ok (e, df_filt) ->
        In choice ["1"; "2"; "3"; "4"] ->
        exists fig, trace (menu_choice df_filt choice) = [Show fig]).
Proof.
  intros H.
  destruct (H sample_raw_no_vacc
              (ok_or empty_frame (clean sample_raw_no_vacc))
              (fst sample_filt_no_vacc) (snd sample_filt_no_vacc) "3")
    as [fig Hfig]; try reflexivity.
  - simpl. tauto.
  - discriminate Hfig.
Qed.

(** The chart of new cases against new deaths is drawn by the menu
    only, and input ["4"] has no guard on its columns: on a file without
    the column [new_deaths] the script reaches the menu and ["4"] ends
    it with a [KeyError]. *)
Example menu_choice_4_key_error :
  skipn 7 (trace (analysis stable_argsort sample_world world_online
                    sample_raw_no_deaths ["4"; "5"])) = [PrintMenu] /\
  outcome (analysis stable_argsort sample_world world_online
             sample_raw_no_deaths ["4"; "5"]) =
    Raise (KeyError "new_deaths").
Proof. split; vm_compute; reflexivity. Qed.

(** ** The merge for the map *)

Lemma map_fst_matched (w : Region) (ms : list Row) :
  map fst (map (fun r => (w, Some r)) ms) = repeat w (List.length ms).
Proof.
  induction ms as [|r ms IH]; simpl; [reflexivity | now rewrite IH].
Qed.

Lemma merge_left_regions (world : list Region) (latest : list Row) :
  map fst (merge_left world latest) =
  flat_map (fun w => repeat w (Nat.max 1 (List.length (matches w latest)))) world.
Proof.
  unfold merge_left. induction world as [|w world IH]; [reflexivity|].
  cbn [flat_map]. rewrite map_app, IH. f_equal.
  destruct (matches w latest) as [|r ms]; [reflexivity|].
  now rewrite map_fst_matched.
Qed.

Lemma merge_left_matched (world : list Region) (latest : list Row)
    (w : Region) (r : Row) :
  In (w, Some r) (merge_left world latest) <->
  In w world /\ In r latest /\ key_eqb (iso_a3 w) (iso_code r) = true.
Proof.
  unfold merge_left. rewrite in_flat_map. split.
  - intros (w' & Hw' & Hin).
    destruct (matches w' latest) as [|r' ms] eqn:Hm.
    + destruct Hin as [Heq|[]]. discriminate.
    + apply in_map_iff in Hin. destruct Hin as (x & Heq & Hx).
      injection Heq as <- <-. rewrite <- Hm in Hx.
      apply filter_In in Hx. tauto.
  - intros (Hw & Hr & Hk). exists w. split; auto.
    assert (Hin : In r (matches w latest)) by (apply filter_In; auto).
    destruct (matches w latest) as [|r' ms]; [destruct Hin|].
    apply in_map_iff. eauto.
Qed.

Lemma merge_left_unmatched (world : list Region) (latest : list Row) (w : Region) :
  In (w, None) (merge_left world latest) <->
  In w world /\ forall r, In r latest -> key_eqb (iso_a3 w) (iso_code r) = false.
Proof.
  unfold merge_left. rewrite in_flat_map. split.
  - intros (w' & Hw' & Hin).
    destruct (matches w' latest) as [|r' ms] eqn:Hm.
    + destruct Hin as [Heq|[]]. injection Heq as ->. split; auto.
      intros r Hr. destruct (key_eqb (iso_a3 w) (iso_code r)) eqn:Hk; auto.
      assert (Hin : In r (matches w latest)) by (apply filter_In; auto).
      rewrite Hm in Hin. destruct Hin.
    + apply in_map_iff in Hin. destruct Hin as (x & Heq & _). discriminate.
  - intros [Hw Hnone]. exists w. split; auto.
    unfold matches. rewrite filter_none; [now left | exact Hnone].
Qed.

Lemma merge_left_once (world : list Region) (latest : list Row) :
  (forall w, In w world -> List.length (matches w latest) <= 1) ->
  map fst (merge_left world latest) = world.
Proof.
  intros H. rewrite merge_left_regions.
  induction world as [|w world IH]; [reflexivity|].
  cbn [flat_map]. rewrite IH by (intros w' Hw'; apply H; now right).
  assert (Hw : List.length (matches w latest) <= 1) by (apply H; now left).
  destruct (List.length (matches w latest)) as [|[|n]]; simpl; auto. lia.
Qed.

(** C6, amended.  The map dataframe is the left merge of the world
    table with the latest statistics on [iso_a3 = iso_code]: the regions
    of the world table appear in it in their order, each once for every
    row of [latest] that carries its code, with that row's statistics,
    and once with missing statistics when no row carries it; so every
    region appears exactly once as soon as no two rows of [latest]
    carry its code.  The map is shaded, row by row of the merged table,
    by the [total_cases] of the matched statistics, missing for an
    unmatched region. *)
Theorem merge_left_correct (world : list Region) (latest : DataFrame) :
  let map_df := merge_left world (rows latest) in
  map fst map_df =
    flat_map (fun w => repeat w (Nat.max 1 (List.length (matches w (rows latest)))))
             world /\
  (forall w r,
      In (w, Some r) map_df <->
      In w world /\ In r (rows latest) /\ key_eqb (iso_a3 w) (iso_code r) = true) /\
  (forall w,
      In (w, None) map_df <->
      In w world /\
      forall r, In r (rows latest) -> key_eqb (iso_a3 w) (iso_code r) = false) /\
  ((forall w, In w world -> List.length (matches w (rows latest)) <= 1) ->
   map fst map_df = world) /\
  (forall fig,
      plot_choropleth world latest = Ok fig ->
      exists shades,
        fig = ChoroplethMap "Global COVID-19 Total Cases" c_total_cases shades /\
        map snd shades = map (merged_num total_cases) map_df).
Proof.
  intros map_df. subst map_df.
  split; [apply merge_left_regions|].
  split; [apply merge_left_matched|].
  split; [apply merge_left_unmatched|].
  split; [apply merge_left_once|].
  intros fig H. unfold plot_choropleth in H. invert_ok.
  eexists. split; [reflexivity|]. rewrite map_map. reflexivity.
Qed.

(** On the sample every region appears once: France, whose code in
    the world table is "-99", and Fiji, absent from the file, without
    statistics. *)
Example merge_left_sample :
  map (fun m => (region_name (fst m), merged_num total_cases m))
      (merge_left sample_world (rows sample_latest)) =
  [ ("United States of America", 30); ("France", nan); ("India", 3);
    ("Fiji", nan) ]%float.
Proof. vm_compute. reflexivity. Qed.

(** C6 as stated fails: when the file records the latest observation of
    a location twice, the region of that location appears twice in the
    merged table. *)
Lemma merge_left_counterexample :
  ~ (forall world raw df latest,
        clean raw = Ok df -> latest_table df = Ok latest ->
        map fst (merge_left world (rows latest)) = world).
Proof.
  intros H.
  specialize (H [mkRegion "United States of America" (Some "USA") []]
                sample_raw_dup
                (ok_or empty_frame (clean sample_raw_dup))
                sample_latest_dup eq_refl eq_refl).
  apply (f_equal (@List.length Region)) in H. vm_compute in H. discriminate H.
Qed.

(** ** Binary64 comparison *)

Lemma SFcompare_key (a b : spec_float) :
  SFcompare a b =
  match spec_key a, spec_key b with
  | Some ka, Some kb => Some (cmp3 ka kb)
  | _, _ => None
  end.
Proof.
  destruct a as [[]|[]| |[] ma ea]; destruct b as [[]|[]| |[] mb eb];
    try reflexivity; unfold cmp3, lex_compare; simpl.
  rewrite Z.compare_opp, (Z.compare_antisym ea eb).
  destruct (ea ?= eb)%Z; reflexivity.
Qed.

Lemma float_leb_key (x y : float) :
  (x <=? y)%float =
  match float_key x, float_key y with
  | Some a, Some b => leb_of cmp3 a b
  | _, _ => false
  end.
Proof.
  rewrite leb_spec. unfold SFleb, float_key. rewrite SFcompare_key.
  destruct (spec_key (Prim2SF x)), (spec_key (Prim2SF y)); reflexivity.
Qed.


Lemma float_eqb_key (x y : float) :
  (x =? y)%float =
  match float_key x, float_key y with
  | Some a, Some b => match cmp3 a b with Eq => true | _ => false end
  | _, _ => false
  end.
Proof.
  rewrite eqb_spec. unfold SFeqb, float_key. rewrite SFcompare_key.
  destruct (spec_key (Prim2SF x)), (spec_key (Prim2SF y)); reflexivity.
Qed.

#[export] Instance StrictCompare_cmp3 : StrictCompare cmp3.
Proof. unfold cmp3. exact _. Qed.

Lemma is_nan_key (x : float) : is_nan x = is_none (float_key x).
Proof.
  unfold is_nan. rewrite float_eqb_key.
  destruct (float_key x) as [k|]; [|reflexivity].
  now rewrite (cmp_refl cmp3).
Qed.

Lemma np_leb_key (x y : float) :
  np_leb x y = leb_of (na_last_compare cmp3) (float_key x) (float_key y).
Proof.
  unfold np_leb. rewrite is_nan_key, float_leb_key. unfold leb_of.
  destruct (float_key x), (float_key y); reflexivity.
Qed.

#[export] Instance TotalPreorder_np_leb : TotalPreorder np_leb.
Proof.
  pose proof (TotalPreorder_on (leb_of (na_last_compare cmp3)) float_key) as H.
  destruct H as [Ht Hr]. split.
  - intros x y. rewrite !np_leb_key. apply Ht.
  - intros x y z. rewrite !np_leb_key. apply Hr.
Qed.

Lemma np_leb_notna (x y : float) :
  is_nan y = false -> np_leb x y = (x <=? y)%float.
Proof.
  unfold np_leb. now intros ->.
Qed.

(** ** Descending sort and the summary *)

Lemma insert_sorted_ext {A : Type} (leb leb' : A -> A -> bool) (x : A) (l : list A) :
  (forall y, In y l -> leb x y = leb' x y) ->
  insert_sorted leb x l = insert_sorted leb' x l.
Proof.
  induction l as [|y l IH]; intros H; simpl; [reflexivity|].
  rewrite (H y) by now left. rewrite IH; [reflexivity|].
  intros z Hz. apply H. now right.
Qed.

Lemma stable_sort_ext {A : Type} (leb leb' : A -> A -> bool) (l : list A) :
  (forall x y, In x l -> In y l -> leb x y = leb' x y) ->
  stable_sort leb l = stable_sort leb' l.
Proof.
  induction l as [|a l IH]; intros H; simpl; [reflexivity|].
  rewrite IH by (intros x y Hx Hy; apply H; now right).
  apply insert_sorted_ext. intros y Hy. apply stable_sort_in in Hy.
  apply H; [now left | now right].
Qed.

Lemma StronglySorted_rev {A : Type} (R : A -> A -> Prop) (l : list A) :
  StronglySorted R l -> StronglySorted (fun x y => R y x) (rev l).
Proof.
  induction 1 as [|a l Hs IH Ha]; simpl; [constructor|].
  apply StronglySorted_app; auto.
  - repeat constructor.
  - intros x y Hx [<-|[]]. apply in_rev in Hx.
    rewrite Forall_forall in Ha. auto.
Qed.

Lemma StronglySorted_impl_in {A : Type} (R R' : A -> A -> Prop) (l : list A) :
  (forall x y, In x l -> In y l -> R x y -> R' x y) ->
  StronglySorted R l -> StronglySorted R' l.
Proof.
  intros HR Hs. induction Hs as [|a l Hs IH Ha]; constructor.
  - apply IH. intros x y Hx Hy. apply HR; now right.
  - rewrite Forall_forall in *. intros y Hy.
    apply HR; [now left | now right | auto].
Qed.

Lemma StronglySorted_all {A : Type} (R : A -> A -> Prop) (l : list A) :
  (forall x y, In y l -> R x y) -> StronglySorted R l.
Proof.
  induction l as [|a l IH]; intros H; constructor.
  - apply IH. intros x y Hy. apply H. now right.
  - apply Forall_forall. intros y Hy. apply H. now right.
Qed.

Lemma StronglySorted_app_inv {A : Type} (R : A -> A -> Prop) (l1 l2 : list A) :
  StronglySorted R (l1 ++ l2) ->
  StronglySorted R l1 /\ StronglySorted R l2 /\
  forall x y, In x l1 -> In y l2 -> R x y.
Proof.
  induction l1 as [|a l1 IH]; simpl; intros H.
  - repeat split; [constructor | exact H | intros x y []].
  - apply StronglySorted_inv in H. destruct H as [Hs Ha].
    destruct (IH Hs) as (H1 & H2 & H12). apply Forall_app in Ha.
    destruct Ha as [Ha1 Ha2]. repeat split; auto.
    + now constructor.
    + intros x y [<-|Hx] Hy; auto. rewrite Forall_forall in Ha2. auto.
Qed.

Lemma filter_partition_perm {A : Type} (p : A -> bool) (l : list A) :
  Permutation (filter (fun x => negb (p x)) l ++ filter p l) l.
Proof.
  induction l as [|a l IH]; simpl; [constructor|].
  destruct (p a); simpl.
  - apply Permutation_sym, Permutation_cons_app, Permutation_sym, IH.
  - now constructor.
Qed.

Section Take.
Context {A : Type}.

Lemma take_cons (i : nat) (idx : list nat) (l : list A) :
  take (i :: idx) l =
  match nth_error l i with Some a => [a] | None => [] end ++ take idx l.
Proof. reflexivity. Qed.

Lemma take_seq_app (pre l : list A) :
  take (seq (List.length pre) (List.length l)) (pre ++ l) = l.
Proof.
  revert pre. induction l as [|a l IH]; intros pre; [reflexivity|].
  cbn [List.length seq]. rewrite take_cons.
  rewrite nth_error_app2, Nat.sub_diag by lia. cbn [nth_error app].
  f_equal. specialize (IH (pre ++ [a])).
  rewrite length_app, <- app_assoc in IH. cbn [List.length app] in IH.
  now rewrite Nat.add_1_r in IH.
Qed.

Lemma take_seq (l : list A) : take (seq 0 (List.length l)) l = l.
Proof. exact (take_seq_app [] l). Qed.

Lemma take_perm (idx : list nat) (l : list A) :
  Permutation idx (seq 0 (List.length l)) -> Permutation (take idx l) l.
Proof.
  intros H. rewrite <- (take_seq l) at 2. unfold take.
  now apply Permutation_flat_map.
Qed.

Lemma take_in (idx : list nat) (l : list A) (x : A) :
  In x (take idx l) <-> exists i, In i idx /\ nth_error l i = Some x.
Proof.
  unfold take. rewrite in_flat_map. split; intros (i & Hi & Hx); exists i;
    (split; [exact Hi|]).
  - destruct (nth_error l i); [|contradiction]. destruct Hx as [<-|[]]. reflexivity.
  - rewrite Hx. now left.
Qed.

Lemma take_sorted (R : A -> A -> Prop) (idx : list nat) (l : list A) :
  StronglySorted
    (fun i j => forall x y, nth_error l i = Some x -> nth_error l j = Some y -> R x y)
    idx ->
  StronglySorted R (take idx l).
Proof.
  intros H. unfold take. apply StronglySorted_flat_map.
  - intros i _. destruct (nth_error l i); repeat constructor.
  - eapply StronglySorted_impl; [|exact H].
    intros i j Hij x y Hx Hy. cbv beta in Hij.
    destruct (nth_error l i) as [a|]; [|contradiction].
    destruct (nth_error l j) as [b|]; [|contradiction].
    destruct Hx as [<-|[]], Hy as [<-|[]]. apply Hij; reflexivity.
Qed.
End Take.

Lemma nth_map_nth_error {A B : Type} (f : A -> B) (l : list A) (i : nat)
    (x : A) (d : B) :
  nth_error l i = Some x -> nth i (map f l) d = f x.
Proof.
  intros H. apply nth_error_nth. now apply map_nth_error.
Qed.

Section SortDesc.
Context {A : Type} (argsort : list float -> list nat).
Hypothesis argsort_ok : argsort_sorts argsort.
Variable key : A -> float.

Lemma nonnan_keys (l : list A) :
  Forall (fun x => is_nan x = false)
         (map key (rev (filter (fun a => negb (is_nan (key a))) l))).
Proof.
  apply Forall_forall. intros x Hx. apply in_map_iff in Hx.
  destruct Hx as (a & <- & Ha). apply in_rev, filter_In in Ha.
  destruct Ha as [_ Ha]. now apply negb_true_iff in Ha.
Qed.

Lemma sort_values_desc_perm (l : list A) :
  Permutation (sort_values_desc argsort key l) l.
Proof.
  unfold sort_values_desc.
  etransitivity; [| apply (filter_partition_perm (fun a => is_nan (key a)) l)].
  apply Permutation_app_tail.
  destruct (argsort_ok _ (nonnan_keys l)) as [Hperm _].
  rewrite length_map in Hperm.
  rewrite <- Permutation_rev, (take_perm _ _ Hperm), <- Permutation_rev.
  reflexivity.
Qed.

Lemma sort_values_desc_sorted (l : list A) :
  StronglySorted (fun a b => ranks_before (key a) (key b) = true)
                 (sort_values_desc argsort key l).
Proof.
  unfold sort_values_desc.
  destruct (argsort_ok _ (nonnan_keys l)) as [_ Hsorted].
  set (nonnan := rev (filter (fun a => negb (is_nan (key a))) l)) in *.
  set (nans := filter (fun a => is_nan (key a)) l).
  assert (Hnans : forall y, In y nans -> is_nan (key y) = true).
  { intros y Hy. apply filter_In in Hy. tauto. }
  apply StronglySorted_app.
  - eapply StronglySorted_impl;
      [| apply StronglySorted_rev, (take_sorted (fun a b => (key a <=? key b)%float = true)) ].
    + cbv beta. intros x y Hle. unfold ranks_before. rewrite Hle.
      apply orb_true_r.
    + eapply StronglySorted_impl; [|exact Hsorted].
      cbv beta. intros i j Hij x y Hx Hy.
      now rewrite <- (nth_map_nth_error key nonnan i x nan Hx),
                  <- (nth_map_nth_error key nonnan j y nan Hy).
  - apply StronglySorted_all. intros x y Hy. unfold ranks_before.
    now rewrite (Hnans y Hy).
  - intros x y _ Hy. unfold ranks_before. now rewrite (Hnans y Hy).
Qed.
End SortDesc.

(** The sort that keeps equal keys in their order is one the script can
    rely on. *)
Lemma map_fst_combine {A B : Type} (l : list A) (l' : list B) :
  List.length l = List.length l' -> map fst (combine l l') = l.
Proof.
  revert l'. induction l as [|a l IH]; intros [|b l'] H; try discriminate;
    [reflexivity|]. simpl. f_equal. apply IH. now injection H.
Qed.

Lemma in_combine_seq {A : Type} (l : list A) (s i : nat) (x d : A) :
  In (i, x) (combine (seq s (List.length l)) l) -> nth (i - s) l d = x.
Proof.
  revert s. induction l as [|a l IH]; intros s; simpl; [tauto|].
  intros [H|H].
  - injection H as <- <-. now rewrite Nat.sub_diag.
  - assert (Hi : S s <= i).
    { apply in_combine_l, in_seq in H. lia. }
    specialize (IH (S s) H).
    replace (i - s) with (S (i - S s)) by lia. exact IH.
Qed.

Lemma stable_argsort_sorts : argsort_sorts stable_argsort.
Proof.
  intros keys Hkeys. unfold stable_argsort.
  set (pairs := combine (seq 0 (List.length keys)) keys).
  assert (Hsnd : forall p, In p pairs -> snd p = nth (fst p) keys nan).
  { intros [i x] Hp. simpl. symmetry.
    rewrite <- (Nat.sub_0_r i). now apply in_combine_seq. }
  assert (Hnon : forall p, In p pairs -> is_nan (snd p) = false).
  { intros [i x] Hp. apply in_combine_r in Hp. rewrite Forall_forall in Hkeys.
    now apply Hkeys. }
  split.
  - rewrite stable_sort_perm. unfold pairs.
    rewrite map_fst_combine by now rewrite length_seq. reflexivity.
  - apply StronglySorted_map.
    rewrite (stable_sort_ext _ (fun a b => np_leb (snd a) (snd b)))
      by (intros x y Hx Hy; symmetry; apply np_leb_notna; auto).
    eapply StronglySorted_impl_in;
      [| apply (stable_sort_sorted (fun a b => np_leb (snd a) (snd b))) ].
    intros p q Hp Hq Hle. apply stable_sort_in in Hp, Hq.
    cbv beta in Hle. rewrite np_leb_notna in Hle by auto.
    now rewrite <- (Hsnd p Hp), <- (Hsnd q Hq).
Qed.

Lemma with_death_rate_rows (latest : DataFrame) (table : list SummaryRow) :
  with_death_rate latest = Ok table ->
  table = map (fun r => mkSummaryRow r (total_deaths r / total_cases r)%float)
              (rows latest).
Proof.
  unfold with_death_rate. intros H. invert_ok. reflexivity.
Qed.

Lemma insights_prints (argsort : list float -> list nat) (latest : DataFrame)
    (table : list SummaryRow) :
  with_death_rate latest = Ok table ->
  has_column latest "location" = true ->
  insights argsort latest =
  ([PrintTop5Header; PrintTop5 (top5_of argsort table)], Ok (top5_of argsort table)).
Proof.
  intros Ht Hl. unfold insights. rewrite Ht.
  rewrite (require_column_has _ _ Hl). reflexivity.
Qed.

(** C5, amended.  The printed summary consists of the first five rows,
    or of all the rows when there are fewer than five, of the
    latest-per-location table in descending order of [total_cases], the
    rows whose [total_cases] is missing coming last: every printed row
    ranks before every row left out, the printed rows are in that order,
    and each carries a [death_rate] equal to its [total_deaths] divided
    by its [total_cases].  Which of two rows with equal [total_cases]
    comes first, and which of them is printed when only some fit, is
    the choice of the library's sort: the statement holds for every sort
    that puts the keys in ascending order. *)
Theorem top5_correct (argsort : list float -> list nat) (latest : DataFrame)
    (table : list SummaryRow) :
  argsort_sorts argsort ->
  with_death_rate latest = Ok table ->
  has_column latest "location" = true ->
  let top5 := top5_of argsort table in
  let cases := fun s => total_cases (s_row s) in
  insights argsort latest = ([PrintTop5Header; PrintTop5 top5], Ok top5) /\
  List.length top5 = Nat.min 5 (List.length (rows latest)) /\
  (forall s, In s top5 ->
     In (s_row s) (rows latest) /\
     death_rate s = (total_deaths (s_row s) / total_cases (s_row s))%float) /\
  StronglySorted (fun a b => ranks_before (cases a) (cases b) = true) top5 /\
  exists rest,
    Permutation (top5 ++ rest) table /\
    forall a b, In a top5 -> In b rest -> ranks_before (cases a) (cases b) = true.
Proof.
  intros Hsort H Hloc top5 cases.
  split; [now apply insights_prints|].
  apply with_death_rate_rows in H.
  subst top5. unfold top5_of, head.
  change (fun s : SummaryRow => total_cases (s_row s)) with cases.
  pose proof (sort_values_desc_perm argsort Hsort cases table) as Hperm.
  pose proof (sort_values_desc_sorted argsort Hsort cases table) as Hsorted.
  rewrite <- (firstn_skipn 5 (sort_values_desc argsort cases table))
    in Hperm, Hsorted.
  apply StronglySorted_app_inv in Hsorted. destruct Hsorted as (S1 & _ & S12).
  split; [|split; [|split]].
  - rewrite length_firstn.
    rewrite (Permutation_length (sort_values_desc_perm argsort Hsort cases table)).
    subst table. now rewrite length_map.
  - intros s Hs. assert (Hin : In s table).
    { apply (Permutation_in s Hperm). apply in_or_app. now left. }
    subst table. apply in_map_iff in Hin. destruct Hin as (r & <- & Hr).
    simpl. auto.
  - exact S1.
  - exists (skipn 5 (sort_values_desc argsort cases table)).
    split; [exact Hperm | exact S12].
Qed.

Lemma top5_correct_witness :
  argsort_sorts stable_argsort /\
  with_death_rate sample_latest =
    Ok (ok_or [] (with_death_rate sample_latest)) /\
  has_column sample_latest "location" = true /\
  List.length (top5_of stable_argsort (ok_or [] (with_death_rate sample_latest))) =
    Nat.min 5 (List.length (rows sample_latest)).
Proof.
  split; [exact stable_argsort_sorts|]. split; [reflexivity|].
  split; [reflexivity|].
  apply (top5_correct stable_argsort sample_latest
           (ok_or [] (with_death_rate sample_latest))
           stable_argsort_sorts eq_refl eq_refl).
Defined.

Example top5_sample :
  map (fun s => (location (s_row s), total_cases (s_row s), death_rate s))
      (top5_of stable_argsort (ok_or [] (with_death_rate sample_latest))) =
  [ (Some "United States", 30, 5 / 30);
    (Some "France", 8, 2 / 8);
    (Some "India", 3, nan) ]%float.
Proof. vm_compute. reflexivity. Qed.

(** C5 as stated fails: a file with three locations gives a summary of
    three rows, not five. *)
Lemma top5_counterexample :
  ~ (forall argsort raw df latest table,
        argsort_sorts argsort ->
        clean raw = Ok df -> latest_table df = Ok latest ->
        with_death_rate latest = Ok table ->
        List.length (top5_of argsort table) = 5).
Proof.
  intros H.
  specialize (H stable_argsort sample_raw sample_clean sample_latest
                (ok_or [] (with_death_rate sample_latest))
                stable_argsort_sorts eq_refl eq_refl eq_refl).
  vm_compute in H. discriminate H.
Qed.

(** ** Binary64 division *)

Section Rounding.
Variables prec emax : Z.







End Rounding.






(** ** The death rate *)




(** Without the precondition nothing stops the division: a zero divisor
    gives an infinite or a missing death rate, a missing divisor a
    missing one, and no exception is raised. *)
Example death_rate_unguarded :
  with_death_rate
    (mkDataFrame cols
       [ obs "AAA" "A" 2021 1 1 0 nan 5 nan;
         obs "BBB" "B" 2021 1 1 0 nan 0 nan;
         obs "CCC" "C" 2021 1 1 nan nan 1 nan ]%float) =
  Ok [ mkSummaryRow (obs "AAA" "A" 2021 1 1 0 nan 5 nan) infinity;
       mkSummaryRow (obs "BBB" "B" 2021 1 1 0 nan 0 nan) nan;
       mkSummaryRow (obs "CCC" "C" 2021 1 1 nan nan 1 nan) nan ]%float.
Proof. vm_compute. reflexivity. Qed.

(** * Further properties of the script *)

(** ** The cleaning block: when it fails, what it keeps *)

Lemma require_column_raise (df : DataFrame) (name : string) :
  has_column df name = false -> require_column df name = Raise (KeyError name).
Proof.
  unfold require_column. now intros ->.
Qed.

Lemma clean_raises_key_error (raw : DataFrame) (e : Exception) :
  clean raw = Raise e -> exists name, e = KeyError name.
Proof.
  unfold clean, dropna_date_location, sort_values_location_date, groupby_ffill,
    require_column. simpl.
  repeat match goal with
         | |- context [if ?b then _ else _] => destruct b; simpl
         end;
    intros H; try discriminate; injection H as <-; eauto.
Qed.

(** X1.  The cleaning block succeeds exactly when the loaded table has
    the columns [date] and [location]; otherwise it raises a [KeyError].
    When it succeeds, the columns of the result are the columns of
    [cols] that the loaded table has (any other column is dropped), in
    the order of [cols]. *)
Theorem clean_succeeds_iff (raw : DataFrame) :
  ((exists df, clean raw = Ok df) <->
   has_column raw "date" = true /\ has_column raw "location" = true) /\
  (forall e, clean raw = Raise e -> exists name, e = KeyError name) /\
  (forall df, clean raw = Ok df ->
     columns df = filter (has_column raw) cols /\
     forall name,
       has_column df name = true <-> In name cols /\ has_column raw name = true).
Proof.
  split; [|split].
  - split.
    + intros [df H]. unfold clean, dropna_date_location in H. invert_ok.
      repeat match goal with
             | E : require_column (select_available raw) _ = Ok _ |- _ =>
                 apply require_column_ok, has_column_available in E;
                 destruct E as [_ E]
             end.
      auto.
    + intros [Hd Hl]. now apply clean_total.
  - apply clean_raises_key_error.
  - intros df H. apply clean_rows in H. destruct H as [Hcols _].
    split; [exact Hcols|]. intros name.
    rewrite (has_column_columns (select_available raw) df) by assumption.
    apply has_column_available.
Qed.

Example clean_without_location :
  clean (mkDataFrame ["iso_code"; "date"; "total_cases"] (rows sample_raw)) =
  Raise (KeyError "location").
Proof. reflexivity. Qed.

(** ** The cleaning block: what it changes and what it leaves *)

Lemma Forall2_flat_map {A B K : Type} (R : A -> B -> Prop)
    (f : K -> list A) (g : K -> list B) (ks : list K) :
  (forall k, In k ks -> Forall2 R (f k) (g k)) ->
  Forall2 R (flat_map f ks) (flat_map g ks).
Proof.
  induction ks as [|k ks IH]; intros H; simpl; [constructor|].
  apply Forall2_app; [apply H; now left | apply IH].
  intros k' Hk'. apply H. now right.
Qed.

Lemma ffill_from_keeps (g : list Row) :
  forall prev,
    Forall2 (fun r r' => forall c, isna (cell c r) = false -> cell c r' = cell c r)
            g (ffill_from prev g).
Proof.
  induction g as [|r g IH]; intros prev; simpl; constructor; auto.
  intros c Hc. now rewrite pad_row_cell, Hc.
Qed.

Lemma fillna_ffill_keeps (g : list Row) :
  Forall2 (fun r r' => forall c, isna (cell c r) = false -> cell c r' = cell c r)
          g (fillna_ffill g).
Proof.
  destruct g as [|r g]; [constructor|]. rewrite fillna_ffill_from.
  apply ffill_from_keeps.
Qed.

Lemma retained_groups (raw : DataFrame) :
  flat_map (fun k => group k (retained raw)) (group_keys (retained raw)) =
  retained raw.
Proof.
  apply groups_of_sorted; auto using group_keys_increasing, retained_sorted.
  intros r Hr. destruct (retained_notna raw r Hr) as [_ Hl].
  destruct (location r) as [k|] eqn:Hk; [|discriminate].
  exists k. split; auto. apply group_keys_In. eauto.
Qed.

(** X2.  Cleaning never alters a value that is present: the rows of the
    result are, place by place, the retained rows in their sorted order,
    and every cell that is not missing in a retained row is the same in
    its cleaned row. *)
Theorem clean_keeps_present_values (raw df : DataFrame) :
  clean raw = Ok df ->
  Forall2 (fun r r' => forall c, isna (cell c r) = false -> cell c r' = cell c r)
          (retained raw) (rows df).
Proof.
  intros H. apply clean_rows in H. destruct H as [_ ->].
  rewrite <- (retained_groups raw) at 1. unfold groupby_apply.
  apply Forall2_flat_map. intros k _. apply fillna_ffill_keeps.
Qed.

Lemma clean_keeps_present_values_witness :
  clean sample_raw = Ok sample_clean /\
  Forall2 (fun r r' => forall c, isna (cell c r) = false -> cell c r' = cell c r)
          (retained sample_raw) (rows sample_clean).
Proof.
  split; [reflexivity|].
  apply (clean_keeps_present_values sample_raw sample_clean). reflexivity.
Defined.

(** X3.  Cleaning drops the rows that lack a date or a location and no
    other row: the result has as many rows as the loaded table has rows
    with both, and their (location, date) pairs are those of these rows,
    each as many times. *)
Theorem clean_drops_incomplete_rows_only (raw df : DataFrame) :
  clean raw = Ok df ->
  let complete :=
    filter (fun r => negb (is_none (date r)) && negb (is_none (location r)))
           (rows raw) in
  List.length (rows df) = List.length complete /\
  Permutation (map sort_key (rows df)) (map sort_key complete).
Proof.
  intros H complete. apply clean_rows in H. destruct H as [_ Hrows].
  assert (Hperm : Permutation (map sort_key (rows df)) (map sort_key complete)).
  { rewrite Hrows, groupby_ffill_sort_key.
    - apply Permutation_map. apply stable_sort_perm.
    - apply retained_notna.
    - apply retained_sorted. }
  split; [|exact Hperm].
  apply Permutation_length in Hperm. now rewrite !length_map in Hperm.
Qed.

Lemma clean_drops_incomplete_rows_only_witness :
  clean sample_raw = Ok sample_clean /\
  List.length (rows sample_clean) = 7.
Proof.
  split; [reflexivity|].
  apply (clean_drops_incomplete_rows_only sample_raw sample_clean). reflexivity.
Defined.

Lemma ffill_from_filled (c : Column) (g : list Row) :
  forall prev,
    isna (cell c prev) = false ->
    Forall (fun r => isna (cell c r) = false) (ffill_from prev g).
Proof.
  induction g as [|r g IH]; intros prev Hp; simpl; constructor.
  - rewrite pad_row_cell. now destruct (isna (cell c r)) eqn:Hr.
  - apply IH. rewrite pad_row_cell. now destruct (isna (cell c r)) eqn:Hr.
Qed.

Lemma ffill_from_no_gap (c : Column) (g : list Row) :
  forall prev i j ri rj,
    nth_error (ffill_from prev g) i = Some ri ->
    nth_error (ffill_from prev g) j = Some rj ->
    i <= j -> isna (cell c ri) = false -> isna (cell c rj) = false.
Proof.
  induction g as [|r g IH]; intros prev i j ri rj Hi Hj Hij Hna.
  - destruct i; discriminate.
  - simpl in Hi, Hj. destruct i as [|i].
    + injection Hi as <-. destruct j as [|j]; [now injection Hj as <-|].
      simpl in Hj. apply nth_error_In in Hj.
      pose proof (ffill_from_filled c g _ Hna) as Hall.
      rewrite Forall_forall in Hall. auto.
    + destruct j as [|j]; [lia|]. simpl in Hi, Hj.
      apply (IH (pad_row prev r) i j ri rj); auto. lia.
Qed.

(** X4.  After cleaning, a column has no gap inside a location: once a
    row of a location has a value in a column, every later row of that
    location has one too, so a cell can be missing only before the first
    value of its location. *)
Theorem clean_no_gap (raw df : DataFrame) :
  clean raw = Ok df ->
  forall k c i j ri rj,
    nth_error (group k (rows df)) i = Some ri ->
    nth_error (group k (rows df)) j = Some rj ->
    i <= j -> isna (cell c ri) = false -> isna (cell c rj) = false.
Proof.
  intros H k c i j ri rj. apply clean_rows in H. destruct H as [_ ->].
  rewrite (group_groupby_ffill _ (retained_notna raw)).
  destruct (group k (retained raw)) as [|r0 g]; [destruct i; discriminate|].
  rewrite fillna_ffill_from. apply ffill_from_no_gap.
Qed.

Lemma clean_no_gap_witness :
  clean sample_raw = Ok sample_clean /\
  exists ri rj,
    nth_error (group "India" (rows sample_clean)) 0 = Some ri /\
    nth_error (group "India" (rows sample_clean)) 1 = Some rj /\
    isna (cell c_total_cases ri) = false /\
    isna (cell c_total_cases rj) = false.
Proof.
  split; [reflexivity|]. eexists. eexists.
  split; [reflexivity|]. split; [reflexivity|]. split; [reflexivity|].
  apply (clean_no_gap sample_raw sample_clean eq_refl "India" c_total_cases
           0 1 _ _ eq_refl eq_refl); [lia | reflexivity].
Defined.

(** ** Cleaning a cleaned table *)

Lemma pad_str_pad_str (prev cur : option string) :
  pad_str prev (pad_str prev cur) = pad_str prev cur.
Proof. destruct prev, cur; reflexivity. Qed.

Lemma pad_time_pad_time (prev cur : option Timestamp) :
  pad_time prev (pad_time prev cur) = pad_time prev cur.
Proof. destruct prev, cur; reflexivity. Qed.

Lemma pad_num_pad_num (prev cur : float) :
  pad_num prev (pad_num prev cur) = pad_num prev cur.
Proof.
  unfold pad_num. destruct (is_nan cur) eqn:Hc; [|now rewrite Hc].
  now destruct (is_nan prev).
Qed.

Lemma pad_row_pad_row (prev r : Row) :
  pad_row prev (pad_row prev r) = pad_row prev r.
Proof.
  unfold pad_row. simpl.
  now rewrite !pad_str_pad_str, pad_time_pad_time, !pad_num_pad_num.
Qed.

Lemma ffill_from_idempotent (g : list Row) :
  forall prev, ffill_from prev (ffill_from prev g) = ffill_from prev g.
Proof.
  induction g as [|r g IH]; intros prev; simpl; [reflexivity|].
  rewrite pad_row_pad_row. f_equal. apply IH.
Qed.

Lemma fillna_ffill_idempotent (g : list Row) :
  fillna_ffill (fillna_ffill g) = fillna_ffill g.
Proof.
  destruct g as [|r g]; [reflexivity|]. simpl. f_equal.
  apply ffill_from_idempotent.
Qed.

Lemma insert_sorted_below {A : Type} (leb : A -> A -> bool) (x : A) (l : list A) :
  Forall (fun y => leb x y = true) l -> insert_sorted leb x l = x :: l.
Proof.
  destruct l as [|y l]; [reflexivity|]. intros H. simpl.
  inversion H as [|? ? Hy _]; subst. now rewrite Hy.
Qed.

Lemma stable_sort_sorted_id {A : Type} (leb : A -> A -> bool) (l : list A) :
  sorted_by leb l -> stable_sort leb l = l.
Proof.
  unfold sorted_by. induction 1 as [|a l Hs IH Ha]; simpl; [reflexivity|].
  rewrite IH. now apply insert_sorted_below.
Qed.

Lemma groupby_ffill_fixed (kept : list Row) :
  (forall r, In r kept ->
     is_none (date r) = false /\ is_none (location r) = false) ->
  sorted_by row_leb kept ->
  let filled := groupby_apply fillna_ffill kept in
  groupby_apply fillna_ffill filled = filled.
Proof.
  intros Hna Hs filled.
  assert (Hna' : forall r, In r filled ->
              is_none (date r) = false /\ is_none (location r) = false).
  { intros r' Hr'. destruct (groupby_ffill_in kept Hna r' Hr') as (r & Hr & Hk).
    unfold sort_key in Hk. injection Hk as -> ->. auto. }
  assert (Hs' : sorted_by row_leb filled) by now apply groupby_ffill_sorted.
  assert (Hgroups : flat_map (fun k => group k filled) (group_keys filled) = filled).
  { apply groups_of_sorted; auto using group_keys_increasing.
    intros r Hr. destruct (Hna' r Hr) as [_ Hl].
    destruct (location r) as [k|] eqn:Hk; [|discriminate].
    exists k. split; auto. apply group_keys_In. eauto. }
  unfold groupby_apply at 1. rewrite <- Hgroups at 2.
  apply flat_map_ext_on. intros k _. unfold filled.
  rewrite (group_groupby_ffill kept Hna). apply fillna_ffill_idempotent.
Qed.

(** X5.  Cleaning is idempotent: the cleaning block run on a table it
    has returned succeeds and returns that table. *)
Theorem clean_idempotent (raw df : DataFrame) :
  clean raw = Ok df -> clean df = Ok df.
Proof.
  intros H. pose proof (clean_rows raw df H) as [Hcols Hrows].
  assert (Hhas : forall name,
             has_column (select_available df) name = has_column df name).
  { intros name.
    destruct (has_column df name) eqn:Hn.
    - apply has_column_available. split; auto.
      rewrite (has_column_columns (select_available raw) df) in Hn by assumption.
      now apply has_column_available in Hn.
    - destruct (has_column (select_available df) name) eqn:Hs; auto.
      apply has_column_available in Hs. destruct Hs. congruence. }
  assert (Hsel : available df = columns df).
  { rewrite Hcols. unfold available. apply filter_ext_in. intros name Hin.
    rewrite (has_column_columns (select_available raw) df) by assumption.
    destruct (has_column raw name) eqn:Hn.
    - apply has_column_available. auto.
    - destruct (has_column (select_available raw) name) eqn:Hs; auto.
      apply has_column_available in Hs. destruct Hs. congruence. }
  assert (Hd : has_column df "date" = true /\ has_column df "location" = true).
  { unfold clean, dropna_date_location in H. invert_ok.
    repeat match goal with
           | E : require_column (select_available raw) _ = Ok _ |- _ =>
               apply require_column_ok in E
           end.
    split; rewrite (has_column_columns (select_available raw) df) by exact Hcols;
      assumption. }
  destruct Hd as [Hdate Hloc].
  assert (Hna : forall r, In r (rows df) ->
              is_none (date r) = false /\ is_none (location r) = false).
  { rewrite Hrows. intros r' Hr'.
    destruct (groupby_ffill_in _ (retained_notna raw) r' Hr') as (r & Hr & Hk).
    unfold sort_key in Hk. injection Hk as -> ->. now apply (retained_notna raw). }
  assert (Hs : sorted_by row_leb (rows df)).
  { rewrite Hrows.
    apply groupby_ffill_sorted; [apply retained_notna | apply retained_sorted]. }
  unfold clean, dropna_date_location, sort_values_location_date, groupby_ffill.
  rewrite !require_column_has by (rewrite Hhas; assumption). cbn [bind].
  rewrite !require_column_has by (unfold has_column in *; simpl; rewrite Hsel; assumption).
  cbn [bind columns rows select_available].
  rewrite !require_column_has by (unfold has_column in *; simpl; rewrite Hsel; assumption).
  cbn [bind columns rows]. f_equal.
  rewrite filter_all.
  2:{ intros r Hr. destruct (Hna r Hr) as [-> ->]. reflexivity. }
  rewrite (stable_sort_sorted_id _ _ Hs), Hsel.
  rewrite Hrows at 1.
  rewrite (groupby_ffill_fixed _ (retained_notna raw) (retained_sorted raw)).
  rewrite <- Hrows. now destruct df.
Qed.

Lemma clean_idempotent_witness :
  clean sample_raw = Ok sample_clean /\ clean sample_clean = Ok sample_clean.
Proof.
  split; [reflexivity|].
  apply (clean_idempotent sample_raw sample_clean). reflexivity.
Defined.

(** ** The filter block: which bound matters *)

Lemma mask_in_scope (rs : list Row) (r : Row) :
  In r rs -> mask (max_date rs) r = in_scope r.
Proof.
  intros Hr. unfold mask, in_scope.
  destruct (date r) as [t|] eqn:Hd.
  - destruct (max_time_upper (map date rs) t) as (e & He & Hle).
    { rewrite <- Hd. now apply in_map. }
    unfold max_date. rewrite He. simpl.
    apply Z.leb_le in Hle. rewrite Hle. apply andb_true_r.
  - simpl. now rewrite !andb_false_r.
Qed.

(** X7.  The upper bound of the date range excludes nothing, since it
    is the maximum date of the table that is filtered: [df_filt] holds
    the rows of [df] of the three countries dated 2021-01-01 or later,
    in the order they have in [df], with the columns of [df]; it is
    sorted when [df] is, and it is empty when every date of [df] is
    before 2021-01-01. *)
Theorem filter_block_lower_bound_only (df df_filt : DataFrame)
    (end_date : option Timestamp) :
  filter_block df = Ok (end_date, df_filt) ->
  rows df_filt = filter in_scope (rows df) /\
  columns df_filt = columns df /\
  (sorted_by row_leb (rows df) -> sorted_by row_leb (rows df_filt)) /\
  ((forall r t, In r (rows df) -> date r = Some t -> (t < start_date)%Z) ->
   rows df_filt = []).
Proof.
  intros H. unfold filter_block in H. invert_ok. cbn [rows columns].
  assert (Hrows : filter (mask (max_date (rows df))) (rows df) =
                  filter in_scope (rows df)).
  { apply filter_ext_in. intros r Hr. now apply mask_in_scope. }
  rewrite Hrows. split; [reflexivity|]. split; [reflexivity|]. split.
  - apply StronglySorted_filter.
  - intros Hold. apply filter_none. intros r Hr. unfold in_scope.
    destruct (date r) as [t|] eqn:Hd; simpl; [|apply andb_false_r].
    specialize (Hold r t Hr Hd).
    destruct (Z.leb_spec start_date t); [lia | apply andb_false_r].
Qed.

Lemma filter_block_lower_bound_only_witness :
  filter_block sample_clean = Ok sample_filt /\
  rows (snd sample_filt) = filter in_scope (rows sample_clean).
Proof.
  split; [reflexivity|].
  apply (filter_block_lower_bound_only sample_clean (snd sample_filt)
           (fst sample_filt)).
  reflexivity.
Defined.

(** ** The charts: what they draw and when they fail *)

Lemma combine_map {A B C : Type} (f : A -> B) (g : A -> C) (l : list A) :
  combine (map f l) (map g l) = map (fun x => (f x, g x)) l.
Proof.
  induction l as [|a l IH]; simpl; [reflexivity | now rewrite IH].
Qed.

Lemma for_each_ok {A B : Type} (f : A -> Result B) (g : A -> B) (l : list A) :
  (forall a, In a l -> f a = Ok (g a)) -> for_each f l = Ok (map g l).
Proof.
  induction l as [|a l IH]; intros H; simpl; [reflexivity|].
  rewrite (H a) by now left. simpl. rewrite IH; [reflexivity|].
  intros b Hb. apply H. now right.
Qed.

Lemma for_each_raise {A B : Type} (f : A -> Result B) (e : Exception)
    (a : A) (l : list A) :
  f a = Raise e -> for_each f (a :: l) = Raise e.
Proof.
  intros H. simpl. now rewrite H.
Qed.

Lemma line_of_eq (data : DataFrame) (c : Column) (grp : list Row) :
  line_of data c grp =
  if has_column data "date" then
    if has_column data (label c) then Ok (points c grp)
    else Raise (KeyError (label c))
  else Raise (KeyError "date").
Proof.
  unfold line_of, column_of, require_column. simpl.
  destruct (has_column data "date"); [|reflexivity]. simpl.
  destruct (has_column data (label c)); [|reflexivity]. simpl.
  unfold points. now rewrite combine_map.
Qed.

Lemma plot_time_series_eq (data : DataFrame) (metric : Column) (title : string) :
  plot_time_series data metric title =
  if has_column data "location" then
    match group_keys (rows data) with
    | [] => Ok (TimeSeries title metric [])
    | _ :: _ =>
        if has_column data "date" then
          if has_column data (label metric)
          then Ok (TimeSeries title metric (lines_of metric (rows data)))
          else Raise (KeyError (label metric))
        else Raise (KeyError "date")
    end
  else Raise (KeyError "location").
Proof.
  unfold plot_time_series, groupby_location, require_column, lines_of.
  destruct (has_column data "location"); [|reflexivity]. cbn [bind].
  destruct (group_keys (rows data)) as [|k ks] eqn:Hk; [reflexivity|].
  rewrite <- Hk.
  destruct (has_column data "date") eqn:Hd.
  - destruct (has_column data (label metric)) eqn:Hm.
    + rewrite (for_each_ok _ (fun p => (fst p, points metric (snd p)))).
      * cbn [bind]. now rewrite map_map.
      * intros [loc grp] _. now rewrite line_of_eq, Hd, Hm.
    + rewrite Hk. cbn [map]. erewrite for_each_raise; [reflexivity|].
      now rewrite line_of_eq, Hd, Hm.
  - rewrite Hk. cbn [map]. erewrite for_each_raise; [reflexivity|].
    now rewrite line_of_eq, Hd.
Qed.

(** X8.  [plot_time_series] draws one line per location of the data, the
    locations in ascending order, each line holding the rows of its
    location in their order, date against metric.  It succeeds exactly
    when the data has the column [location] and either has no row with a
    location (an empty chart, whatever the other columns) or has the
    columns [date] and the metric; otherwise it raises a [KeyError] that
    names a column the data lacks. *)
Theorem plot_time_series_result (data : DataFrame) (metric : Column)
    (title : string) :
  (forall fig,
      plot_time_series data metric title = Ok fig ->
      fig = TimeSeries title metric (lines_of metric (rows data))) /\
  ((exists fig, plot_time_series data metric title = Ok fig) <->
   has_column data "location" = true /\
   (group_keys (rows data) = [] \/
    has_column data "date" = true /\ has_column data (label metric) = true)) /\
  (forall e,
      plot_time_series data metric title = Raise e ->
      exists name, e = KeyError name /\ has_column data name = false).
Proof.
  rewrite plot_time_series_eq. unfold lines_of.
  destruct (has_column data "location") eqn:Hl;
    [destruct (group_keys (rows data)) as [|k ks] eqn:Hk;
     [|destruct (has_column data "date") eqn:Hd;
       [destruct (has_column data (label metric)) eqn:Hm|]]|];
    (split; [|split]);
    try (intros fig H; now (discriminate || injection H as <-));
    try (intros e H; try discriminate; injection H as <-; eauto);
    split;
    try (intros [fig H]; discriminate);
    try (intros [_ [H|[H1 H2]]]; discriminate);
    try (intros [H _]; discriminate);
    eauto.
Qed.

Lemma plot_dual_axis_eq (data : DataFrame) (m1 m2 : Column) (name1 name2 : string) :
  plot_dual_axis data m1 m2 name1 name2 =
  if has_column data "location" then
    match group_keys (rows data) with
    | [] => Ok (DualAxis name1 name2 [] [])
    | _ :: _ =>
        if has_column data "date" then
          if has_column data (label m1) then
            if has_column data (label m2)
            then Ok (DualAxis name1 name2 (lines_of m1 (rows data))
                       (lines_of m2 (rows data)))
            else Raise (KeyError (label m2))
          else Raise (KeyError (label m1))
        else Raise (KeyError "date")
    end
  else Raise (KeyError "location").
Proof.
  unfold plot_dual_axis, groupby_location, require_column, lines_of.
  destruct (has_column data "location"); [|reflexivity]. cbn [bind].
  destruct (group_keys (rows data)) as [|k ks] eqn:Hk; [reflexivity|].
  rewrite <- Hk.
  destruct (has_column data "date") eqn:Hd.
  - destruct (has_column data (label m1)) eqn:H1.
    + rewrite (for_each_ok _ (fun p => (fst p, points m1 (snd p))))
        by (intros [loc grp] _; now rewrite line_of_eq, Hd, H1).
      cbn [bind].
      destruct (has_column data (label m2)) eqn:H2.
      * rewrite (for_each_ok _ (fun p => (fst p, points m2 (snd p))))
          by (intros [loc grp] _; now rewrite line_of_eq, Hd, H2).
        cbn [bind]. now rewrite !map_map.
      * rewrite Hk. cbn [map]. erewrite for_each_raise; [reflexivity|].
        now rewrite line_of_eq, Hd, H2.
    + rewrite Hk. cbn [map]. erewrite for_each_raise; [reflexivity|].
      now rewrite line_of_eq, Hd, H1.
  - rewrite Hk. cbn [map]. erewrite for_each_raise; [reflexivity|].
    now rewrite line_of_eq, Hd.
Qed.

(** X9.  [plot_dual_axis] draws, on each of its two axes, one line per
    location of the data in ascending order of location: date against
    the first metric on the left axis, date against the second on the
    right one.  It succeeds exactly when the data has the column
    [location] and either has no row with a location or has the columns
    [date] and both metrics; otherwise it raises a [KeyError] that names
    a column the data lacks, the first metric before the second. *)
Theorem plot_dual_axis_result (data : DataFrame) (m1 m2 : Column)
    (name1 name2 : string) :
  (forall fig,
      plot_dual_axis data m1 m2 name1 name2 = Ok fig ->
      fig = DualAxis name1 name2 (lines_of m1 (rows data))
              (lines_of m2 (rows data))) /\
  ((exists fig, plot_dual_axis data m1 m2 name1 name2 = Ok fig) <->
   has_column data "location" = true /\
   (group_keys (rows data) = [] \/
    has_column data "date" = true /\ has_column data (label m1) = true /\
    has_column data (label m2) = true)) /\
  (forall e,
      plot_dual_axis data m1 m2 name1 name2 = Raise e ->
      exists name, e = KeyError name /\ has_column data name = false) /\
  (has_column data "location" = true -> has_column data "date" = true ->
   group_keys (rows data) <> [] -> has_column data (label m1) = false ->
   plot_dual_axis data m1 m2 name1 name2 = Raise (KeyError (label m1))).
Proof.
  rewrite plot_dual_axis_eq. unfold lines_of.
  destruct (has_column data "location") eqn:Hl;
    [destruct (group_keys (rows data)) as [|k ks] eqn:Hk;
     [|destruct (has_column data "date") eqn:Hd;
       [destruct (has_column data (label m1)) eqn:H1;
        [destruct (has_column data (label m2)) eqn:H2|]|]]|];
    (split; [|split; [|split]]);
    try (intros fig H; now (discriminate || injection H as <-));
    try (intros e H; try discriminate; injection H as <-; eauto);
    try (intros; congruence);
    split;
    try (intros [fig H]; discriminate);
    try (intros [_ [H|(H3 & H4 & H5)]]; discriminate);
    try (intros [H _]; discriminate);
    eauto.
Qed.

Lemma plot_death_vs_infection_eq (data : DataFrame) :
  plot_death_vs_infection data =
  if has_column data "location" then
    match group_keys (rows data) with
    | [] => Ok (CasesVsDeaths [])
    | _ :: _ =>
        if has_column data "date" then
          if has_column data "new_cases" then
            if has_column data "new_deaths"
            then Ok (CasesVsDeaths
                       (line_pairs_of c_new_cases c_new_deaths (rows data)))
            else Raise (KeyError "new_deaths")
          else Raise (KeyError "new_cases")
        else Raise (KeyError "date")
    end
  else Raise (KeyError "location").
Proof.
  unfold plot_death_vs_infection, groupby_location, require_column, line_pairs_of.
  destruct (has_column data "location"); [|reflexivity]. cbn [bind].
  destruct (group_keys (rows data)) as [|k ks] eqn:Hk; [reflexivity|].
  rewrite <- Hk.
  destruct (has_column data "date") eqn:Hd.
  - destruct (has_column data "new_cases") eqn:H1.
    + destruct (has_column data "new_deaths") eqn:H2.
      * rewrite (for_each_ok _ (fun p => (fst p, points c_new_cases (snd p),
                                          points c_new_deaths (snd p)))).
        -- cbn [bind]. now rewrite map_map.
        -- intros [loc grp] _. rewrite !line_of_eq, Hd. cbn [label].
           now rewrite H1, H2.
      * rewrite Hk. cbn [map]. erewrite for_each_raise; [reflexivity|].
        rewrite !line_of_eq, Hd. cbn [label]. now rewrite H1, H2.
    + rewrite Hk. cbn [map]. erewrite for_each_raise; [reflexivity|].
      rewrite !line_of_eq, Hd. cbn [label]. now rewrite H1.
  - rewrite Hk. cbn [map]. erewrite for_each_raise; [reflexivity|].
    now rewrite line_of_eq, Hd.
Qed.

(** X10.  [plot_death_vs_infection] draws, for every location of the
    data in ascending order, the line of new cases and the line of new
    deaths against the date.  It succeeds exactly when the data has the
    column [location] and either has no row with a location or has the
    columns [date], [new_cases] and [new_deaths]; otherwise it raises a
    [KeyError] that names a column the data lacks. *)
Theorem plot_death_vs_infection_result (data : DataFrame) :
  (forall fig,
      plot_death_vs_infection data = Ok fig ->
      fig = CasesVsDeaths (line_pairs_of c_new_cases c_new_deaths (rows data))) /\
  ((exists fig, plot_death_vs_infection data = Ok fig) <->
   has_column data "location" = true /\
   (group_keys (rows data) = [] \/
    has_column data "date" = true /\ has_column data "new_cases" = true /\
    has_column data "new_deaths" = true)) /\
  (forall e,
      plot_death_vs_infection data = Raise e ->
      exists name, e = KeyError name /\ has_column data name = false).
Proof.
  rewrite plot_death_vs_infection_eq. unfold line_pairs_of.
  destruct (has_column data "location") eqn:Hl;
    [destruct (group_keys (rows data)) as [|k ks] eqn:Hk;
     [|destruct (has_column data "date") eqn:Hd;
       [destruct (has_column data "new_cases") eqn:H1;
        [destruct (has_column data "new_deaths") eqn:H2|]|]]|];
    (split; [|split]);
    try (intros fig H; now (discriminate || injection H as <-));
    try (intros e H; try discriminate; injection H as <-; eauto);
    split;
    try (intros [fig H]; discriminate);
    try (intros [_ [H|(H3 & H4 & H5)]]; discriminate);
    try (intros [H _]; discriminate);
    eauto.
Qed.

(** ** The charts of the filtered data *)

Lemma lines_of_labels (c : Column) (rs : list Row) :
  map fst (lines_of c rs) = group_keys rs.
Proof.
  unfold lines_of. rewrite map_map. apply map_id.
Qed.

Lemma countries_increasing :
  StronglySorted (fun a b => String.compare a b = Lt)
                 ["Brazil"; "India"; "United States"].
Proof.
  repeat constructor.
Qed.

Lemma plot_time_series_lines (data : DataFrame) (metric : Column)
    (title : string) (fig : Figure) :
  plot_time_series data metric title = Ok fig ->
  fig = TimeSeries title metric (lines_of metric (rows data)).
Proof.
  rewrite plot_time_series_eq. unfold lines_of.
  destruct (has_column data "location"); [|discriminate].
  destruct (group_keys (rows data)); [cbn [map]; congruence|].
  destruct (has_column data "date"); [|discriminate].
  destruct (has_column data (label metric)); [|discriminate].
  congruence.
Qed.

Lemma plot_dual_axis_lines (data : DataFrame) (m1 m2 : Column)
    (name1 name2 : string) (fig : Figure) :
  plot_dual_axis data m1 m2 name1 name2 = Ok fig ->
  fig = DualAxis name1 name2 (lines_of m1 (rows data)) (lines_of m2 (rows data)).
Proof.
  rewrite plot_dual_axis_eq. unfold lines_of.
  destruct (has_column data "location"); [|discriminate].
  destruct (group_keys (rows data)); [cbn [map]; congruence|].
  destruct (has_column data "date"); [|discriminate].
  destruct (has_column data (label m1)); [|discriminate].
  destruct (has_column data (label m2)); [|discriminate].
  congruence.
Qed.

Lemma plot_death_vs_infection_lines (data : DataFrame) (fig : Figure) :
  plot_death_vs_infection data = Ok fig ->
  fig = CasesVsDeaths (line_pairs_of c_new_cases c_new_deaths (rows data)).
Proof.
  rewrite plot_death_vs_infection_eq. unfold line_pairs_of.
  destruct (has_column data "location"); [|discriminate].
  destruct (group_keys (rows data)); [cbn [map]; congruence|].
  destruct (has_column data "date"); [|discriminate].
  destruct (has_column data "new_cases"); [|discriminate].
  destruct (has_column data "new_deaths"); [|discriminate].
  congruence.
Qed.

Lemma line_pairs_of_labels (c d : Column) (rs : list Row) :
  map (fun t => fst (fst t)) (line_pairs_of c d rs) = group_keys rs.
Proof.
  unfold line_pairs_of. rewrite map_map. apply map_id.
Qed.

(** X11.  The locations of the filtered data are among the three
    configured countries, none twice, in alphabetical order.  A
    time-series chart of the filtered data draws one line for each of
    them, so at most three; the dual-axis chart draws one line for each
    of them on either axis, and the chart of new cases against new
    deaths two lines for each of them. *)
Theorem filtered_charts_lines (df df_filt : DataFrame)
    (end_date : option Timestamp) :
  filter_block df = Ok (end_date, df_filt) ->
  let labels := group_keys (rows df_filt) in
  ((forall l, In l labels -> In l countries) /\
   NoDup labels /\
   StronglySorted (fun a b => String.compare a b = Lt) labels /\
   List.length labels <= 3) /\
  (forall metric title fig,
      plot_time_series df_filt metric title = Ok fig ->
      exists lines,
        fig = TimeSeries title metric lines /\
        map fst lines = labels /\ List.length lines <= 3) /\
  (forall m1 m2 name1 name2 fig,
      plot_dual_axis df_filt m1 m2 name1 name2 = Ok fig ->
      exists left right,
        fig = DualAxis name1 name2 left right /\
        map fst left = labels /\ map fst right = labels /\
        List.length left + List.length right <= 6) /\
  (forall fig,
      plot_death_vs_infection df_filt = Ok fig ->
      exists lines,
        fig = CasesVsDeaths lines /\
        map (fun t => fst (fst t)) lines = labels /\ List.length lines <= 3).
Proof.
  intros H labels.
  assert (Hin : forall l, In l labels -> In l countries).
  { unfold filter_block in H. invert_ok. cbn [rows] in labels.
    intros l Hl. apply group_keys_In in Hl. destruct Hl as (r & Hr & Hloc).
    apply filter_In in Hr. destruct Hr as [_ Hm]. apply mask_iff in Hm.
    destruct Hm as [(l' & Hl' & Hc) _]. congruence. }
  assert (Hlen : List.length labels <= 3).
  { apply (NoDup_incl_length (group_keys_NoDup _) Hin). }
  subst labels. split; [|split; [|split]].
  - split; [exact Hin|]. split; [apply group_keys_NoDup|].
    split; [apply group_keys_increasing | exact Hlen].
  - intros metric title fig Hfig. apply plot_time_series_lines in Hfig.
    exists (lines_of metric (rows df_filt)).
    split; [exact Hfig|]. split; [apply lines_of_labels|].
    now rewrite <- (length_map fst), lines_of_labels.
  - intros m1 m2 name1 name2 fig Hfig. apply plot_dual_axis_lines in Hfig.
    exists (lines_of m1 (rows df_filt)), (lines_of m2 (rows df_filt)).
    split; [exact Hfig|]. split; [apply lines_of_labels|].
    split; [apply lines_of_labels|].
    rewrite <- (length_map fst (lines_of m1 _)), lines_of_labels.
    rewrite <- (length_map fst (lines_of m2 _)), lines_of_labels. lia.
  - intros fig Hfig. apply plot_death_vs_infection_lines in Hfig.
    exists (line_pairs_of c_new_cases c_new_deaths (rows df_filt)).
    split; [exact Hfig|]. split; [apply line_pairs_of_labels|].
    now rewrite <- (length_map (fun t => fst (fst t))), line_pairs_of_labels.
Qed.

Lemma filtered_charts_lines_witness :
  filter_block sample_clean = Ok sample_filt /\
  group_keys (rows (snd sample_filt)) = ["India"; "United States"] /\
  List.length (group_keys (rows (snd sample_filt))) <= 3.
Proof.
  split; [reflexivity|]. split; [reflexivity|].
  apply (filtered_charts_lines sample_clean (snd sample_filt) (fst sample_filt)).
  reflexivity.
Defined.

(** ** The menu on any data *)

Lemma plot_time_series_raise (data : DataFrame) (metric : Column)
    (title : string) (e : Exception) :
  plot_time_series data metric title = Raise e ->
  exists name, e = KeyError name /\ has_column data name = false.
Proof.
  rewrite plot_time_series_eq.
  destruct (has_column data "location") eqn:Hl;
    [destruct (group_keys (rows data));
     [|destruct (has_column data "date") eqn:Hd;
       [destruct (has_column data (label metric)) eqn:Hm|]]|];
    intros H; try discriminate; injection H as <-; eauto.
Qed.

Lemma plot_dual_axis_raise (data : DataFrame) (m1 m2 : Column)
    (name1 name2 : string) (e : Exception) :
  plot_dual_axis data m1 m2 name1 name2 = Raise e ->
  exists name, e = KeyError name /\ has_column data name = false.
Proof.
  rewrite plot_dual_axis_eq.
  destruct (has_column data "location") eqn:Hl;
    [destruct (group_keys (rows data));
     [|destruct (has_column data "date") eqn:Hd;
       [destruct (has_column data (label m1)) eqn:H1;
        [destruct (has_column data (label m2)) eqn:H2|]|]]|];
    intros H; try discriminate; injection H as <-; eauto.
Qed.

Lemma plot_death_vs_infection_raise (data : DataFrame) (e : Exception) :
  plot_death_vs_infection data = Raise e ->
  exists name, e = KeyError name /\ has_column data name = false.
Proof.
  rewrite plot_death_vs_infection_eq.
  destruct (has_column data "location") eqn:Hl;
    [destruct (group_keys (rows data));
     [|destruct (has_column data "date") eqn:Hd;
       [destruct (has_column data "new_cases") eqn:H1;
        [destruct (has_column data "new_deaths") eqn:H2|]|]]|];
    intros H; try discriminate; injection H as <-; eauto.
Qed.

Lemma show_chart_cases (r : Result Figure) :
  (exists fig, r = Ok fig /\
     (fig <- lift r ;; emit (Show fig) ;;; ret Continue)%run =
     ([Show fig], Ok Continue)) \/
  (exists e, r = Raise e /\
     (fig <- lift r ;; emit (Show fig) ;;; ret Continue)%run = ([], Raise e)).
Proof.
  destruct r as [fig|e]; [left | right]; eauto.
Qed.

(** The three ways one pass of the menu ends. *)
Lemma menu_choice_cases (df_filt : DataFrame) (choice : string) :
  (choice = "5" /\ menu_choice df_filt choice = ([PrintExiting], Ok Break)) \/
  (choice <> "5" /\ exists out, menu_choice df_filt choice = (out, Ok Continue)) \/
  (In choice ["1"; "2"; "3"; "4"] /\
   exists name,
     menu_choice df_filt choice = ([], Raise (KeyError name)) /\
     has_column df_filt name = false).
Proof.
  unfold menu_choice.
  destruct (String.eqb_spec choice "1") as [->|N1].
  { destruct (show_chart_cases
                (plot_time_series df_filt c_total_cases "Total Cases Over Time"))
      as [(fig & _ & ->)|(e & He & ->)].
    - right. left. split; [discriminate | eauto].
    - right. right. apply plot_time_series_raise in He.
      destruct He as (name & -> & Hn). split; [simpl; tauto | eauto]. }
  destruct (String.eqb_spec choice "2") as [->|N2].
  { destruct (show_chart_cases
                (plot_time_series df_filt c_total_deaths "Total Deaths Over Time"))
      as [(fig & _ & ->)|(e & He & ->)].
    - right. left. split; [discriminate | eauto].
    - right. right. apply plot_time_series_raise in He.
      destruct He as (name & -> & Hn). split; [simpl; tauto | eauto]. }
  destruct (String.eqb_spec choice "3") as [->|N3].
  { destruct (has_column df_filt "total_vaccinations"); cbn [andb].
    - destruct (show_chart_cases
                  (plot_dual_axis df_filt c_new_cases c_total_vaccinations
                     "Daily New Cases" "Total Vaccinations"))
        as [(fig & _ & ->)|(e & He & ->)].
      + right. left. split; [discriminate | eauto].
      + right. right. apply plot_dual_axis_raise in He.
        destruct He as (name & -> & Hn). split; [simpl; tauto | eauto].
    - simpl. right. left. split; [discriminate | eauto]. }
  cbn [andb].
  destruct (String.eqb_spec choice "4") as [->|N4].
  { destruct (show_chart_cases (plot_death_vs_infection df_filt))
      as [(fig & _ & ->)|(e & He & ->)].
    - right. left. split; [discriminate | eauto].
    - right. right. apply plot_death_vs_infection_raise in He.
      destruct He as (name & -> & Hn). split; [simpl; tauto | eauto]. }
  destruct (String.eqb_spec choice "5") as [->|N5].
  - left. auto.
  - right. left. split; [exact N5 | eexists; reflexivity].
Qed.

(** X12.  Whatever the data, the menu ends in one of three ways.  It
    returns, with the input it has not read, only after reading a first
    ["5"].  It raises [EOFError] only when its input ends without a
    ["5"].  It raises a [KeyError] only on one of the chart inputs ["1"]
    to ["4"] read before any ["5"], and the error names a column that
    the data lacks.  It raises nothing else. *)
Theorem navigation_menu_outcome (df_filt : DataFrame) (stdin : list string) :
  match outcome (navigation_menu df_filt stdin) with
  | Ok rest => exists pre, stdin = pre ++ "5" :: rest /\ ~ In "5" pre
  | Raise EOFError => ~ In "5" stdin
  | Raise (KeyError name) =>
      has_column df_filt name = false /\
      exists pre choice rest,
        stdin = pre ++ choice :: rest /\ ~ In "5" pre /\
        In choice ["1"; "2"; "3"; "4"]
  | Raise _ => False
  end.
Proof.
  induction stdin as [|choice stdin IH]; [simpl; tauto|].
  rewrite navigation_menu_cons.
  destruct (menu_choice_cases df_filt choice)
    as [[-> ->]|[(N5 & out & ->)|(Hc & name & -> & Hn)]].
  - simpl. exists []. split; [reflexivity | tauto].
  - rewrite !run_bind_outcome. cbn [outcome emit snd].
    destruct (outcome (navigation_menu df_filt stdin)) as [rest|[]]; try exact IH.
    + destruct IH as (pre & -> & Hpre). exists (choice :: pre).
      split; [reflexivity|]. intros [H|H]; [congruence | contradiction].
    + destruct IH as (Hn & pre & c & rest & -> & Hpre & Hc).
      split; [exact Hn|]. exists (choice :: pre), c, rest.
      split; [reflexivity|]. split; [|exact Hc].
      intros [H|H]; [congruence | contradiction].
    + intros [H|H]; [congruence | contradiction].
  - simpl. split; [exact Hn|]. exists [], choice, stdin. tauto.
Qed.

(** ** The menu after the initial pass *)

(** X13.  Once the initial pass has drawn its charts (total cases, total
    deaths and, under its guard, the dual-axis chart), the menu cannot
    fail on any input but ["4"]: every other input ends its pass without
    an exception.  On ["4"], whose chart the initial pass does not draw,
    the only possible failure is the [KeyError] of a missing column
    [new_cases] or [new_deaths]. *)
Theorem menu_after_initial_pass (df_filt : DataFrame) (f1 f2 : Figure) :
  plot_time_series df_filt c_total_cases "Total Cases Over Time" = Ok f1 ->
  plot_time_series df_filt c_total_deaths "Total Deaths Over Time" = Ok f2 ->
  outcome (initial_dual_axis df_filt) = Ok tt ->
  (forall choice, choice <> "4" ->
     exists out s, menu_choice df_filt choice = (out, Ok s)) /\
  (forall e, outcome (menu_choice df_filt "4") = Raise e ->
     e = KeyError "new_cases" \/ e = KeyError "new_deaths").
Proof.
  intros H1 H2 H3. split.
  - intros choice N4. unfold menu_choice.
    destruct (String.eqb_spec choice "1") as [->|N1];
      [rewrite H1; eexists; eexists; reflexivity|].
    destruct (String.eqb_spec choice "2") as [->|N2];
      [rewrite H2; eexists; eexists; reflexivity|].
    destruct (String.eqb_spec choice "3") as [->|N3].
    + unfold initial_dual_axis in H3.
      destruct (has_column df_filt "total_vaccinations"); cbn [andb].
      * rewrite run_bind_outcome in H3. cbn [outcome lift snd] in H3.
        destruct (plot_dual_axis df_filt c_new_cases c_total_vaccinations
                    "Daily New Cases" "Total Vaccinations"); [|discriminate].
        eexists; eexists; reflexivity.
      * eexists; eexists; reflexivity.
    + cbn [andb].
      destruct (String.eqb_spec choice "4") as [->|_]; [congruence|].
      destruct (choice =? "5"); eexists; eexists; reflexivity.
  - intros e. unfold menu_choice. cbn [String.eqb Ascii.eqb Bool.eqb andb].
    rewrite plot_time_series_eq in H1.
    rewrite plot_death_vs_infection_eq.
    destruct (has_column df_filt "location"); [|discriminate].
    destruct (group_keys (rows df_filt)); [discriminate|].
    destruct (has_column df_filt "date"); [|discriminate].
    destruct (has_column df_filt "new_cases");
      [destruct (has_column df_filt "new_deaths")|];
      cbn; intros H; try discriminate; injection H as <-; auto.
Qed.

Lemma menu_after_initial_pass_witness :
  plot_time_series (snd sample_filt_no_deaths) c_total_cases
    "Total Cases Over Time" =
    Ok (ok_figure (plot_time_series (snd sample_filt_no_deaths) c_total_cases
                     "Total Cases Over Time")) /\
  outcome (initial_dual_axis (snd sample_filt_no_deaths)) = Ok tt /\
  outcome (menu_choice (snd sample_filt_no_deaths) "4") =
    Raise (KeyError "new_deaths") /\
  exists out s, menu_choice (snd sample_filt_no_deaths) "3" = (out, Ok s).
Proof.
  split; [reflexivity|]. split; [reflexivity|]. split; [reflexivity|].
  apply (menu_after_initial_pass (snd sample_filt_no_deaths)
           (ok_figure (plot_time_series (snd sample_filt_no_deaths)
                         c_total_cases "Total Cases Over Time"))
           (ok_figure (plot_time_series (snd sample_filt_no_deaths)
                         c_total_deaths "Total Deaths Over Time")));
    try reflexivity.
  discriminate.
Defined.

(** ** A download that the reader rejects *)

(** X14.  When the download succeeds and the local file can be
    written, but the reader rejects what was downloaded, [load_data] has
    already written it over the local file: it reports the failure,
    reads the file it has just written, and raises the reader's error,
    whatever copy the file held before.  The file holds the rejected
    content afterwards, and a later run that finds this file and cannot
    download fails in the same way. *)
Theorem rejected_download_replaces_local_copy
    (read_csv : string -> option DataFrame) (w : World) (data : string) :
  download w = Ok data -> local_writable w = true -> read_csv data = None ->
  load_data read_csv w =
    (([PrintDownloading; PrintSaved; PrintRemoteFailed ParserError],
      Raise ParserError),
     with_local w data) /\
  local_file (snd (load_data read_csv w)) = Some data /\
  forall w2 e,
    local_file w2 = local_file (snd (load_data read_csv w)) ->
    download w2 = Raise e ->
    outcome (fst (load_data read_csv w2)) = Raise ParserError.
Proof.
  intros Hd Hw Hr.
  assert (Hload : load_data read_csv w =
    (([PrintDownloading; PrintSaved; PrintRemoteFailed ParserError],
      Raise ParserError), with_local w data)).
  { rewrite (load_data_download_ok _ _ _ Hd Hw). unfold parse. now rewrite Hr. }
  split; [exact Hload|]. split; [now rewrite Hload|].
  intros w2 e Hfile Hd2.
  rewrite (load_data_download_failed _ _ _ Hd2). rewrite Hload in Hfile.
  unfold outcome, read_local, parse. simpl in *. now rewrite Hfile, Hr.
Qed.

Lemma rejected_download_replaces_local_copy_witness :
  download world_rejected = Ok "<html>maintenance</html>" /\
  local_writable world_rejected = true /\
  sample_read_csv "<html>maintenance</html>" = None /\
  local_file world_rejected = Some sample_csv /\
  local_file (snd (load_data sample_read_csv world_rejected)) =
    Some "<html>maintenance</html>".
Proof.
  split; [reflexivity|]. split; [reflexivity|]. split; [reflexivity|].
  split; [reflexivity|].
  apply (rejected_download_replaces_local_copy sample_read_csv
           world_rejected "<html>maintenance</html>" eq_refl eq_refl eq_refl).
Defined.

(** ** The latest rows per location *)

Lemma time_eqb_iff (a b : option Timestamp) :
  time_eqb a b = true <-> exists t, a = Some t /\ b = Some t.
Proof.
  unfold time_eqb. destruct a as [x|], b as [y|];
    try (split; [discriminate | intros (t & H1 & H2); discriminate]).
  rewrite Z.eqb_eq. split.
  - intros ->. eauto.
  - intros (t & H1 & H2). congruence.
Qed.

Lemma latest_table_rows (df latest : DataFrame) :
  latest_table df = Ok latest ->
  columns latest = columns df /\
  rows latest = groupby_apply latest_of_group (rows df).
Proof.
  unfold latest_table. intros H. invert_ok. auto.
Qed.

Lemma groupby_latest_in (rs : list Row) (r : Row) :
  In r (groupby_apply latest_of_group rs) <->
  In r rs /\
  exists k t, location r = Some k /\ date r = Some t /\
              max_date (group k rs) = Some t.
Proof.
  unfold groupby_apply, latest_of_group. rewrite in_flat_map. split.
  - intros (k & Hk & Hr). apply filter_In in Hr. destruct Hr as [Hr Heq].
    apply group_In in Hr. destruct Hr as [Hr Hl].
    apply time_eqb_iff in Heq. destruct Heq as (t & Hd & Hm).
    split; [exact Hr|]. exists k, t. auto.
  - intros (Hr & k & t & Hl & Hd & Hm). exists k. split.
    + apply group_keys_In. eauto.
    + apply filter_In. split; [now apply group_In|].
      apply time_eqb_iff. eauto.
Qed.

(** X15.  The latest table has the columns of the cleaned table and
    holds exactly its rows that are dated at the maximum date of their
    location, every one of them when several are.  Every location that
    has a dated row has a row in it, dated no earlier than any row of
    that location. *)
Theorem latest_table_correct (df latest : DataFrame) :
  latest_table df = Ok latest ->
  columns latest = columns df /\
  (forall r,
      In r (rows latest) <->
      In r (rows df) /\
      exists k t, location r = Some k /\ date r = Some t /\
                  max_date (group k (rows df)) = Some t) /\
  (forall r k t,
      In r (rows df) -> location r = Some k -> date r = Some t ->
      exists r' t',
        In r' (rows latest) /\ location r' = Some k /\
        date r' = Some t' /\ (t <= t')%Z).
Proof.
  intros H. apply latest_table_rows in H. destruct H as [Hc Hr].
  split; [exact Hc|]. rewrite Hr. split; [apply groupby_latest_in|].
  intros r k t Hin Hl Hd.
  destruct (max_time_upper (map date (group k (rows df))) t) as (e & He & Hle).
  { rewrite <- Hd. apply in_map. now apply group_In. }
  pose proof (max_time_attained _ _ He) as Hat. apply in_map_iff in Hat.
  destruct Hat as (r' & Hd' & Hr'). apply group_In in Hr'.
  destruct Hr' as [Hr' Hl']. exists r', e. repeat split; auto.
  apply groupby_latest_in. split; [exact Hr'|]. exists k, e. auto.
Qed.

Lemma latest_table_correct_witness :
  latest_table sample_clean = Ok sample_latest /\
  columns sample_latest = columns sample_clean.
Proof.
  split; [reflexivity|].
  apply (latest_table_correct sample_clean sample_latest). reflexivity.
Defined.

(** ** Cleaning, then the latest rows *)

Lemma clean_invariants (raw df : DataFrame) :
  clean raw = Ok df ->
  (forall r, In r (rows df) ->
     is_none (date r) = false /\ is_none (location r) = false) /\
  sorted_by row_leb (rows df).
Proof.
  intros H. apply clean_rows in H. destruct H as [_ ->]. split.
  - intros r' Hr'.
    destruct (groupby_ffill_in _ (retained_notna raw) r' Hr') as (r & Hr & Hk).
    unfold sort_key in Hk. injection Hk as -> ->. now apply (retained_notna raw).
  - apply groupby_ffill_sorted; [apply retained_notna | apply retained_sorted].
Qed.

Lemma row_leb_same_location (a b : Row) (k : string) (ta tb : Z) :
  location a = Some k -> location b = Some k ->
  date a = Some ta -> date b = Some tb ->
  row_leb a b = true -> (ta <= tb)%Z.
Proof.
  unfold row_leb, leb_of, key_compare, lex_compare, sort_key. simpl.
  intros -> -> -> ->. simpl. rewrite (cmp_refl String.compare). 
  destruct (ta ?= tb)%Z eqn:Hc; try discriminate; intros _.
  - apply Z.compare_eq in Hc. subst. apply Z.le_refl.
  - apply Z.compare_lt_iff in Hc. now apply Z.lt_le_incl.
Qed.

(** X16.  Cleaning and the latest table compose into the last known
    value: for every location, the last row of the cleaned table is in
    the latest table, and each of its cells is the value of the last
    retained row of that location that has one in that column, missing
    only when no row of the location has one. *)
Theorem latest_has_last_known_values (raw df latest : DataFrame) :
  clean raw = Ok df -> latest_table df = Ok latest ->
  forall k pre r',
    group k (rows df) = pre ++ [r'] ->
    In r' (rows latest) /\
    List.length (group k (retained raw)) = S (List.length pre) /\
    forall c, forward_fill_at c (group k (retained raw)) (List.length pre) (cell c r').
Proof.
  intros Hc Hl k pre r' Hg.
  destruct (clean_invariants raw df Hc) as [Hna Hs].
  apply latest_table_rows in Hl. destruct Hl as [_ Hrows].
  pose proof (clean_rows raw df Hc) as [_ Hdf].
  assert (Hfill : fillna_ffill (group k (retained raw)) = pre ++ [r']).
  { rewrite <- Hg, Hdf. symmetry. apply group_groupby_ffill, retained_notna. }
  assert (Hin : In r' (group k (rows df))) by (rewrite Hg; apply in_or_app; simpl; auto).
  apply group_In in Hin. destruct Hin as [Hin Hloc].
  split; [|split].
  - rewrite Hrows. apply groupby_latest_in. split; [exact Hin|].
    destruct (Hna r' Hin) as [Hd _].
    destruct (date r') as [t'|] eqn:Hd'; [|discriminate].
    exists k, t'. repeat split; auto.
    destruct (max_time_upper (map date (group k (rows df))) t') as (e & He & Hle).
    { rewrite <- Hd'. apply in_map. apply group_In. auto. }
    unfold max_date. rewrite He. f_equal.
    pose proof (max_time_attained _ _ He) as Hat. apply in_map_iff in Hat.
    destruct Hat as (r & Hdr & Hr). rewrite Hg in Hr.
    apply in_app_or in Hr. destruct Hr as [Hr|[<-|[]]]; [|congruence].
    assert (Hsg : StronglySorted (fun x y => row_leb x y = true) (pre ++ [r'])).
    { rewrite <- Hg. apply StronglySorted_filter. exact Hs. }
    apply StronglySorted_app_inv in Hsg. destruct Hsg as (_ & _ & Hle').
    specialize (Hle' r r' Hr (or_introl eq_refl)).
    assert (Hrk : location r = Some k).
    { assert (Hx : In r (group k (rows df)))
        by (rewrite Hg; apply in_or_app; now left).
      now apply group_In in Hx. }
    pose proof (row_leb_same_location r r' k e t' Hrk Hloc Hdr Hd' Hle'). lia.
  - rewrite <- (fillna_ffill_length (group k (retained raw))), Hfill.
    rewrite length_app. simpl. lia.
  - intros c. apply fillna_ffill_spec. rewrite Hfill.
    rewrite nth_error_app2 by lia. now rewrite Nat.sub_diag.
Qed.

Lemma latest_has_last_known_values_witness :
  clean sample_raw = Ok sample_clean /\
  latest_table sample_clean = Ok sample_latest /\
  group "India" (rows sample_clean) =
    removelast (group "India" (rows sample_clean)) ++
    [last (group "India" (rows sample_clean)) (obs "" "" 0 0 0 0 0 0 0)] /\
  In (last (group "India" (rows sample_clean)) (obs "" "" 0 0 0 0 0 0 0))
     (rows sample_latest).
Proof.
  split; [reflexivity|]. split; [reflexivity|]. split; [reflexivity|].
  apply (latest_has_last_known_values sample_raw sample_clean sample_latest
           eq_refl eq_refl "India"
           (removelast (group "India" (rows sample_clean)))
           (last (group "India" (rows sample_clean)) (obs "" "" 0 0 0 0 0 0 0))
           eq_refl).
Defined.

(** ** A file without the key columns *)

(** X17.  On a loaded table that lacks the column [date] or the column
    [location], the script stops in the cleaning block: after the
    message that reports the loaded rows and columns it raises a
    [KeyError], having shown no chart, printed no summary and read no
    menu input. *)
Theorem analysis_needs_date_and_location (argsort : list float -> list nat)
    (world : list Region) (w : World) (raw : DataFrame) (stdin : list string) :
  has_column raw "date" = false \/ has_column raw "location" = false ->
  exists name,
    analysis argsort world w raw stdin =
    ([PrintLoaded (List.length (rows raw)) (columns raw)], Raise (KeyError name)).
Proof.
  intros Hmiss. destruct (clean raw) as [df|e] eqn:Hc.
  - exfalso. unfold clean, dropna_date_location in Hc. invert_ok.
    repeat match goal with
           | E : require_column (select_available raw) _ = Ok _ |- _ =>
               apply require_column_ok, has_column_available in E;
               destruct E as [_ E]
           end.
    destruct Hmiss; congruence.
  - destruct (clean_raises_key_error raw e Hc) as [name ->].
    exists name. unfold analysis. rewrite Hc. reflexivity.
Qed.

Lemma analysis_needs_date_and_location_witness :
  has_column (mkDataFrame ["iso_code"; "date"; "total_cases"] (rows sample_raw))
             "location" = false /\
  exists name,
    analysis stable_argsort sample_world world_online
      (mkDataFrame ["iso_code"; "date"; "total_cases"] (rows sample_raw))
      ["1"; "5"] =
    ([PrintLoaded 9 ["iso_code"; "date"; "total_cases"]], Raise (KeyError name)).
Proof.
  split; [reflexivity|].
  apply (analysis_needs_date_and_location stable_argsort sample_world world_online
           (mkDataFrame ["iso_code"; "date"; "total_cases"] (rows sample_raw))
           ["1"; "5"]).
  right. reflexivity.
Defined.

(** ** An HTTP error status *)

(** X18.  A response with an HTTP error status (400 to 599) counts as a
    failed download: its body is not written to the local file, the
    failure is reported with the status, and [load_data] falls back on
    the local file as it stands, raising [FileNotFoundError] when there
    is none. *)
Theorem http_error_keeps_local_file (read_csv : string -> option DataFrame)
    (w : World) (resp : Response) :
  requests_get w = Ok resp ->
  (400 <= status_code resp < 600)%Z ->
  load_data read_csv w =
  (([PrintDownloading; PrintRemoteFailed (HTTPError (status_code resp))],
    read_local read_csv w), w).
Proof.
  intros Hget [Hlo Hhi]. apply load_data_download_failed.
  unfold download, raise_for_status. rewrite Hget. simpl.
  apply Z.leb_le in Hlo. apply Z.ltb_lt in Hhi. now rewrite Hlo, Hhi.
Qed.

Lemma http_error_keeps_local_file_witness :
  requests_get world_nothing = Ok (mkResponse 404 "Not Found") /\
  load_data sample_read_csv world_nothing =
  (([PrintDownloading; PrintRemoteFailed (HTTPError 404)],
    Raise FileNotFoundError), world_nothing).
Proof.
  split; [reflexivity|].
  apply (http_error_keeps_local_file sample_read_csv world_nothing
           (mkResponse 404 "Not Found") eq_refl).
  simpl. lia.
Defined.

(** ** How the script ends *)

Lemma run_bind_ok {A B : Type} (m : Run A) (k : A -> Run B) (b : B) :
  outcome (run_bind m k) = Ok b ->
  exists a, outcome m = Ok a /\ outcome (k a) = Ok b.
Proof.
  rewrite run_bind_outcome. destruct (outcome m) as [a|e]; [eauto | discriminate].
Qed.

Lemma navigation_menu_returns (df_filt : DataFrame) (stdin rest : list string) :
  outcome (navigation_menu df_filt stdin) = Ok rest ->
  exists pre, stdin = pre ++ "5" :: rest /\ ~ In "5" pre.
Proof.
  revert rest. induction stdin as [|choice stdin IH]; intros rest H;
    [discriminate|].
  rewrite navigation_menu_cons in H.
  destruct (menu_choice_cases df_filt choice)
    as [[-> Hm]|[(N5 & out & Hm)|(Hc & name & Hm & Hn)]];
    rewrite Hm in H.
  - injection H as <-. exists []. split; [reflexivity | tauto].
  - rewrite !run_bind_outcome in H. cbn [outcome emit snd] in H.
    destruct (IH rest H) as (pre & -> & Hpre). exists (choice :: pre).
    split; [reflexivity|]. intros [E|E]; [congruence | contradiction].
  - discriminate.
Qed.

(** X19.  The script ends without an exception only through the menu:
    a run that returns has loaded a table, cleaned and filtered it, and
    read a first ["5"] from the menu input, leaving unread what follows
    it. *)
Theorem script_returns_only_on_exit (read_csv : string -> option DataFrame)
    (argsort : list float -> list nat) (world : list Region) (w : World)
    (stdin rest : list string) :
  outcome (fst (script read_csv argsort world w stdin)) = Ok rest ->
  (exists pre, stdin = pre ++ "5" :: rest /\ ~ In "5" pre) /\
  exists raw df end_date df_filt,
    outcome (fst (load_data read_csv w)) = Ok raw /\
    clean raw = Ok df /\
    filter_block df = Ok (end_date, df_filt) /\
    outcome (navigation_menu df_filt stdin) = Ok rest.
Proof.
  unfold script. destruct (load_data read_csv w) as [loaded w'] eqn:Hload.
  cbn [fst]. intros H.
  apply run_bind_ok in H. destruct H as (raw & Hraw & H).
  unfold analysis in H.
  apply run_bind_ok in H. destruct H as (? & _ & H).
  apply run_bind_ok in H. destruct H as (df & Hdf & H).
  apply run_bind_ok in H. destruct H as ([e df_filt] & Hf & H).
  repeat (apply run_bind_ok in H; destruct H as (? & _ & H)).
  split; [now apply (navigation_menu_returns df_filt)|].
  exists raw, df, e, df_filt. auto.
Qed.

Lemma script_returns_only_on_exit_witness :
  outcome (fst (script sample_read_csv stable_argsort sample_world world_cached
                  ["1"; "5"; "2"])) =
    Ok ["2"] /\
  exists pre, ["1"; "5"; "2"] = pre ++ "5" :: ["2"] /\ ~ In "5" pre.
Proof.
  split; [reflexivity|].
  apply (script_returns_only_on_exit sample_read_csv stable_argsort sample_world
           world_cached ["1"; "5"; "2"] ["2"]).
  reflexivity.
Defined.

(** ** The chart that only the menu draws *)

Lemma plot_dual_axis_kind (data : DataFrame) (m1 m2 : Column)
    (name1 name2 : string) (fig : Figure) :
  plot_dual_axis data m1 m2 name1 name2 = Ok fig ->
  exists left right, fig = DualAxis name1 name2 left right.
Proof.
  unfold plot_dual_axis. intros H. invert_ok. eauto.
Qed.

Lemma navigation_menu_forall_in (P : Output -> Prop) (df_filt : DataFrame)
    (stdin : list string) :
  P PrintMenu ->
  (forall choice, In choice stdin -> Forall P (trace (menu_choice df_filt choice))) ->
  Forall P (trace (navigation_menu df_filt stdin)).
Proof.
  intros Hm. induction stdin as [|choice rest IH]; intros Hc.
  - repeat constructor. exact Hm.
  - rewrite navigation_menu_cons. trace_forall.
    + now apply Forall_trace_emit.
    + apply Hc. now left.
    + apply IH. intros c Hin. apply Hc. now right.
Qed.

(** Turns the hypothesis that a chart was drawn into the kind of chart
    it is. *)
Ltac chart_kind :=
  repeat match goal with
         | H : outcome (lift _) = Ok _ |- _ => apply lift_outcome in H
         end;
  repeat match goal with
         | H : plot_time_series _ _ _ = Ok _ |- _ =>
             apply plot_time_series_kind in H; destruct H as [? ->]
         | H : plot_dual_axis _ _ _ _ _ = Ok _ |- _ =>
             apply plot_dual_axis_kind in H; destruct H as (? & ? & ->)
         | H : plot_choropleth _ _ = Ok _ |- _ =>
             apply plot_choropleth_kind in H; destruct H as [? ->]
         end.

Lemma menu_choice_not_cases_vs_deaths (df_filt : DataFrame) (choice : string) :
  choice <> "4" ->
  Forall not_cases_vs_deaths (trace (menu_choice df_filt choice)).
Proof.
  intros N4. unfold menu_choice.
  destruct (String.eqb_spec choice "4") as [E|_]; [contradiction|].
  trace_forall; apply Forall_trace_emit; simpl; auto; chart_kind; reflexivity.
Qed.

(** X20.  The chart of new cases against new deaths is drawn on menu
    input ["4"] and nowhere else: a run whose menu input holds no ["4"],
    the initial pass included, shows no such chart. *)
Theorem cases_vs_deaths_only_on_request (argsort : list float -> list nat)
    (world : list Region) (w : World) (raw : DataFrame) (stdin : list string) :
  ~ In "4" stdin ->
  forall fig,
    In fig (charts (trace (analysis argsort world w raw stdin))) ->
    is_cases_vs_deaths fig = false.
Proof.
  intros N4.
  assert (H : Forall not_cases_vs_deaths (trace (analysis argsort world w raw stdin))).
  { unfold analysis, initial_dual_axis, insights.
    trace_forall; try (apply Forall_trace_emit; simpl; auto; chart_kind; reflexivity).
    apply navigation_menu_forall_in; [exact I|].
    intros choice Hin. apply menu_choice_not_cases_vs_deaths.
    intros ->. contradiction. }
  induction H as [|o out Ho _ IH]; simpl; [tauto|].
  destruct o; auto. intros fig' [<-|Hin]; auto.
Qed.

Lemma cases_vs_deaths_only_on_request_witness :
  ~ In "4" ["1"; "3"; "5"] /\
  forall fig,
    In fig (charts (trace (analysis stable_argsort sample_world world_online
                             sample_raw ["1"; "3"; "5"]))) ->
    is_cases_vs_deaths fig = false.
Proof.
  assert (N4 : ~ In "4" ["1"; "3"; "5"]).
  { intros [H|[H|[H|[]]]]; discriminate. }
  split; [exact N4|].
  apply (cases_vs_deaths_only_on_request stable_argsort sample_world world_online
           sample_raw ["1"; "3"; "5"] N4).
Defined.

Example cases_vs_deaths_on_request :
  existsb is_cases_vs_deaths
    (charts (trace (analysis stable_argsort sample_world world_online
                      sample_raw ["4"; "5"]))) = true.
Proof. vm_compute. reflexivity. Qed.

(** ** Two runs on the same data *)

Lemma plot_time_series_full (data : DataFrame) (metric : Column) (title : string) :
  has_column data "location" = true -> has_column data "date" = true ->
  has_column data (label metric) = true ->
  plot_time_series data metric title =
  Ok (TimeSeries title metric (lines_of metric (rows data))).
Proof.
  intros Hl Hd Hm. rewrite plot_time_series_eq, Hl, Hd, Hm.
  unfold lines_of. now destruct (group_keys (rows data)).
Qed.

Lemma plot_dual_axis_full (data : DataFrame) (m1 m2 : Column) (name1 name2 : string) :
  has_column data "location" = true -> has_column data "date" = true ->
  has_column data (label m1) = true -> has_column data (label m2) = true ->
  plot_dual_axis data m1 m2 name1 name2 =
  Ok (DualAxis name1 name2 (lines_of m1 (rows data)) (lines_of m2 (rows data))).
Proof.
  intros Hl Hd H1 H2. rewrite plot_dual_axis_eq, Hl, Hd, H1, H2.
  unfold lines_of. now destruct (group_keys (rows data)).
Qed.

Lemma label_in_cols (c : Column) : In (label c) cols.
Proof. destruct c; simpl; tauto. Qed.

Lemma emit_step {A : Type} (o : Output) (k : unit -> Run A)
    (out : list Output) (r : Result A) :
  k tt = (out, r) -> run_bind (emit o) k = (o :: out, r).
Proof. intros H. unfold emit, run_bind. now rewrite H. Qed.

Lemma lift_ok_step {A B : Type} (a : A) (k : A -> Run B) :
  run_bind (lift (Ok a)) k = k a.
Proof. unfold lift, run_bind. now destruct (k a). Qed.


(** A table with a row that has a date and a location has a latest
    date once it is cleaned. *)
Lemma clean_end_date (raw df df_filt : DataFrame) (end_date : option Timestamp) :
  clean raw = Ok df ->
  filter_block df = Ok (end_date, df_filt) ->
  (exists r, In r (rows raw) /\ date r <> None /\ location r <> None) ->
  exists e, end_date = Some e.
Proof.
  intros Hc Hf (r & Hr & Hd & Hl).
  assert (He : end_date = max_date (rows df)).
  { unfold filter_block in Hf. invert_ok. reflexivity. }
  apply clean_rows in Hc. destruct Hc as [_ Hrows].
  assert (Hkeys : map sort_key (rows df) = map sort_key (retained raw)).
  { rewrite Hrows. apply groupby_ffill_sort_key;
      [apply retained_notna | apply retained_sorted]. }
  assert (Hin : In (sort_key r) (map sort_key (rows df))).
  { rewrite Hkeys. apply in_map. unfold retained.
    apply stable_sort_in, filter_In. split; [exact Hr|].
    destruct (date r); [|contradiction]. destruct (location r); [|contradiction].
    reflexivity. }
  apply in_map_iff in Hin. destruct Hin as (r' & Hk & Hr').
  unfold sort_key in Hk. injection Hk as _ Hdate.
  destruct (date r) as [t|] eqn:Ht; [|contradiction].
  destruct (max_time_upper (map date (rows df)) t) as (e & Hm & _).
  { rewrite <- Hdate. now apply in_map. }
  exists e. now rewrite He.
Qed.

Lemma schema_kept (raw df df_filt : DataFrame) (e : option Timestamp) :
  clean raw = Ok df -> filter_block df = Ok (e, df_filt) ->
  (forall c, has_column raw (label c) = true) ->
  (forall c, has_column df (label c) = true) /\
  (forall c, has_column df_filt (label c) = true).
Proof.
  intros Hc Hf Hcols.
  pose proof (clean_rows raw df Hc) as [Hdf _].
  pose proof (filter_block_columns _ _ _ Hf) as Hfilt.
  assert (Hdfc : forall c, has_column df (label c) = true).
  { intros c. rewrite (has_column_columns (select_available raw) df) by exact Hdf.
    apply has_column_available. split; [apply label_in_cols | apply Hcols]. }
  split; [exact Hdfc|].
  intros c. rewrite (has_column_columns df df_filt) by exact Hfilt. apply Hdfc.
Qed.

Lemma latest_table_total (df : DataFrame) :
  (forall c, has_column df (label c) = true) ->
  exists latest,
    latest_table df = Ok latest /\
    forall c, has_column latest (label c) = true.
Proof.
  intros Hdfc.
  assert (Hlatest : exists latest,
             latest_table df = Ok latest /\ columns latest = columns df).
  { unfold latest_table.
    rewrite (require_column_has df "location" (Hdfc c_location)).
    rewrite (require_column_has df "iso_code" (Hdfc c_iso_code)).
    cbn [bind].
    destruct (group_keys (rows df));
      [| rewrite (require_column_has df "date" (Hdfc c_date))];
      cbn [bind]; eauto. }
  destruct Hlatest as (latest & Hlatest & Hlc).
  exists latest. split; [exact Hlatest|].
  intros c. rewrite (has_column_columns df latest) by exact Hlc. apply Hdfc.
Qed.





(** The run without network: the local copy is loaded, the three charts
    of the filtered data are shown, and the download of the tiles ends
    the run before the map, the summary and the menu. *)
Example offline_run :
  after_loading (trace (fst (script sample_read_csv stable_argsort sample_world
                               world_offline ["1"; "5"]))) =
  firstn 5 (trace (analysis stable_argsort sample_world world_online
                     sample_raw ["1"; "5"])) /\
  outcome (fst (script sample_read_csv stable_argsort sample_world
                  world_offline ["1"; "5"])) = Raise RequestException.
Proof. split; vm_compute; reflexivity. Qed.

(** A file that holds the header line only: the script stops at the
    message of the filter block. *)
Example header_only_file :
  analysis stable_argsort sample_world world_online
    (mkDataFrame (columns sample_raw) []) ["5"] =
  ([PrintLoaded 0 (columns sample_raw)], Raise AttributeError).
Proof. vm_compute. reflexivity. Qed.

(** ** The basemap tiles *)

(** X21.  The map needs the network: when the tiles of the basemap
    cannot be fetched, the script ends with an exception before the map
    is shown, whatever the data and the menu input.  It has printed at
    most the two messages and shown at most the initial charts: no map,
    no summary, no menu.  On a table with the nine columns and a row
    that has a date and a location it has shown the two time-series
    charts and the dual-axis chart, and the exception is that of the
    tile download. *)
Theorem tiles_needed_for_map (argsort : list float -> list nat)
    (world : list Region) (w : World) (raw : DataFrame) (stdin : list string)
    (e : Exception) :
  fetch_tiles w = Raise e ->
  Forall before_the_map (trace (analysis argsort world w raw stdin)) /\
  (forall rest, outcome (analysis argsort world w raw stdin) <> Ok rest) /\
  ((forall c, has_column raw (label c) = true) ->
   (exists r, In r (rows raw) /\ date r <> None /\ location r <> None) ->
   exists df end_date df_filt,
     clean raw = Ok df /\
     filter_block df = Ok (Some end_date, df_filt) /\
     analysis argsort world w raw stdin =
     ([ PrintLoaded (List.length (rows raw)) (columns raw);
        PrintFiltering 3 start_date (Some end_date);
        Show (TimeSeries "Total Cases Over Time" c_total_cases
                (lines_of c_total_cases (rows df_filt)));
        Show (TimeSeries "Total Deaths Over Time" c_total_deaths
                (lines_of c_total_deaths (rows df_filt)));
        Show (DualAxis "Daily New Cases" "Total Vaccinations"
                (lines_of c_new_cases (rows df_filt))
                (lines_of c_total_vaccinations (rows df_filt))) ],
      Raise e)).
Proof.
  intros Htiles. split; [|split].
  - unfold analysis, initial_dual_axis, add_basemap. rewrite Htiles.
    apply Forall_trace_bind; [now apply Forall_trace_emit | intros _ _].
    apply Forall_trace_bind; [apply Forall_trace_lift | intros df _].
    apply Forall_trace_bind; [apply Forall_trace_lift | intros [end_date df_filt] _].
    apply Forall_trace_bind; [apply Forall_trace_lift | intros _ _].
    apply Forall_trace_bind; [now apply Forall_trace_emit | intros _ _].
    apply Forall_trace_bind; [apply Forall_trace_lift | intros fig1 H1].
    apply Forall_trace_bind;
      [apply Forall_trace_emit; chart_kind; reflexivity | intros _ _].
    apply Forall_trace_bind; [apply Forall_trace_lift | intros fig2 H2].
    apply Forall_trace_bind;
      [apply Forall_trace_emit; chart_kind; reflexivity | intros _ _].
    apply Forall_trace_bind.
    { destruct (has_column df_filt "total_vaccinations");
        [|apply Forall_trace_ret].
      apply Forall_trace_bind; [apply Forall_trace_lift | intros fig3 H3].
      apply Forall_trace_emit. chart_kind. reflexivity. }
    intros _ _.
    apply Forall_trace_bind; [apply Forall_trace_lift | intros latest _].
    apply Forall_trace_bind; [apply Forall_trace_lift | intros fig _].
    apply Forall_trace_bind; [apply Forall_trace_lift | intros u Hu].
    apply lift_outcome in Hu. discriminate Hu.
  - intros rest H. unfold analysis, add_basemap in H. rewrite Htiles in H.
    apply run_bind_ok in H. destruct H as (? & _ & H).
    apply run_bind_ok in H. destruct H as (df & _ & H).
    apply run_bind_ok in H. destruct H as ([end_date df_filt] & _ & H).
    do 9 (apply run_bind_ok in H; destruct H as (? & _ & H)).
    apply run_bind_ok in H. destruct H as (? & Hu & _).
    discriminate Hu.
  - intros Hcols Hrow.
    destruct (clean_total raw (Hcols c_date) (Hcols c_location)) as [df Hc].
    destruct (filter_block_after_clean raw df Hc) as (end_date' & df_filt & Hf).
    destruct (clean_end_date raw df df_filt end_date' Hc Hf Hrow) as [end_date ->].
    destruct (schema_kept raw df df_filt _ Hc Hf Hcols) as [Hdfc Hfc].
    destruct (latest_table_total df Hdfc) as (latest & Hlatest & Hlat).
    exists df, end_date, df_filt. split; [exact Hc|]. split; [exact Hf|].
    unfold analysis, initial_dual_axis, add_basemap, plot_choropleth.
    apply emit_step.
    rewrite Hc, lift_ok_step, Hf, lift_ok_step.
    change (date_of_end raw (Some end_date)) with (@Ok unit tt).
    rewrite lift_ok_step. apply emit_step.
    rewrite (plot_time_series_full df_filt c_total_cases _
               (Hfc c_location) (Hfc c_date) (Hfc c_total_cases)), lift_ok_step.
    apply emit_step.
    rewrite (plot_time_series_full df_filt c_total_deaths _
               (Hfc c_location) (Hfc c_date) (Hfc c_total_deaths)), lift_ok_step.
    apply emit_step.
    pose proof (Hfc c_total_vaccinations) as Hv. cbn [label] in Hv. rewrite Hv.
    rewrite (plot_dual_axis_full df_filt c_new_cases c_total_vaccinations _ _
               (Hfc c_location) (Hfc c_date) (Hfc c_new_cases)
               (Hfc c_total_vaccinations)), lift_ok_step.
    apply emit_step.
    rewrite Hlatest, lift_ok_step.
    rewrite (require_column_has latest "total_cases" (Hlat c_total_cases)).
    cbn [bind]. rewrite lift_ok_step, Htiles. reflexivity.
Qed.

Lemma tiles_needed_for_map_witness :
  fetch_tiles world_offline = Raise RequestException /\
  Forall before_the_map
    (trace (analysis stable_argsort sample_world world_offline sample_raw ["1"; "5"])).
Proof.
  split; [reflexivity|].
  apply (tiles_needed_for_map stable_argsort sample_world world_offline sample_raw
           ["1"; "5"] RequestException eq_refl).
Defined.

(** ** A file without data rows *)

(** X22.  On a loaded table that has the columns [date] and [location]
    and not a single row, the script stops at the message of the filter
    block: the latest date has no [date()], and after the message that
    reports zero rows the script raises [AttributeError], having shown
    no chart. *)
Theorem empty_file_stops_at_filter_message (argsort : list float -> list nat)
    (world : list Region) (w : World) (raw : DataFrame) (stdin : list string) :
  has_column raw "date" = true -> has_column raw "location" = true ->
  rows raw = [] ->
  analysis argsort world w raw stdin =
  ([PrintLoaded 0 (columns raw)], Raise AttributeError).
Proof.
  intros Hd Hl Hrows.
  destruct (clean_total raw Hd Hl) as [df Hc].
  destruct (filter_block_after_clean raw df Hc) as (end_date & df_filt & Hf).
  assert (He : end_date = None).
  { assert (E : end_date = max_date (rows df)).
    { unfold filter_block in Hf. invert_ok. reflexivity. }
    apply clean_rows in Hc. destruct Hc as [_ Hr]. rewrite E, Hr.
    unfold retained. rewrite Hrows. reflexivity. }
  subst end_date.
  unfold analysis. rewrite Hrows. apply emit_step.
  rewrite Hc, lift_ok_step, Hf, lift_ok_step.
  unfold date_of_end. rewrite Hrows. reflexivity.
Qed.

Lemma empty_file_stops_at_filter_message_witness :
  has_column (mkDataFrame (columns sample_raw) []) "date" = true /\
  has_column (mkDataFrame (columns sample_raw) []) "location" = true /\
  analysis stable_argsort sample_world world_online
    (mkDataFrame (columns sample_raw) []) ["5"] =
  ([PrintLoaded 0 (columns sample_raw)], Raise AttributeError).
Proof.
  split; [reflexivity|]. split; [reflexivity|].
  apply (empty_file_stops_at_filter_message stable_argsort sample_world
           world_online (mkDataFrame (columns sample_raw) []) ["5"]
           eq_refl eq_refl eq_refl).
Defined.
